(** * trading-alerts: a shallow embedding of [app.py]

    The monitor polls 5-minute candles for a list of tickers, looks at the
    last two candles of each window and posts a SPIKE alert and an ENTRY
    SIGNAL alert to a webhook, remembering in two dictionaries which candles
    it has already alerted on.

    Python floats are IEEE 754 binary64 numbers: they are embedded as Rocq's
    primitive floats, whose operations are the same functions.  The two
    dictionaries are finite maps with string keys.  Everything the program
    reads from outside (the clock, the market-data download, the webhook's
    answer) comes from a [World] of oracles; everything it does to the
    outside is appended to a trace. *)

From Stdlib Require Import ZArith Lia List Ascii String DecimalString.
From Stdlib Require Import Floats.
From stdpp Require Import base option list gmap strings.

Set Warnings "-inexact-float".
Local Open Scope string_scope.
Local Open Scope Z_scope.

(** ** Text rendering *)

Module Render.

(** The line feed of Python's ["\n"]. *)
Definition nl : string := String "010"%char EmptyString.

(** [str(n)] for a non-negative integer. *)
Definition dec (n : Z) : string :=
  NilZero.string_of_uint (N.to_uint (Z.to_N n)).

Fixpoint zeros (k : nat) : string :=
  match k with
  | O => EmptyString
  | S k' => String "0"%char (zeros k')
  end.

(** ["%0<width>d" % n] for a non-negative integer: zeros on the left up to
    [width] characters, never truncating. *)
Definition pad (width : nat) (n : Z) : string :=
  let s := dec n in
  zeros (width - String.length s) ++ s.

(** [format(x, ".2f")] on a binary64 number: the exact binary value,
    rounded half-to-even to two decimals, sign kept on zero. *)
Definition round_half_even (num den : Z) : Z :=
  let q := num / den in
  let r := num mod den in
  if (den <? 2 * r) || ((den =? 2 * r) && Z.odd q) then q + 1 else q.

Definition format_2f (x : float) : string :=
  match Prim2SF x with
  | S754_nan => "nan"
  | S754_infinity s => if s then "-inf" else "inf"
  | S754_zero s => if s then "-0.00" else "0.00"
  | S754_finite s m e =>
      let hundredths :=
        if 0 <=? e
        then Z.pos m * 2 ^ e * 100
        else round_half_even (Z.pos m * 100) (2 ^ (- e)) in
      (if s then "-" else "") ++
      dec (hundredths / 100) ++ "." ++ pad 2 (hundredths mod 100)
  end.

End Render.

(** ** Dates and times

    A [datetime] as Python's [datetime.datetime] holds it: the calendar
    fields and, for an aware value, the offset from UTC in minutes.  The
    index of a candle frame holds values of the same shape (the nanosecond
    part a pandas timestamp adds is zero on a 5-minute grid and is not
    represented). *)

Record datetime : Type := mk_datetime {
  year : Z;
  month : Z;
  day : Z;
  hour : Z;
  minute : Z;
  second : Z;
  microsecond : Z;
  utcoffset : option Z
}.

#[global] Instance datetime_eq_dec : EqDecision datetime.
Proof. solve_decision. Defined.

Module Calendar.

Definition is_leap (y : Z) : bool :=
  (y mod 4 =? 0) && (negb (y mod 100 =? 0) || (y mod 400 =? 0)).

Definition days_before_year (y : Z) : Z :=
  let y1 := y - 1 in
  y1 * 365 + y1 / 4 - y1 / 100 + y1 / 400.

Definition days_before_month_table : list Z :=
  [0; 31; 59; 90; 120; 151; 181; 212; 243; 273; 304; 334].

Definition days_before_month (y m : Z) : Z :=
  nth (Z.to_nat (m - 1)) days_before_month_table 0
  + (if (2 <? m) && is_leap y then 1 else 0).

(** [date.toordinal()]: 1 for 0001-01-01. *)
Definition toordinal (d : datetime) : Z :=
  days_before_year (year d) + days_before_month (year d) (month d) + day d.

(** [date.weekday()]: Monday is 0 and Sunday is 6. *)
Definition weekday (d : datetime) : Z := (toordinal d + 6) mod 7.

(** [datetime.replace(hour=, minute=, second=, microsecond=)]. *)
Definition replace_time (d : datetime) (h mi s us : Z) : datetime :=
  mk_datetime (year d) (month d) (day d) h mi s us (utcoffset d).

(** Lexicographic order on lists of fields. *)
Fixpoint lex_leb (xs ys : list Z) : bool :=
  match xs, ys with
  | x :: xs', y :: ys' => (x <? y) || ((x =? y) && lex_leb xs' ys')
  | [], _ => true
  | _ :: _, [] => false
  end.

Definition fields (d : datetime) : list Z :=
  [year d; month d; day d; hour d; minute d; second d; microsecond d].

(** [a <= b] on two datetimes that share their [tzinfo]: the zone is
    ignored and the fields are compared in order. *)
Definition datetime_leb (a b : datetime) : bool := lex_leb (fields a) (fields b).

(** Microseconds since local midnight. *)
Definition time_of_day (d : datetime) : Z :=
  ((hour d * 60 + minute d) * 60 + second d) * 1000000 + microsecond d.

(** The ranges Python enforces on the time fields of a datetime. *)
Definition valid_time (d : datetime) : Prop :=
  0 <= hour d < 24 /\ 0 <= minute d < 60 /\ 0 <= second d < 60 /\
  0 <= microsecond d < 1000000.

(** [str(d)], that is [d.isoformat(sep)]. *)
Definition offset_str (o : option Z) : string :=
  match o with
  | None => ""
  | Some off =>
      (if off <? 0 then "-" else "+") ++
      Render.pad 2 (Z.abs off / 60) ++ ":" ++ Render.pad 2 (Z.abs off mod 60)
  end.

Definition strftime_HMS (d : datetime) : string :=
  Render.pad 2 (hour d) ++ ":" ++ Render.pad 2 (minute d) ++ ":" ++
  Render.pad 2 (second d).

Definition isoformat (sep : string) (d : datetime) : string :=
  Render.pad 4 (year d) ++ "-" ++ Render.pad 2 (month d) ++ "-" ++
  Render.pad 2 (day d) ++ sep ++ strftime_HMS d ++
  (if microsecond d =? 0 then "" else "." ++ Render.pad 6 (microsecond d)) ++
  offset_str (utcoffset d).

Definition str (d : datetime) : string := isoformat " " d.

End Calendar.

(** ** MarketClock: [get_market_status]

    The function reads [datetime.now(et)]; the reading is its argument
    here. *)

Definition get_market_status (now : datetime) : bool :=
  if 5 <=? Calendar.weekday now then false
  else
    let market_open := Calendar.replace_time now 9 30 0 0 in
    let market_close := Calendar.replace_time now 16 0 0 0 in
    Calendar.datetime_leb market_open now && Calendar.datetime_leb now market_close.

(** ** Candles

    One row of the frame [yf.download] returns (the columns the program
    reads; [Low] is carried along). *)

Record Bar : Type := mk_Bar {
  Open : float;
  High : float;
  Low : float;
  Close : float;
  Volume : float
}.

(** A row after [get_5min_candles] has added its three columns. *)
Record Candle : Type := mk_Candle {
  bar : Bar;
  volume_avg_20 : float;
  volume_ratio : float;
  candle_move_pct : float
}.

(** A frame: the index (a timestamp per row) and the rows, oldest first. *)
Abbreviation RawFrame := (list (datetime * Bar)).
Abbreviation DataFrame := (list (datetime * Candle)).

Module Pandas.

Definition float_of_nat (n : nat) : float :=
  PrimFloat.of_uint63 (Uint63.of_Z (Z.of_nat n)).

Definition fsum (xs : list float) : float :=
  fold_left PrimFloat.add xs 0%float.

(** [Series.rolling(n).mean()]: the mean of the row and the [n - 1] rows
    before it, NaN while fewer than [n] rows are there ([min_periods]
    defaults to the window). *)
Definition rolling_mean (n : nat) (xs : list float) : list float :=
  imap (fun i _ =>
          if (S i <? n)%nat then nan
          else (fsum (take n (drop (S i - n) xs)) / float_of_nat n)%float)
       xs.

(** [df.tail(limit)]. *)
Definition tail {A} (limit : nat) (l : list A) : list A :=
  drop (length l - limit) l.

(** The position [df.iloc[i]] reads, when there is one. *)
Definition iloc_position (len : nat) (i : Z) : option nat :=
  let j := if i <? 0 then Z.of_nat len + i else i in
  if (0 <=? j) && (j <? Z.of_nat len) then Some (Z.to_nat j) else None.

End Pandas.

(** The three derived columns of [get_5min_candles]. *)
Definition with_indicators (df : RawFrame) : DataFrame :=
  let avgs := Pandas.rolling_mean 20 (map (fun r => Volume r.2) df) in
  zip_with
    (fun r avg =>
       let b := r.2 in
       (r.1, {| bar := b;
                volume_avg_20 := avg;
                volume_ratio := (Volume b / avg)%float;
                candle_move_pct := (((Close b - Open b) / Open b) * 100)%float |}))
    df avgs.

(** ** The outside world and the program state *)

(** What [yf.download] does: it raises, or it returns a frame. *)
Inductive download_result : Type :=
| DownloadRaises (msg : string)
| DownloadFrame (df : RawFrame).

(** What [requests.post] does: it raises (no connection, timeout, ...), or
    it returns a response with a status code. *)
Inductive post_result : Type :=
| PostRaises (msg : string)
| PostResponse (status_code : Z).

(** The JSON embed sent to the webhook. *)
Record embed : Type := mk_embed {
  title : string;
  description : string;
  color : Z;
  timestamp : string
}.

Record World : Type := mk_World {
  WEBHOOK_URL : option string;
  STOCKS : list string;
  (** [datetime.now(et)] at the n-th pass of the main loop *)
  now_et : nat -> datetime;
  (** [datetime.now()] at the n-th pass of the main loop *)
  now_local : nat -> datetime;
  (** [datetime.utcnow()] at the n-th alert *)
  utcnow : nat -> datetime;
  (** the n-th call of [yf.download], for a ticker *)
  yf_download : nat -> string -> download_result;
  (** the n-th call of [requests.post], for a payload *)
  requests_post : nat -> embed -> post_result
}.

Inductive alert_kind : Type := SPIKE | ENTRY.

#[global] Instance alert_kind_eq_dec : EqDecision alert_kind.
Proof. solve_decision. Defined.

(** Which candle an alert is about.  This is bookkeeping of the model: the
    payload carries the ticker and the time of day only. *)
Record origin : Type := mk_origin {
  kind : alert_kind;
  ticker_of : string;
  candle_time : datetime
}.

#[global] Instance origin_eq_dec : EqDecision origin.
Proof. solve_decision. Defined.

Inductive level : Type := INFO | ERROR.

Inductive event : Type :=
| EvDownload (ticker : string)
| EvPost (o : origin) (payload : embed) (r : post_result)
| EvLog (lvl : level) (msg : string)
| EvSleep (seconds : float).

Record State : Type := mk_State {
  alerted_spikes : gmap string datetime;
  alerted_deaths : gmap string datetime;
  downloads : nat;
  posts : nat;
  trace : list event
}.

(** The state when the module has been loaded: both dictionaries empty. *)
Definition initial_state : State :=
  {| alerted_spikes := ∅; alerted_deaths := ∅;
     downloads := 0; posts := 0; trace := [] |}.

(** ** Computations: state, and Python exceptions *)

Inductive exn : Type := Exception (msg : string).

Definition exn_str (e : exn) : string := let 'Exception msg := e in msg.

Inductive result (A : Type) : Type :=
| Returns (a : A)
| Raises (e : exn).
Arguments Returns {A} a.
Arguments Raises {A} e.

Definition M (A : Type) : Type := World -> State -> State * result A.

#[global] Instance M_ret : MRet M := fun A a _ s => (s, Returns a).

#[global] Instance M_bind : MBind M := fun A B f m w s =>
  match m w s with
  | (s', Returns a) => f a w s'
  | (s', Raises e) => (s', Raises e)
  end.

Definition raise {A} (e : exn) : M A := fun _ s => (s, Raises e).

(** [try: body except Exception as e: handler e]. *)
Definition try_except {A} (body : M A) (handler : exn -> M A) : M A :=
  fun w s =>
    match body w s with
    | (s', Returns a) => (s', Returns a)
    | (s', Raises e) => handler e w s'
    end.

Definition emit (e : event) : M unit := fun _ s =>
  (mk_State (alerted_spikes s) (alerted_deaths s) (downloads s) (posts s)
            (trace s ++ [e]),
   Returns tt).

Definition logger_info (msg : string) : M unit := emit (EvLog INFO msg).
Definition logger_error (msg : string) : M unit := emit (EvLog ERROR msg).
Definition time_sleep (seconds : float) : M unit := emit (EvSleep seconds).

Definition get_state : M State := fun _ s => (s, Returns s).
Definition get_world : M World := fun w s => (s, Returns w).

(** [alerted_spikes[k] = v] and [alerted_deaths[k] = v]. *)
Definition set_alerted_spike (k : string) (v : datetime) : M unit := fun _ s =>
  (mk_State (<[k := v]> (alerted_spikes s)) (alerted_deaths s)
            (downloads s) (posts s) (trace s),
   Returns tt).

Definition set_alerted_death (k : string) (v : datetime) : M unit := fun _ s =>
  (mk_State (alerted_spikes s) (<[k := v]> (alerted_deaths s))
            (downloads s) (posts s) (trace s),
   Returns tt).

(** [yf.download(ticker, ...)]. *)
Definition download (ticker : string) : M RawFrame := fun w s =>
  let s' := mk_State (alerted_spikes s) (alerted_deaths s) (S (downloads s))
                     (posts s) (trace s ++ [EvDownload ticker]) in
  match yf_download w (downloads s) ticker with
  | DownloadRaises msg => (s', Raises (Exception msg))
  | DownloadFrame df => (s', Returns df)
  end.

(** [requests.post(WEBHOOK_URL, json=data)]. *)
Definition post (o : origin) (data : embed) : M Z := fun w s =>
  let r := requests_post w (posts s) data in
  let s' := mk_State (alerted_spikes s) (alerted_deaths s) (downloads s)
                     (S (posts s)) (trace s ++ [EvPost o data r]) in
  match r with
  | PostRaises msg => (s', Raises (Exception msg))
  | PostResponse code => (s', Returns code)
  end.

(** [response.raise_for_status()]: client and server errors (4xx, 5xx)
    raise; the text of the library's message is shortened. *)
Definition raise_for_status (status_code : Z) : M unit :=
  if (400 <=? status_code) && (status_code <? 600)
  then raise (Exception ("HTTP error " ++ Render.dec status_code))
  else mret tt.

(** [for x in xs: body x]. *)
Fixpoint for_each {A} (xs : list A) (body : A -> M unit) : M unit :=
  match xs with
  | [] => mret tt
  | x :: xs' => body x ≫= λ _, for_each xs' body
  end.

(** ** AlertSink: [send_discord_alert]

    The first argument says which candle the alert is about; it goes into
    the trace and nowhere else. *)

Definition send_discord_alert (o : origin) (title message : string) (color : Z)
  : M unit :=
  try_except
    (w ← get_world;
     s ← get_state;
     let embed :=
       {| title := title;
          description := message;
          color := color;
          timestamp := Calendar.isoformat "T" (utcnow w (posts s)) |} in
     status_code ← post o embed;
     raise_for_status status_code;;
     logger_info ("Alert sent: " ++ title))
    (λ e, logger_error ("Failed to send Discord alert: " ++ exn_str e)).

(** ** CandleSource: [get_5min_candles] *)

Definition get_5min_candles (ticker : string) (limit : nat) : M (option DataFrame) :=
  try_except
    (df ← download ticker;
     if bool_decide (df = [])
     then mret None
     else mret (Some (Pandas.tail limit (with_indicators df))))
    (λ e,
       logger_error ("Error fetching candles for " ++ ticker ++ ": " ++ exn_str e);;
       mret None).

(** ** PatternDetector: [check_spike_and_death_candle] *)

(** [df.iloc[i]] together with [df.index[i]]. *)
Definition iloc (df : DataFrame) (i : Z) : M (datetime * Candle) :=
  match Pandas.iloc_position (length df) i ≫= (df !!.) with
  | Some row => mret row
  | None => raise (Exception "single positional indexer is out-of-bounds")
  end.

Definition spike_key (ticker : string) (prev_time : datetime) : string :=
  ticker ++ "_" ++ Calendar.str prev_time.

Definition death_key (ticker : string) (current_time : datetime) : string :=
  ticker ++ "_" ++ Calendar.str current_time.

Definition spike_title (ticker : string) : string :=
  "🚨 SPIKE ALERT - " ++ ticker.

Definition spike_msg (ticker : string) (spike_move volume_ratio : float)
    (prev_candle : Candle) (prev_time : datetime) : string :=
  "**" ++ ticker ++ "** 📊" ++ Render.nl ++
  "Spike: +" ++ Render.format_2f spike_move ++ "%" ++ Render.nl ++
  "Volume Ratio: " ++ Render.format_2f volume_ratio ++ "x" ++ Render.nl ++
  "Price: $" ++ Render.format_2f (Close (bar prev_candle)) ++ Render.nl ++
  "Time: " ++ Calendar.strftime_HMS prev_time ++ " ET" ++ Render.nl ++
  "⏳ Waiting for next candle to close...".

Definition entry_title (ticker : string) : string :=
  "✅ ENTRY SIGNAL - " ++ ticker.

Definition risk_pct_of (hod_price close : float) : float :=
  (((hod_price - close) / close) * 100)%float.

Definition entry_msg (ticker : string) (current_candle : Candle)
    (hod_price risk_pct : float) (current_time : datetime) : string :=
  "**" ++ ticker ++ "** ✅ ENTRY SIGNAL" ++ Render.nl ++
  "Death Candle Formed (Red Close)" ++ Render.nl ++
  "Entry: Short at $" ++ Render.format_2f (Open (bar current_candle)) ++ Render.nl ++
  "Stop: Above HOD $" ++ Render.format_2f hod_price ++ Render.nl ++
  "Risk: " ++ Render.format_2f risk_pct ++ "%" ++ Render.nl ++
  "Target: 80 EMA" ++ Render.nl ++
  "Win Rate: 86.9%" ++ Render.nl ++
  "Expected Profit: 6.27%" ++ Render.nl ++
  "Time: " ++ Calendar.strftime_HMS current_time ++ " ET".

(** Lines 81 to 141: the body once the frame is there. *)
Definition detect (ticker : string) (df : option DataFrame) : M unit :=
  match df with
  | None => mret tt
  | Some df =>
    if (length df <? 2)%nat then mret tt
    else
      '(current_time, current_candle) ← iloc df (-1);
      '(prev_time, prev_candle) ← iloc df (-2);
      let spike_move := candle_move_pct prev_candle in
      (* the column is always there: get_5min_candles has set it *)
      let volume_ratio := volume_ratio prev_candle in
      let is_death_candle :=
        (Close (bar current_candle) <? Open (bar current_candle))%float in
      if (10 <=? spike_move)%float then
        let spike_key := spike_key ticker prev_time in
        s ← get_state;
        (if bool_decide (spike_key ∉ dom (alerted_spikes s)) then
           send_discord_alert (mk_origin SPIKE ticker prev_time)
             (spike_title ticker)
             (spike_msg ticker spike_move volume_ratio prev_candle prev_time)
             16711680;;
           set_alerted_spike spike_key current_time
         else mret tt);;
        if is_death_candle then
          let death_key := death_key ticker current_time in
          s ← get_state;
          if bool_decide (death_key ∉ dom (alerted_deaths s)) then
            let hod_price := High (bar prev_candle) in
            let risk_pct := risk_pct_of hod_price (Close (bar current_candle)) in
            send_discord_alert (mk_origin ENTRY ticker current_time)
              (entry_title ticker)
              (entry_msg ticker current_candle hod_price risk_pct current_time)
              65280;;
            set_alerted_death death_key current_time
          else mret tt
        else mret tt
      else mret tt
  end.

Definition check_spike_and_death_candle (ticker : string) : M unit :=
  try_except
    (df ← get_5min_candles ticker 100;
     detect ticker df)
    (λ e, logger_error ("Error checking " ++ ticker ++ ": " ++ exn_str e)).

(** ** MonitorLoop: [main_loop] *)

(** [str] of a list of strings, as the f-string prints [STOCKS]. *)
Definition repr_list (xs : list string) : string :=
  "[" ++ String.concat ", " (map (λ x, "'" ++ x ++ "'") xs) ++ "]".

(** One pass of the body of [while True]; [n] counts the passes. *)
Definition main_pass (n : nat) : M unit :=
  try_except
    (w ← get_world;
     (if get_market_status (now_et w n) then
        logger_info ("Market open - checking " ++
                     Render.dec (Z.of_nat (length (STOCKS w))) ++
                     " stocks at " ++ Calendar.str (now_local w n));;
        for_each (STOCKS w)
          (λ stock, check_spike_and_death_candle stock;; time_sleep 0.5)
      else logger_info "Market closed");;
     time_sleep 300)
    (λ e, logger_error ("Error in main loop: " ++ exn_str e);; time_sleep 60).

(** The first [passes] passes of [while True], starting at pass [n]. *)
Fixpoint while_true (passes n : nat) : M unit :=
  match passes with
  | O => mret tt
  | S k => main_pass n;; while_true k (S n)
  end.

(** [not WEBHOOK_URL]: unset, or set to the empty string. *)
Definition webhook_unset (w : World) : bool :=
  match WEBHOOK_URL w with
  | None => true
  | Some url => bool_decide (url = "")
  end.

(** [main_loop], cut after [passes] passes of its loop. *)
Definition main_loop (passes : nat) : M unit :=
  w ← get_world;
  logger_info ("Starting monitor for stocks: " ++ repr_list (STOCKS w));;
  if webhook_unset w then logger_error "DISCORD_WEBHOOK_URL not set!"
  else while_true passes 0.

(** ** Frames as pandas holds them

    Above, a downloaded row is a record with the five price and volume
    fields, so that reading a field cannot fail.  A pandas frame is looser:
    it has whatever named columns the download delivered, and [df['Volume']]
    or [row['High']] look a name up and raise [KeyError] when it is missing.
    The module below embeds [get_5min_candles], [check_spike_and_death_candle]
    and the loop over the tickers once more, over such frames and with every
    lookup where the source has it, so that what the program does when a
    lookup fails inside an evaluation can be stated.  The downloads are a
    parameter [feed] here; the field [yf_download] of the world is not
    read. *)

Module Dyn.

(** A frame: its index, and for each column name the value at each position
    (read at the positions of the index only). *)
Record Frame : Type := mk_Frame {
  index : list datetime;
  columns : gmap string (nat → float)
}.

(** One row of a frame: a value per column name. *)
Abbreviation Series := (gmap string float).

(** What [yf.download] does. *)
Inductive feed_result : Type :=
| FeedRaises (msg : string)
| FeedFrame (df : Frame).

(** The n-th call of [yf.download], for a ticker. *)
Abbreviation Feed := (nat → string → feed_result).

(** [df.empty]: no row, or no column. *)
Definition empty (df : Frame) : bool :=
  bool_decide (index df = []) || bool_decide (dom (columns df) = ∅).

(** [m[name]] on the columns of a frame or on a row: a [KeyError] when the
    name is missing, whose text is the quoted name. *)
Definition getitem {V} (m : gmap string V) (name : string) : M V :=
  match m !! name with
  | Some v => mret v
  | None => raise (Exception ("'" ++ name ++ "'"))
  end.

(** [df[name] = column]. *)
Definition setitem (df : Frame) (name : string) (column : nat → float) : Frame :=
  mk_Frame (index df) (<[name := column]> (columns df)).

(** [column.rolling(n).mean()]. *)
Definition rolling_mean (n : nat) (column : nat → float) : nat → float :=
  λ i, if (S i <? n)%nat then nan
       else (Pandas.fsum (map column (seq (S i - n) n)) / Pandas.float_of_nat n)%float.

(** [df.tail(limit)]. *)
Definition tail (limit : nat) (df : Frame) : Frame :=
  let k := (length (index df) - limit)%nat in
  mk_Frame (drop k (index df)) ((λ column i, column (k + i)%nat) <$> columns df).

(** The row at position [j]. *)
Definition row (df : Frame) (j : nat) : Series :=
  (λ column, column j) <$> columns df.

(** [df.iloc[i]] together with [df.index[i]]. *)
Definition iloc (df : Frame) (i : Z) : M (datetime * Series) :=
  match Pandas.iloc_position (length (index df)) i ≫= (λ j, (., j) <$> index df !! j) with
  | Some (t, j) => mret (t, row df j)
  | None => raise (Exception "single positional indexer is out-of-bounds")
  end.

Definition spike_text (ticker : string) (spike_move volume_ratio close : float)
    (prev_time : datetime) : string :=
  "**" ++ ticker ++ "** 📊" ++ Render.nl ++
  "Spike: +" ++ Render.format_2f spike_move ++ "%" ++ Render.nl ++
  "Volume Ratio: " ++ Render.format_2f volume_ratio ++ "x" ++ Render.nl ++
  "Price: $" ++ Render.format_2f close ++ Render.nl ++
  "Time: " ++ Calendar.strftime_HMS prev_time ++ " ET" ++ Render.nl ++
  "⏳ Waiting for next candle to close...".

Definition entry_text (ticker : string) (open hod_price risk_pct : float)
    (current_time : datetime) : string :=
  "**" ++ ticker ++ "** ✅ ENTRY SIGNAL" ++ Render.nl ++
  "Death Candle Formed (Red Close)" ++ Render.nl ++
  "Entry: Short at $" ++ Render.format_2f open ++ Render.nl ++
  "Stop: Above HOD $" ++ Render.format_2f hod_price ++ Render.nl ++
  "Risk: " ++ Render.format_2f risk_pct ++ "%" ++ Render.nl ++
  "Target: 80 EMA" ++ Render.nl ++
  "Win Rate: 86.9%" ++ Render.nl ++
  "Expected Profit: 6.27%" ++ Render.nl ++
  "Time: " ++ Calendar.strftime_HMS current_time ++ " ET".

Section WithFeed.

Variable feed : Feed.

(** [yf.download(ticker, ...)]. *)
Definition download (ticker : string) : M Frame := fun w s =>
  let s' := mk_State (alerted_spikes s) (alerted_deaths s) (S (downloads s))
                     (posts s) (trace s ++ [EvDownload ticker]) in
  match feed (downloads s) ticker with
  | FeedRaises msg => (s', Raises (Exception msg))
  | FeedFrame df => (s', Returns df)
  end.

(** Lines 55 to 74. *)
Definition get_5min_candles (ticker : string) (limit : nat) : M (option Frame) :=
  try_except
    (df ← download ticker;
     if empty df then mret None
     else
       volume ← getitem (columns df) "Volume";
       let df := setitem df "volume_avg_20" (rolling_mean 20 volume) in
       volume ← getitem (columns df) "Volume";
       volume_avg_20 ← getitem (columns df) "volume_avg_20";
       let df := setitem df "volume_ratio" (λ i, volume i / volume_avg_20 i)%float in
       close ← getitem (columns df) "Close";
       open ← getitem (columns df) "Open";
       open' ← getitem (columns df) "Open";
       let df := setitem df "candle_move_pct"
                   (λ i, ((close i - open i) / open' i) * 100)%float in
       mret (Some (tail limit df)))
    (λ e,
       logger_error ("Error fetching candles for " ++ ticker ++ ": " ++ exn_str e);;
       mret None).

(** Lines 81 to 141. *)
Definition detect (ticker : string) (df : option Frame) : M unit :=
  match df with
  | None => mret tt
  | Some df =>
    if (length (index df) <? 2)%nat then mret tt
    else
      '(current_time, current_candle) ← iloc df (-1);
      '(prev_time, prev_candle) ← iloc df (-2);
      spike_move ← getitem prev_candle "candle_move_pct";
      volume_ratio ←
        (if bool_decide ("volume_ratio" ∈ dom prev_candle)
         then getitem prev_candle "volume_ratio" else mret 0%float);
      current_close ← getitem current_candle "Close";
      current_open ← getitem current_candle "Open";
      let is_death_candle := (current_close <? current_open)%float in
      if (10 <=? spike_move)%float then
        let spike_key := spike_key ticker prev_time in
        s ← get_state;
        (if bool_decide (spike_key ∉ dom (alerted_spikes s)) then
           prev_close ← getitem prev_candle "Close";
           send_discord_alert (mk_origin SPIKE ticker prev_time)
             (spike_title ticker)
             (spike_text ticker spike_move volume_ratio prev_close prev_time)
             16711680;;
           set_alerted_spike spike_key current_time
         else mret tt);;
        if is_death_candle then
          let death_key := death_key ticker current_time in
          s ← get_state;
          if bool_decide (death_key ∉ dom (alerted_deaths s)) then
            hod_price ← getitem prev_candle "High";
            close ← getitem current_candle "Close";
            close' ← getitem current_candle "Close";
            let risk_pct := (((hod_price - close) / close') * 100)%float in
            open ← getitem current_candle "Open";
            send_discord_alert (mk_origin ENTRY ticker current_time)
              (entry_title ticker)
              (entry_text ticker open hod_price risk_pct current_time)
              65280;;
            set_alerted_death death_key current_time
          else mret tt
        else mret tt
      else mret tt
  end.

(** Lines 78 to 144: the evaluation of one ticker. *)
Definition check_spike_and_death_candle (ticker : string) : M unit :=
  try_except
    (df ← get_5min_candles ticker 100;
     detect ticker df)
    (λ e, logger_error ("Error checking " ++ ticker ++ ": " ++ exn_str e)).

(** Lines 159 to 161: the loop over the tickers. *)
Definition ticker_loop (stocks : list string) : M unit :=
  for_each stocks (λ stock, check_spike_and_death_candle stock;; time_sleep 0.5).

(** Lines 155 to 169: one pass of the body of [while True]. *)
Definition main_pass (n : nat) : M unit :=
  try_except
    (w ← get_world;
     (if get_market_status (now_et w n) then
        logger_info ("Market open - checking " ++
                     Render.dec (Z.of_nat (length (STOCKS w))) ++
                     " stocks at " ++ Calendar.str (now_local w n));;
        ticker_loop (STOCKS w)
      else logger_info "Market closed");;
     time_sleep 300)
    (λ e, logger_error ("Error in main loop: " ++ exn_str e);; time_sleep 60).

End WithFeed.

End Dyn.

(** * Properties *)

Local Close Scope string_scope.

(** ** MarketClock *)

Section MarketClock.

Import Calendar.

Lemma weekday_range (d : datetime) : 0 <= weekday d < 7.
Proof. unfold weekday. apply Z.mod_pos_bound. lia. Qed.

Lemma lex_leb_same_head (x : Z) (xs ys : list Z) :
  lex_leb (x :: xs) (x :: ys) = lex_leb xs ys.
Proof. simpl. rewrite Z.ltb_irrefl, Z.eqb_refl. reflexivity. Qed.

(** On the day of [now], the two comparisons of [get_market_status] look at
    the time fields only. *)
Lemma within_hours_time_of_day (now : datetime) :
  valid_time now ->
  datetime_leb (replace_time now 9 30 0 0) now
    && datetime_leb now (replace_time now 16 0 0 0) = true
  <-> (9 * 60 + 30) * 60 * 1000000 <= time_of_day now <= 16 * 60 * 60 * 1000000.
Proof.
  intros (Hh & Hm & Hs & Hus).
  unfold datetime_leb, fields, replace_time, time_of_day.
  destruct now as [y mo d h mi s us off]; cbn [year month day hour minute second
    microsecond utcoffset] in *.
  rewrite !lex_leb_same_head. cbn [lex_leb].
  rewrite !andb_true_r.
  rewrite ?andb_true_iff, ?orb_true_iff, ?andb_true_iff, ?orb_true_iff,
    ?Z.ltb_lt, ?Z.eqb_eq.
  lia.
Qed.

End MarketClock.

(** C5. [get_market_status] answers false on a Saturday or a Sunday whatever
    the time of day; on a weekday it answers true exactly when the local time
    lies between 09:30:00 and 16:00:00, both ends included.  A Wednesday at
    09:30:00 is open, the same Wednesday at 16:00:01 is closed. *)
Theorem market_status_spec (now : datetime) :
  Calendar.valid_time now ->
  (Calendar.weekday now = 5 \/ Calendar.weekday now = 6 ->
   get_market_status now = false) /\
  (Calendar.weekday now < 5 ->
   (get_market_status now = true <->
    (9 * 60 + 30) * 60 * 1000000 <= Calendar.time_of_day now
      <= 16 * 60 * 60 * 1000000)) /\
  Calendar.weekday (mk_datetime 2024 1 3 9 30 0 0 (Some (-300))) = 2 /\
  get_market_status (mk_datetime 2024 1 3 9 30 0 0 (Some (-300))) = true /\
  get_market_status (mk_datetime 2024 1 3 16 0 1 0 (Some (-300))) = false.
Proof.
  intros Hvalid. split; [| split; [| repeat split]].
  - intros Hweekend. unfold get_market_status.
    destruct (Z.leb_spec 5 (Calendar.weekday now)); [reflexivity | lia].
  - intros Hweek. unfold get_market_status.
    destruct (Z.leb_spec 5 (Calendar.weekday now)); [lia |].
    cbv zeta. apply within_hours_time_of_day. assumption.
Qed.

Lemma market_status_spec_witness :
  Calendar.valid_time (mk_datetime 2024 1 5 12 0 0 0 (Some (-300))) /\
  get_market_status (mk_datetime 2024 1 5 12 0 0 0 (Some (-300))) = true.
Proof.
  assert (Hv : Calendar.valid_time (mk_datetime 2024 1 5 12 0 0 0 (Some (-300))))
    by (unfold Calendar.valid_time; cbn; lia).
  split; [exact Hv |].
  destruct (market_status_spec _ Hv) as (_ & Hweek & _).
  apply Hweek; vm_compute; [reflexivity | split; discriminate].
Defined.

(** ** What a computation adds to the trace *)

(** The candles alerts were posted for, oldest first. *)
Definition posted (tr : list event) : list origin :=
  omap (λ e, match e with EvPost o _ _ => Some o | _ => None end) tr.

(** The payloads posted for a given candle. *)
Definition payloads_for (o : origin) (tr : list event) : list embed :=
  omap (λ e, match e with
             | EvPost o' p _ => if bool_decide (o' = o) then Some p else None
             | _ => None
             end) tr.

(** The tickers downloaded, oldest first. *)
Definition downloaded (tr : list event) : list string :=
  omap (λ e, match e with EvDownload t => Some t | _ => None end) tr.

(** The events a computation appends when run from [s]. *)
Definition emitted {A} (m : M A) (w : World) (s : State) : list event :=
  drop (length (trace s)) (trace (m w s).1).

(** The dictionary an alert of a given kind is recorded in. *)
Definition alerted (k : alert_kind) (s : State) : gmap string datetime :=
  match k with
  | SPIKE => alerted_spikes s
  | ENTRY => alerted_deaths s
  end.

(** The key an alert is recorded under. *)
Definition key_of (o : origin) : string :=
  match kind o with
  | SPIKE => spike_key (ticker_of o) (candle_time o)
  | ENTRY => death_key (ticker_of o) (candle_time o)
  end.

(** ** AlertSink *)

Section AlertSink.

Variables (o : origin) (title message : string) (color : Z).
Variables (w : World) (s : State).

(** The payload [send_discord_alert] builds. *)
Definition payload_of : embed :=
  mk_embed title message color (Calendar.isoformat "T" (utcnow w (posts s))).

(** The state [send_discord_alert] leaves. *)
Definition sent : State := (send_discord_alert o title message color w s).1.

(** What the webhook answers to it. *)
Definition answer_of : post_result := requests_post w (posts s) payload_of.

(** The line [send_discord_alert] logs, by what the webhook answered. *)
Definition send_log (r : post_result) : event :=
  match r with
  | PostRaises msg =>
      EvLog ERROR ("Failed to send Discord alert: " ++ msg)%string
  | PostResponse code =>
      if (400 <=? code) && (code <? 600)
      then EvLog ERROR ("Failed to send Discord alert: " ++
                        ("HTTP error " ++ Render.dec code))%string
      else EvLog INFO ("Alert sent: " ++ title)%string
  end.

(** The two events of one call. *)
Definition send_events : list event :=
  [EvPost o payload_of answer_of; send_log answer_of].

Lemma send_discord_alert_run :
  send_discord_alert o title message color w s =
  (mk_State (alerted_spikes s) (alerted_deaths s) (downloads s) (S (posts s))
            (trace s ++ send_events),
   Returns tt).
Proof.
  unfold send_discord_alert, try_except, send_events, answer_of, payload_of.
  cbv [mbind M_bind get_world get_state post].
  destruct (requests_post w (posts s) _) as [msg | code] eqn:Hpost.
  - cbv [logger_error emit]. cbn. rewrite <- app_assoc. reflexivity.
  - unfold raise_for_status. cbn [send_log].
    destruct ((400 <=? code) && (code <? 600)).
    + cbv [raise logger_error emit]. cbn. rewrite <- app_assoc. reflexivity.
    + cbv [mret M_ret logger_info emit]. cbn. rewrite <- app_assoc. reflexivity.
Qed.

Lemma send_discord_alert_returns :
  (send_discord_alert o title message color w s).2 = Returns tt.
Proof. rewrite send_discord_alert_run. reflexivity. Qed.

Lemma send_discord_alert_sent :
  send_discord_alert o title message color w s = (sent, Returns tt).
Proof. unfold sent. rewrite send_discord_alert_run. reflexivity. Qed.

Lemma sent_alerted_spikes : alerted_spikes sent = alerted_spikes s.
Proof. unfold sent. rewrite send_discord_alert_run. reflexivity. Qed.

Lemma sent_alerted_deaths : alerted_deaths sent = alerted_deaths s.
Proof. unfold sent. rewrite send_discord_alert_run. reflexivity. Qed.

Lemma sent_downloads : downloads sent = downloads s.
Proof. unfold sent. rewrite send_discord_alert_run. reflexivity. Qed.

Lemma sent_posts : posts sent = S (posts s).
Proof. unfold sent. rewrite send_discord_alert_run. reflexivity. Qed.

Lemma sent_trace : trace sent = (trace s ++ send_events)%list.
Proof. unfold sent. rewrite send_discord_alert_run. reflexivity. Qed.

End AlertSink.

(** ** PatternDetector *)

Section Detector.

Variables (ticker : string) (w : World).

(** The state after the SPIKE part of an evaluation (lines 96 to 114). *)
Definition spike_part (prev_time current_time : datetime) (prev_candle : Candle)
    (s : State) : State :=
  if bool_decide (spike_key ticker prev_time ∉ dom (alerted_spikes s)) then
    let s1 := sent (mk_origin SPIKE ticker prev_time) (spike_title ticker)
                (spike_msg ticker (candle_move_pct prev_candle)
                   (volume_ratio prev_candle) prev_candle prev_time)
                16711680 w s in
    mk_State (<[spike_key ticker prev_time := current_time]> (alerted_spikes s1))
             (alerted_deaths s1) (downloads s1) (posts s1) (trace s1)
  else s.

(** The state after the ENTRY part of an evaluation (lines 116 to 141). *)
Definition death_part (current_time : datetime) (prev_candle current_candle : Candle)
    (s : State) : State :=
  if (Close (bar current_candle) <? Open (bar current_candle))%float then
    if bool_decide (death_key ticker current_time ∉ dom (alerted_deaths s)) then
      let s1 := sent (mk_origin ENTRY ticker current_time) (entry_title ticker)
                  (entry_msg ticker current_candle (High (bar prev_candle))
                     (risk_pct_of (High (bar prev_candle))
                        (Close (bar current_candle)))
                     current_time)
                  65280 w s in
      mk_State (alerted_spikes s1)
               (<[death_key ticker current_time := current_time]> (alerted_deaths s1))
               (downloads s1) (posts s1) (trace s1)
    else s
  else s.

Lemma lookup_last_of_two {A} (pre : list A) (a b : A) :
  (pre ++ [a; b]) !! (length pre + 1)%nat = Some b.
Proof.
  rewrite lookup_app_r by lia.
  replace (length pre + 1 - length pre)%nat with 1%nat by lia. reflexivity.
Qed.

Lemma lookup_first_of_two {A} (pre : list A) (a b : A) :
  (pre ++ [a; b]) !! (length pre + 0)%nat = Some a.
Proof.
  rewrite lookup_app_r by lia.
  replace (length pre + 0 - length pre)%nat with 0%nat by lia. reflexivity.
Qed.

Lemma iloc_last (pre : DataFrame) (a b : datetime * Candle) (s : State) :
  iloc (pre ++ [a; b]) (-1) w s = (s, Returns b).
Proof.
  unfold iloc, Pandas.iloc_position.
  rewrite length_app. cbn [length].
  replace (-1 <? 0) with true by reflexivity.
  replace ((0 <=? Z.of_nat (length pre + 2)%nat + -1)
           && (Z.of_nat (length pre + 2)%nat + -1 <? Z.of_nat (length pre + 2)%nat))
    with true by (symmetry; apply andb_true_iff; split; [apply Z.leb_le | apply Z.ltb_lt]; lia).
  cbn [mbind option_bind].
  replace (Z.to_nat (Z.of_nat (length pre + 2)%nat + -1)) with (length pre + 1)%nat by lia.
  rewrite lookup_last_of_two. reflexivity.
Qed.

Lemma iloc_before_last (pre : DataFrame) (a b : datetime * Candle) (s : State) :
  iloc (pre ++ [a; b]) (-2) w s = (s, Returns a).
Proof.
  unfold iloc, Pandas.iloc_position.
  rewrite length_app. cbn [length].
  replace (-2 <? 0) with true by reflexivity.
  replace ((0 <=? Z.of_nat (length pre + 2)%nat + -2)
           && (Z.of_nat (length pre + 2)%nat + -2 <? Z.of_nat (length pre + 2)%nat))
    with true by (symmetry; apply andb_true_iff; split; [apply Z.leb_le | apply Z.ltb_lt]; lia).
  cbn [mbind option_bind].
  replace (Z.to_nat (Z.of_nat (length pre + 2)%nat + -2)) with (length pre + 0)%nat by lia.
  rewrite lookup_first_of_two. reflexivity.
Qed.

(** An evaluation on a window whose last two rows are [prev] and
    [current]. *)
Lemma detect_window (pre : DataFrame) (prev_time current_time : datetime)
    (prev_candle current_candle : Candle) (s : State) :
  detect ticker (Some (pre ++ [(prev_time, prev_candle);
                               (current_time, current_candle)])) w s =
  (if (10 <=? candle_move_pct prev_candle)%float
   then death_part current_time prev_candle current_candle
          (spike_part prev_time current_time prev_candle s)
   else s,
   Returns tt).
Proof.
  unfold detect.
  replace (length (pre ++ [(prev_time, prev_candle); (current_time, current_candle)])
             <? 2)%nat with false
    by (symmetry; apply Nat.ltb_ge; rewrite length_app; cbn; lia).
  unfold mbind at 1, M_bind at 1. rewrite iloc_last.
  unfold mbind at 1, M_bind at 1. rewrite iloc_before_last.
  destruct (10 <=? candle_move_pct prev_candle)%float; [| reflexivity].
  unfold spike_part, death_part.
  cbv [mbind M_bind get_state].
  destruct (bool_decide (spike_key ticker prev_time ∉ dom (alerted_spikes s))).
  - rewrite send_discord_alert_sent. cbv [set_alerted_spike].
    destruct (Close (bar current_candle) <? Open (bar current_candle))%float;
      [| reflexivity].
    cbn [alerted_deaths].
    destruct (bool_decide (death_key ticker current_time ∉ dom _)); [| reflexivity].
    rewrite send_discord_alert_sent. reflexivity.
  - cbv [mret M_ret].
    destruct (Close (bar current_candle) <? Open (bar current_candle))%float;
      [| reflexivity].
    destruct (bool_decide (death_key ticker current_time ∉ dom _)); [| reflexivity].
    rewrite send_discord_alert_sent. reflexivity.
Qed.

End Detector.

(** ** CandleSource and one whole evaluation *)

(** What [get_5min_candles] hands to the detector, given what the download
    did. *)
Definition window_of (r : download_result) (limit : nat) : option DataFrame :=
  match r with
  | DownloadRaises _ => None
  | DownloadFrame df =>
      if bool_decide (df = []) then None
      else Some (Pandas.tail limit (with_indicators df))
  end.

Lemma last_two_split {A} (l : list A) :
  (2 <= length l)%nat → ∃ pre a b, l = pre ++ [a; b].
Proof.
  intros Hlen.
  destruct (rev l) as [| b [| a rest]] eqn:Hrev.
  - apply (f_equal length) in Hrev. rewrite length_rev in Hrev. cbn in Hrev. lia.
  - apply (f_equal length) in Hrev. rewrite length_rev in Hrev. cbn in Hrev. lia.
  - exists (rev rest), a, b.
    rewrite <- (rev_involutive l), Hrev. cbn. rewrite <- app_assoc. reflexivity.
Qed.

Section Evaluation.

Variables (ticker : string) (w : World).

(** The state [get_5min_candles] leaves. *)
Definition fetched (limit : nat) (s : State) : State :=
  (get_5min_candles ticker limit w s).1.

(** The events of one call of [get_5min_candles]. *)
Definition fetch_events (r : download_result) : list event :=
  EvDownload ticker ::
  match r with
  | DownloadRaises msg =>
      [EvLog ERROR ("Error fetching candles for " ++ ticker ++ ": " ++ msg)%string]
  | DownloadFrame _ => []
  end.

Lemma get_5min_candles_run (limit : nat) (s : State) :
  get_5min_candles ticker limit w s =
  (mk_State (alerted_spikes s) (alerted_deaths s) (S (downloads s)) (posts s)
            (trace s ++ fetch_events (yf_download w (downloads s) ticker)),
   Returns (window_of (yf_download w (downloads s) ticker) limit)).
Proof.
  unfold get_5min_candles, try_except, window_of, fetch_events.
  cbv [mbind M_bind download].
  destruct (yf_download w (downloads s) ticker) as [msg | df].
  - cbv [logger_error emit mret M_ret]. cbn. rewrite <- app_assoc. reflexivity.
  - destruct (bool_decide (df = [])); reflexivity.
Qed.

Lemma get_5min_candles_fetched (limit : nat) (s : State) :
  get_5min_candles ticker limit w s =
  (fetched limit s, Returns (window_of (yf_download w (downloads s) ticker) limit)).
Proof.
  unfold fetched. rewrite get_5min_candles_run. reflexivity.
Qed.

Lemma fetched_alerted_spikes limit s :
  alerted_spikes (fetched limit s) = alerted_spikes s.
Proof.
  unfold fetched. rewrite get_5min_candles_run. reflexivity.
Qed.

Lemma fetched_alerted_deaths limit s :
  alerted_deaths (fetched limit s) = alerted_deaths s.
Proof.
  unfold fetched. rewrite get_5min_candles_run. reflexivity.
Qed.

(** The detector itself raises nothing. *)
Lemma detect_returns (df : option DataFrame) (s : State) :
  (detect ticker df w s).2 = Returns tt.
Proof.
  destruct df as [df |]; [| reflexivity].
  destruct (Nat.ltb_spec (length df) 2) as [Hshort | Hlong].
  - unfold detect. apply Nat.ltb_lt in Hshort. rewrite Hshort. reflexivity.
  - destruct (last_two_split df Hlong) as (pre & [pt p] & [ct c] & ->).
    rewrite detect_window. reflexivity.
Qed.

(** One evaluation: fetch, then detect; nothing is raised. *)
Lemma check_spike_and_death_candle_run (s : State) :
  check_spike_and_death_candle ticker w s =
  ((detect ticker (window_of (yf_download w (downloads s) ticker) 100) w
      (fetched 100 s)).1,
   Returns tt).
Proof.
  unfold check_spike_and_death_candle, try_except.
  unfold mbind at 1, M_bind at 1.
  rewrite get_5min_candles_fetched.
  pose proof (detect_returns (window_of (yf_download w (downloads s) ticker) 100)
                (fetched 100 s)) as Hret.
  destruct (detect ticker _ w (fetched 100 s)) as [s' r]. cbn in Hret.
  subst r. reflexivity.
Qed.

End Evaluation.

(** ** The events of one evaluation *)

Lemma posted_app (a b : list event) : posted (a ++ b) = posted a ++ posted b.
Proof. apply omap_app. Qed.

Lemma downloaded_app (a b : list event) :
  downloaded (a ++ b) = downloaded a ++ downloaded b.
Proof. apply omap_app. Qed.

Lemma payloads_for_app (o : origin) (a b : list event) :
  payloads_for o (a ++ b) = payloads_for o a ++ payloads_for o b.
Proof. apply omap_app. Qed.

Lemma emitted_of_trace {A} (m : M A) (w : World) (s : State) (evs : list event) :
  trace (m w s).1 = trace s ++ evs → emitted m w s = evs.
Proof. intros Htrace. unfold emitted. rewrite Htrace. apply drop_app_length. Qed.

Lemma send_log_is_log (title : string) (r : post_result) :
  ∃ lvl msg, send_log title r = EvLog lvl msg.
Proof.
  destruct r as [msg | code]; cbn; [eauto |].
  destruct ((400 <=? code) && (code <? 600)); eauto.
Qed.

Lemma posted_send_events o title message color w s :
  posted (send_events o title message color w s) = [o].
Proof.
  unfold send_events.
  destruct (send_log_is_log title (answer_of title message color w s))
    as (lvl & msg & ->).
  reflexivity.
Qed.

Lemma downloaded_send_events o title message color w s :
  downloaded (send_events o title message color w s) = [].
Proof.
  unfold send_events.
  destruct (send_log_is_log title (answer_of title message color w s))
    as (lvl & msg & ->).
  reflexivity.
Qed.

Lemma payloads_for_send_events o o' title message color w s :
  payloads_for o' (send_events o title message color w s) =
  if bool_decide (o = o') then [payload_of title message color w s] else [].
Proof.
  unfold send_events.
  destruct (send_log_is_log title (answer_of title message color w s))
    as (lvl & msg & ->).
  cbn. destruct (bool_decide (o = o')); reflexivity.
Qed.

Section Events.

Variables (ticker : string) (w : World).

Definition spike_origin (prev_time : datetime) : origin :=
  mk_origin SPIKE ticker prev_time.

Definition entry_origin (current_time : datetime) : origin :=
  mk_origin ENTRY ticker current_time.

(** Is a SPIKE alert due: the threshold is met and the key is new. *)
Definition spike_due (prev_time : datetime) (prev_candle : Candle) (s : State) : bool :=
  (10 <=? candle_move_pct prev_candle)%float
  && bool_decide (spike_key ticker prev_time ∉ dom (alerted_spikes s)).

(** Is an ENTRY alert due: the threshold is met on [prev], [current]
    closes below its open, and the key is new. *)
Definition entry_due (current_time : datetime) (prev_candle current_candle : Candle)
    (s : State) : bool :=
  (10 <=? candle_move_pct prev_candle)%float
  && (Close (bar current_candle) <? Open (bar current_candle))%float
  && bool_decide (death_key ticker current_time ∉ dom (alerted_deaths s)).

Definition spike_events (prev_time : datetime) (prev_candle : Candle) (s : State)
  : list event :=
  if bool_decide (spike_key ticker prev_time ∉ dom (alerted_spikes s)) then
    send_events (spike_origin prev_time) (spike_title ticker)
      (spike_msg ticker (candle_move_pct prev_candle) (volume_ratio prev_candle)
         prev_candle prev_time)
      16711680 w s
  else [].

Definition death_events (current_time : datetime) (prev_candle current_candle : Candle)
    (s : State) : list event :=
  if (Close (bar current_candle) <? Open (bar current_candle))%float
     && bool_decide (death_key ticker current_time ∉ dom (alerted_deaths s)) then
    send_events (entry_origin current_time) (entry_title ticker)
      (entry_msg ticker current_candle (High (bar prev_candle))
         (risk_pct_of (High (bar prev_candle)) (Close (bar current_candle)))
         current_time)
      65280 w s
  else [].

Lemma spike_part_trace pt ct p s :
  trace (spike_part ticker w pt ct p s) = trace s ++ spike_events pt p s.
Proof.
  unfold spike_part, spike_events.
  destruct (bool_decide _); cbn [trace].
  - apply sent_trace.
  - symmetry. apply app_nil_r.
Qed.

Lemma spike_part_alerted_deaths pt ct p s :
  alerted_deaths (spike_part ticker w pt ct p s) = alerted_deaths s.
Proof.
  unfold spike_part. destruct (bool_decide _); cbn [alerted_deaths].
  - apply sent_alerted_deaths.
  - reflexivity.
Qed.

Lemma spike_part_alerted_spikes pt ct p s :
  alerted_spikes (spike_part ticker w pt ct p s) =
  if bool_decide (spike_key ticker pt ∉ dom (alerted_spikes s))
  then <[spike_key ticker pt := ct]> (alerted_spikes s)
  else alerted_spikes s.
Proof.
  unfold spike_part. destruct (bool_decide _); cbn [alerted_spikes].
  - rewrite sent_alerted_spikes. reflexivity.
  - reflexivity.
Qed.

Lemma spike_part_posts pt ct p s :
  posts (spike_part ticker w pt ct p s) =
  if bool_decide (spike_key ticker pt ∉ dom (alerted_spikes s))
  then S (posts s) else posts s.
Proof.
  unfold spike_part. destruct (bool_decide _); cbn [posts].
  - apply sent_posts.
  - reflexivity.
Qed.

Lemma death_part_trace ct p c s :
  trace (death_part ticker w ct p c s) = trace s ++ death_events ct p c s.
Proof.
  unfold death_part, death_events.
  destruct (Close (bar c) <? Open (bar c))%float; cbn [andb].
  - destruct (bool_decide _); cbn [trace].
    + apply sent_trace.
    + symmetry. apply app_nil_r.
  - symmetry. apply app_nil_r.
Qed.

Lemma death_part_alerted_spikes ct p c s :
  alerted_spikes (death_part ticker w ct p c s) = alerted_spikes s.
Proof.
  unfold death_part.
  destruct (Close (bar c) <? Open (bar c))%float; [| reflexivity].
  destruct (bool_decide _); cbn [alerted_spikes]; [| reflexivity].
  apply sent_alerted_spikes.
Qed.

Lemma death_part_alerted_deaths ct p c s :
  alerted_deaths (death_part ticker w ct p c s) =
  if (Close (bar c) <? Open (bar c))%float
     && bool_decide (death_key ticker ct ∉ dom (alerted_deaths s))
  then <[death_key ticker ct := ct]> (alerted_deaths s)
  else alerted_deaths s.
Proof.
  unfold death_part.
  destruct (Close (bar c) <? Open (bar c))%float; cbn [andb]; [| reflexivity].
  destruct (bool_decide _); cbn [alerted_deaths]; [| reflexivity].
  rewrite sent_alerted_deaths. reflexivity.
Qed.

End Events.

Section Window.

Variables (ticker : string) (w : World) (s : State).
Variables (pre : DataFrame) (prev_time current_time : datetime).
Variables (prev_candle current_candle : Candle).

(** The download of this evaluation yields a window that ends with
    [prev] and [current]. *)
Hypothesis Hwindow :
  window_of (yf_download w (downloads s) ticker) 100 =
  Some (pre ++ [(prev_time, prev_candle); (current_time, current_candle)]).

Let s0 : State := fetched ticker w 100 s.
Let s1 : State := spike_part ticker w prev_time current_time prev_candle s0.

Lemma fetched_trace :
  trace s0 = trace s ++ fetch_events ticker (yf_download w (downloads s) ticker).
Proof. unfold s0, fetched. rewrite get_5min_candles_run. reflexivity. Qed.

Lemma fetch_events_window :
  fetch_events ticker (yf_download w (downloads s) ticker) = [EvDownload ticker].
Proof.
  unfold fetch_events. destruct (yf_download w (downloads s) ticker); [| reflexivity].
  discriminate Hwindow.
Qed.

Lemma check_window_state :
  (check_spike_and_death_candle ticker w s).1 =
  if (10 <=? candle_move_pct prev_candle)%float
  then death_part ticker w current_time prev_candle current_candle s1
  else s0.
Proof.
  rewrite check_spike_and_death_candle_run, Hwindow, detect_window. reflexivity.
Qed.

Lemma check_window_emitted :
  emitted (check_spike_and_death_candle ticker) w s =
  EvDownload ticker ::
  (if (10 <=? candle_move_pct prev_candle)%float
   then spike_events ticker w prev_time prev_candle s0
        ++ death_events ticker w current_time prev_candle current_candle s1
   else []).
Proof.
  apply emitted_of_trace. rewrite check_window_state.
  destruct (10 <=? candle_move_pct prev_candle)%float.
  - rewrite death_part_trace. unfold s1. rewrite spike_part_trace.
    rewrite fetched_trace, fetch_events_window, <- !app_assoc. reflexivity.
  - rewrite fetched_trace, fetch_events_window. reflexivity.
Qed.

Lemma s0_alerted_spikes : alerted_spikes s0 = alerted_spikes s.
Proof. apply fetched_alerted_spikes. Qed.

Lemma s1_alerted_deaths : alerted_deaths s1 = alerted_deaths s.
Proof.
  unfold s1. rewrite spike_part_alerted_deaths. apply fetched_alerted_deaths.
Qed.

(** The alerts of the evaluation, by candle. *)
Lemma check_window_posted :
  posted (emitted (check_spike_and_death_candle ticker) w s) =
  (if spike_due ticker prev_time prev_candle s then [spike_origin ticker prev_time]
   else [])
  ++ (if entry_due ticker current_time prev_candle current_candle s
      then [entry_origin ticker current_time] else []).
Proof.
  rewrite check_window_emitted. unfold spike_due, entry_due.
  destruct (10 <=? candle_move_pct prev_candle)%float; cbn [andb]; [| reflexivity].
  change (posted (EvDownload ticker :: ?l)) with (posted l).
  rewrite posted_app. unfold spike_events, death_events.
  rewrite s0_alerted_spikes, s1_alerted_deaths.
  destruct (bool_decide (spike_key _ _ ∉ _));
    destruct (Close (bar current_candle) <? Open (bar current_candle))%float;
    cbn [andb]; try destruct (bool_decide (death_key _ _ ∉ _));
    rewrite ?posted_send_events; reflexivity.
Qed.

End Window.

(** ** Concrete frames and worlds used as examples *)

Module Demo.

Definition at_time (h mi : Z) : datetime :=
  mk_datetime 2024 1 3 h mi 0 0 (Some (-300)).

(** A 15 % candle with high 12.00, then a red candle from 10.00 to 9.50. *)
Definition spike_then_red : RawFrame :=
  [(at_time 9 35, mk_Bar 10 12 10 11.5 5000);
   (at_time 9 40, mk_Bar 10 10 9 9.5 3000)]%float.

(** A candle of exactly 10 %, then a green one. *)
Definition exactly_ten : RawFrame :=
  [(at_time 9 35, mk_Bar 10 11 10 11 5000);
   (at_time 9 40, mk_Bar 11 11.5 11 11.25 3000)]%float.

(** A candle of 9.999 %, then a red one. *)
Definition just_below : RawFrame :=
  [(at_time 9 35, mk_Bar 1000 1100 1000 1099.99 5000);
   (at_time 9 40, mk_Bar 1099 1099 1000 1050 3000)]%float.

(** The same prices as [spike_then_red], other volumes. *)
Definition spike_then_red_thin : RawFrame :=
  [(at_time 9 35, mk_Bar 10 12 10 11.5 7);
   (at_time 9 40, mk_Bar 10 10 9 9.5 0)]%float.

(** A world that always serves [df] and whose webhook answers [r]. *)
Definition world (df : RawFrame) (r : post_result) : World :=
  {| WEBHOOK_URL := Some "https://discord.example/hook"%string;
     STOCKS := ["FFIE"%string];
     now_et := λ _, at_time 10 0;
     now_local := λ _, at_time 10 0;
     utcnow := λ _, mk_datetime 2024 1 3 15 0 0 0 None;
     yf_download := λ _ _, DownloadFrame df;
     requests_post := λ _ _, r |}.

(** Row [i] of the frame [get_5min_candles] makes of [df]. *)
Definition row (df : RawFrame) (i : nat) : datetime * Candle :=
  nth i (with_indicators df)
      (at_time 0 0, mk_Candle (mk_Bar 0 0 0 0 0) 0 0 0).

End Demo.

(** ** PatternDetector: when the alerts fire *)

(** C2. On a window of at least two candles an ENTRY SIGNAL alert is emitted
    exactly when the move of [prev] is at least 10.0, [current] closes below
    its open and the death key of [current] is not yet in [alerted_deaths].
    It is emitted whether the SPIKE alert of [prev] is sent in this
    evaluation or was recorded earlier, and never when the threshold fails
    on [prev]. *)
Theorem entry_signal_iff (ticker : string) (w : World) (s : State)
    (pre : DataFrame) (prev_time current_time : datetime)
    (prev_candle current_candle : Candle) :
  window_of (yf_download w (downloads s) ticker) 100 =
    Some (pre ++ [(prev_time, prev_candle); (current_time, current_candle)]) →
  let alerts := posted (emitted (check_spike_and_death_candle ticker) w s) in
  let due :=
    (10 <=? candle_move_pct prev_candle)%float = true
    ∧ (Close (bar current_candle) <? Open (bar current_candle))%float = true
    ∧ death_key ticker current_time ∉ dom (alerted_deaths s) in
  (entry_origin ticker current_time ∈ alerts ↔ due)
  ∧ (∀ o, o ∈ alerts → kind o = ENTRY → o = entry_origin ticker current_time)
  ∧ (due → spike_key ticker prev_time ∉ dom (alerted_spikes s) →
     alerts = [spike_origin ticker prev_time; entry_origin ticker current_time])
  ∧ (due → spike_key ticker prev_time ∈ dom (alerted_spikes s) →
     alerts = [entry_origin ticker current_time])
  ∧ ((10 <=? candle_move_pct prev_candle)%float = false → alerts = []).
Proof.
  intros Hwindow alerts due. subst alerts due.
  rewrite (check_window_posted _ _ _ _ _ _ _ _ Hwindow).
  unfold spike_due, entry_due, spike_origin, entry_origin.
  destruct (10 <=? candle_move_pct prev_candle)%float;
    destruct (Close (bar current_candle) <? Open (bar current_candle))%float;
    cbn [andb];
    repeat case_bool_decide; cbn [app];
    repeat split; intros;
    repeat match goal with
           | H : _ ∈ [] |- _ => apply elem_of_nil in H; destruct H
           | H : _ ∈ [_] |- _ => apply list_elem_of_singleton in H
           | H : _ ∈ _ :: _ |- _ => apply elem_of_cons in H; destruct H
           | H : _ ∧ _ |- _ => destruct H
           end;
    subst; try discriminate; try contradiction; try reflexivity; try tauto;
    solve [rewrite !elem_of_cons; auto].
Qed.

Lemma entry_signal_iff_witness :
  posted (emitted (check_spike_and_death_candle "FFIE")
            (Demo.world Demo.spike_then_red (PostResponse 204)) initial_state)
  = [spike_origin "FFIE" (Demo.at_time 9 35); entry_origin "FFIE" (Demo.at_time 9 40)].
Proof.
  refine (proj1 (proj2 (proj2 (entry_signal_iff "FFIE"
            (Demo.world Demo.spike_then_red (PostResponse 204)) initial_state
            [] (Demo.at_time 9 35) (Demo.at_time 9 40)
            (Demo.row Demo.spike_then_red 0).2 (Demo.row Demo.spike_then_red 1).2
            _))) _ _).
  - vm_compute. reflexivity.
  - repeat split; [vm_compute; reflexivity .. |].
    cbn [initial_state alerted_deaths]. rewrite dom_empty_L. apply not_elem_of_empty.
  - cbn [initial_state alerted_spikes]. rewrite dom_empty_L. apply not_elem_of_empty.
Defined.

(** C3. The threshold is inclusive.  On a window of at least two candles
    whose spike key is new, a SPIKE alert fires when the move of [prev] is
    exactly 10.0, and none fires when it is 9.999. *)
Theorem spike_threshold_inclusive (ticker : string) (w : World) (s : State)
    (pre : DataFrame) (prev_time current_time : datetime)
    (prev_candle current_candle : Candle) :
  window_of (yf_download w (downloads s) ticker) 100 =
    Some (pre ++ [(prev_time, prev_candle); (current_time, current_candle)]) →
  spike_key ticker prev_time ∉ dom (alerted_spikes s) →
  let alerts := posted (emitted (check_spike_and_death_candle ticker) w s) in
  ((candle_move_pct prev_candle = 10)%float → spike_origin ticker prev_time ∈ alerts)
  ∧ ((candle_move_pct prev_candle = 9.999)%float →
     (spike_origin ticker prev_time ∉ alerts) ∧ alerts = [])
  ∧ (spike_origin ticker prev_time ∈ alerts ↔
     (10 <=? candle_move_pct prev_candle)%float = true).
Proof.
  intros Hwindow Hnew alerts. subst alerts.
  rewrite (check_window_posted _ _ _ _ _ _ _ _ Hwindow).
  unfold spike_due, entry_due. rewrite (bool_decide_eq_true_2 _ Hnew).
  split; [| split].
  - intros ->. replace (10 <=? 10)%float with true by reflexivity.
    cbn [andb app]. apply elem_of_cons. left. reflexivity.
  - intros ->. replace (10 <=? 9.999)%float with false by reflexivity.
    cbn [andb app]. split; [apply not_elem_of_nil | reflexivity].
  - destruct (10 <=? candle_move_pct prev_candle)%float; cbn [andb app].
    + split; [reflexivity |]. intros _. apply elem_of_cons. left. reflexivity.
    + split; [| discriminate]. intros Hin. apply elem_of_nil in Hin. destruct Hin.
Qed.

Lemma spike_threshold_inclusive_witness :
  spike_origin "FFIE" (Demo.at_time 9 35)
    ∈ posted (emitted (check_spike_and_death_candle "FFIE")
                (Demo.world Demo.exactly_ten (PostResponse 204)) initial_state)
  ∧ posted (emitted (check_spike_and_death_candle "FFIE")
              (Demo.world Demo.just_below (PostResponse 204)) initial_state) = [].
Proof.
  split.
  - refine (proj1 (spike_threshold_inclusive "FFIE"
              (Demo.world Demo.exactly_ten (PostResponse 204)) initial_state
              [] (Demo.at_time 9 35) (Demo.at_time 9 40)
              (Demo.row Demo.exactly_ten 0).2 (Demo.row Demo.exactly_ten 1).2
              _ _) _).
    + vm_compute. reflexivity.
    + cbn [initial_state alerted_spikes]. rewrite dom_empty_L. apply not_elem_of_empty.
    + vm_compute. reflexivity.
  - refine (proj2 (proj1 (proj2 (spike_threshold_inclusive "FFIE"
              (Demo.world Demo.just_below (PostResponse 204)) initial_state
              [] (Demo.at_time 9 35) (Demo.at_time 9 40)
              (Demo.row Demo.just_below 0).2 (Demo.row Demo.just_below 1).2
              _ _)) _)).
    + vm_compute. reflexivity.
    + cbn [initial_state alerted_spikes]. rewrite dom_empty_L. apply not_elem_of_empty.
    + vm_compute. reflexivity.
Defined.

Section EntryContent.

Variables (ticker : string) (w : World) (s : State).
Variables (pre : DataFrame) (prev_time current_time : datetime).
Variables (prev_candle current_candle : Candle).

Hypothesis Hwindow :
  window_of (yf_download w (downloads s) ticker) 100 =
  Some (pre ++ [(prev_time, prev_candle); (current_time, current_candle)]).

(** The payload of the ENTRY alert of this evaluation. *)
Definition entry_payload : embed :=
  payload_of (entry_title ticker)
    (entry_msg ticker current_candle (High (bar prev_candle))
       (risk_pct_of (High (bar prev_candle)) (Close (bar current_candle)))
       current_time)
    65280 w
    (spike_part ticker w prev_time current_time prev_candle (fetched ticker w 100 s)).

Lemma check_window_entry_payloads :
  payloads_for (entry_origin ticker current_time)
    (emitted (check_spike_and_death_candle ticker) w s) =
  if entry_due ticker current_time prev_candle current_candle s
  then [entry_payload] else [].
Proof.
  rewrite (check_window_emitted _ _ _ _ _ _ _ _ Hwindow). unfold entry_due.
  destruct (10 <=? candle_move_pct prev_candle)%float; cbn [andb]; [| reflexivity].
  change (payloads_for ?o (EvDownload ticker :: ?l)) with (payloads_for o l).
  rewrite payloads_for_app. unfold spike_events, death_events.
  rewrite s1_alerted_deaths.
  replace (payloads_for (entry_origin ticker current_time)
             (if bool_decide (spike_key ticker prev_time
                                ∉ dom (alerted_spikes (fetched ticker w 100 s)))
              then send_events (spike_origin ticker prev_time) _ _ _ w _ else []))
    with (@nil embed)
    by (destruct (bool_decide _); [rewrite payloads_for_send_events |]; reflexivity).
  cbn [app].
  destruct (_ && _); [| reflexivity].
  rewrite payloads_for_send_events, bool_decide_eq_true_2 by reflexivity.
  reflexivity.
Qed.

End EntryContent.

(** C4. Whenever an ENTRY SIGNAL alert is emitted, its entry price is the
    open of [current], its stop price is the high of [prev] and its risk is
    [(prev.high - current.close) / current.close * 100], each printed with
    two decimals.  With a 15.0 % spike of high 12.00 followed by a candle
    from 10.00 to 9.50 the alert reads entry 10.00, stop 12.00 and risk
    26.32 %. *)
Theorem entry_alert_content (ticker : string) (w : World) (s : State)
    (pre : DataFrame) (prev_time current_time : datetime)
    (prev_candle current_candle : Candle) :
  window_of (yf_download w (downloads s) ticker) 100 =
    Some (pre ++ [(prev_time, prev_candle); (current_time, current_candle)]) →
  let payloads :=
    payloads_for (entry_origin ticker current_time)
      (emitted (check_spike_and_death_candle ticker) w s) in
  (∀ payload, payload ∈ payloads →
     title payload = ("✅ ENTRY SIGNAL - " ++ ticker)%string
     ∧ color payload = 65280
     ∧ description payload =
       ("**" ++ ticker ++ "** ✅ ENTRY SIGNAL" ++ Render.nl ++
        "Death Candle Formed (Red Close)" ++ Render.nl ++
        "Entry: Short at $" ++ Render.format_2f (Open (bar current_candle)) ++ Render.nl ++
        "Stop: Above HOD $" ++ Render.format_2f (High (bar prev_candle)) ++ Render.nl ++
        "Risk: " ++
          Render.format_2f
            (((High (bar prev_candle) - Close (bar current_candle))
              / Close (bar current_candle)) * 100)%float ++ "%" ++ Render.nl ++
        "Target: 80 EMA" ++ Render.nl ++
        "Win Rate: 86.9%" ++ Render.nl ++
        "Expected Profit: 6.27%" ++ Render.nl ++
        "Time: " ++ Calendar.strftime_HMS current_time ++ " ET")%string)
  ∧ ((candle_move_pct prev_candle = 15)%float →
     (High (bar prev_candle) = 12)%float →
     (Open (bar current_candle) = 10)%float →
     (Close (bar current_candle) = 9.5)%float →
     death_key ticker current_time ∉ dom (alerted_deaths s) →
     ∃ payload,
       payloads = [payload]
       ∧ description payload =
         ("**" ++ ticker ++ "** ✅ ENTRY SIGNAL" ++ Render.nl ++
          "Death Candle Formed (Red Close)" ++ Render.nl ++
          "Entry: Short at $10.00" ++ Render.nl ++
          "Stop: Above HOD $12.00" ++ Render.nl ++
          "Risk: 26.32%" ++ Render.nl ++
          "Target: 80 EMA" ++ Render.nl ++
          "Win Rate: 86.9%" ++ Render.nl ++
          "Expected Profit: 6.27%" ++ Render.nl ++
          "Time: " ++ Calendar.strftime_HMS current_time ++ " ET")%string).
Proof.
  intros Hwindow payloads. subst payloads.
  rewrite (check_window_entry_payloads _ _ _ _ _ _ _ _ Hwindow).
  split.
  - intros payload Hin.
    destruct (entry_due ticker current_time prev_candle current_candle s).
    + apply list_elem_of_singleton in Hin. subst payload.
      repeat split; reflexivity.
    + apply elem_of_nil in Hin. destruct Hin.
  - intros Hmove Hhigh Hopen Hclose Hnew.
    unfold entry_due. rewrite Hmove, Hopen, Hclose, (bool_decide_eq_true_2 _ Hnew).
    replace ((10 <=? 15)%float && (9.5 <? 10)%float && true) with true by reflexivity.
    eexists. split; [reflexivity |].
    unfold entry_payload, payload_of, entry_msg, risk_pct_of. cbn [description].
    rewrite Hhigh, Hopen, Hclose.
    replace (Render.format_2f 10) with "10.00"%string by (vm_compute; reflexivity).
    replace (Render.format_2f 12) with "12.00"%string by (vm_compute; reflexivity).
    replace (Render.format_2f ((12 - 9.5) / 9.5 * 100))
      with "26.32"%string by (vm_compute; reflexivity).
    reflexivity.
Qed.

Lemma entry_alert_content_witness :
  ∃ payload,
    payloads_for (entry_origin "FFIE" (Demo.at_time 9 40))
      (emitted (check_spike_and_death_candle "FFIE")
         (Demo.world Demo.spike_then_red (PostRaises "connection refused"))
         initial_state) = [payload]
    ∧ description payload =
      ("**FFIE** ✅ ENTRY SIGNAL" ++ Render.nl ++
       "Death Candle Formed (Red Close)" ++ Render.nl ++
       "Entry: Short at $10.00" ++ Render.nl ++
       "Stop: Above HOD $12.00" ++ Render.nl ++
       "Risk: 26.32%" ++ Render.nl ++
       "Target: 80 EMA" ++ Render.nl ++
       "Win Rate: 86.9%" ++ Render.nl ++
       "Expected Profit: 6.27%" ++ Render.nl ++
       "Time: 09:40:00 ET")%string.
Proof.
  refine (proj2 (entry_alert_content "FFIE"
            (Demo.world Demo.spike_then_red (PostRaises "connection refused"))
            initial_state
            [] (Demo.at_time 9 35) (Demo.at_time 9 40)
            (Demo.row Demo.spike_then_red 0).2 (Demo.row Demo.spike_then_red 1).2
            _) _ _ _ _ _).
  - vm_compute. reflexivity.
  - vm_compute. reflexivity.
  - vm_compute. reflexivity.
  - vm_compute. reflexivity.
  - vm_compute. reflexivity.
  - cbn [initial_state alerted_deaths]. rewrite dom_empty_L. apply not_elem_of_empty.
Defined.

(** ** PatternDetector: short windows *)

(** A window the detector does nothing with: absent, or fewer than two
    rows. *)
Definition short_window (df : option DataFrame) : Prop :=
  match df with
  | None => True
  | Some rows => (length rows < 2)%nat
  end.

Lemma detect_short (ticker : string) (w : World) (s : State) (df : option DataFrame) :
  short_window df → detect ticker df w s = (s, Returns tt).
Proof.
  destruct df as [rows |]; [| reflexivity].
  unfold short_window, detect. intros Hshort.
  apply Nat.ltb_lt in Hshort. rewrite Hshort. reflexivity.
Qed.

(** C6. On a window of fewer than two candles, an absent one included, the
    detector emits no alert and leaves both dictionaries as they were: the
    detector proper changes nothing at all, and the whole evaluation adds
    only the download (and the log line of a failed fetch) to the trace. *)
Theorem short_window_noop (ticker : string) (w : World) (s : State)
    (df : option DataFrame) :
  short_window df →
  detect ticker df w s = (s, Returns tt)
  ∧ (window_of (yf_download w (downloads s) ticker) 100 = df →
     let s' := (check_spike_and_death_candle ticker w s).1 in
     posted (emitted (check_spike_and_death_candle ticker) w s) = []
     ∧ alerted_spikes s' = alerted_spikes s
     ∧ alerted_deaths s' = alerted_deaths s
     ∧ posts s' = posts s).
Proof.
  intros Hshort. split; [apply detect_short; assumption |].
  intros Hwindow s'. subst s'.
  rewrite check_spike_and_death_candle_run, Hwindow.
  assert (Hemitted : emitted (check_spike_and_death_candle ticker) w s
                     = fetch_events ticker (yf_download w (downloads s) ticker)).
  { apply emitted_of_trace.
    rewrite check_spike_and_death_candle_run, Hwindow, detect_short by assumption.
    cbn [fst]. unfold fetched. rewrite get_5min_candles_run. reflexivity. }
  rewrite Hemitted, detect_short by assumption. cbn [fst].
  unfold fetched. rewrite get_5min_candles_run. cbn.
  split; [| auto].
  unfold fetch_events. destruct (yf_download w (downloads s) ticker); reflexivity.
Qed.

Lemma short_window_noop_witness :
  posted (emitted (check_spike_and_death_candle "FFIE")
            (Demo.world [(Demo.at_time 9 35, mk_Bar 10 12 10 11.5 5000)]
               (PostResponse 204)) initial_state) = []
  ∧ posted (emitted (check_spike_and_death_candle "FFIE")
              (Demo.world [] (PostResponse 204)) initial_state) = [].
Proof.
  split.
  - refine (proj1 (proj2 (short_window_noop "FFIE"
              (Demo.world [(Demo.at_time 9 35, mk_Bar 10 12 10 11.5 5000)]
                 (PostResponse 204)) initial_state
              (Some (with_indicators [(Demo.at_time 9 35, mk_Bar 10 12 10 11.5 5000)]))
              _) _)).
    + cbn. lia.
    + reflexivity.
  - refine (proj1 (proj2 (short_window_noop "FFIE"
              (Demo.world [] (PostResponse 204)) initial_state None _) _)).
    + exact I.
    + reflexivity.
Defined.

(** ** CandleSource: the derived columns *)

Section Indicators.

Variable df : RawFrame.

Definition volumes : list float := map (λ r, Volume r.2) df.

(** The 20-row mean at row [i]. *)
Definition avg_at (i : nat) : float :=
  if (S i <? 20)%nat then nan
  else (Pandas.fsum (take 20 (drop (S i - 20) volumes)) / Pandas.float_of_nat 20)%float.

(** Row [i] of [with_indicators df], given its bar. *)
Definition candle_at (i : nat) (b : Bar) : Candle :=
  {| bar := b;
     volume_avg_20 := avg_at i;
     volume_ratio := (Volume b / avg_at i)%float;
     candle_move_pct := (((Close b - Open b) / Open b) * 100)%float |}.

Lemma rolling_mean_lookup (i : nat) :
  Pandas.rolling_mean 20 volumes !! i = (λ _, avg_at i) <$> volumes !! i.
Proof. unfold Pandas.rolling_mean. rewrite list_lookup_imap. reflexivity. Qed.

Lemma with_indicators_lookup (i : nat) :
  with_indicators df !! i = (λ r, (r.1, candle_at i r.2)) <$> df !! i.
Proof.
  unfold with_indicators. rewrite lookup_zip_with.
  fold volumes. rewrite rolling_mean_lookup. unfold volumes.
  rewrite list_lookup_fmap.
  destruct (df !! i) as [[t b] |]; reflexivity.
Qed.

Lemma with_indicators_length : length (with_indicators df) = length df.
Proof.
  unfold with_indicators, Pandas.rolling_mean.
  rewrite length_zip_with, length_imap, length_map. lia.
Qed.

End Indicators.

Lemma div_by_nan (x : float) : PrimFloat.is_nan (x / nan) = true.
Proof.
  unfold PrimFloat.is_nan. rewrite FloatAxioms.eqb_spec, FloatAxioms.div_spec.
  replace (Prim2SF nan) with S754_nan by reflexivity.
  destruct (Prim2SF x); reflexivity.
Qed.

Module FlatDay.

(** Twenty 5-minute bars from 09:30, each of volume 100. *)
Definition bar_at (k : nat) : datetime * Bar :=
  (Demo.at_time (9 + (30 + 5 * Z.of_nat k) / 60) ((30 + 5 * Z.of_nat k) mod 60),
   mk_Bar 10 10 10 10 100).

Definition frame : RawFrame := map bar_at (seq 0 20).

End FlatDay.

(** C7 as stated fails: the twentieth candle of a frame has 19 candles
    before it, fewer than 20, and its volume average and ratio are numbers,
    not NaN. *)
Lemma rolling_window_counterexample :
  ¬ (∀ (df : RawFrame) (i : nat) (t : datetime) (c : Candle),
       with_indicators df !! i = Some (t, c) →
       (i < 20)%nat →
       PrimFloat.is_nan (volume_ratio c) = true).
Proof.
  intros Hclaim.
  specialize (Hclaim FlatDay.frame 19%nat (Demo.at_time 11 5)
                (mk_Candle (mk_Bar 10 10 10 10 100) 100 1 0)).
  assert (Hnan : PrimFloat.is_nan (volume_ratio (mk_Candle (mk_Bar 10 10 10 10 100) 100 1 0))
                 = true).
  { apply Hclaim; [vm_compute; reflexivity | lia]. }
  vm_compute in Hnan. discriminate Hnan.
Qed.

(** C7, amended.  The average of a candle is taken over the 20 candles that
    end with the candle itself.  A candle with fewer than 19 candles before
    it carries NaN as its average and as its ratio; from 19 candles before it
    on, its average is the sum of its own volume and the 19 volumes before
    it, divided by 20, and its ratio is its volume divided by that
    average. *)
Theorem rolling_window_of_twenty (df : RawFrame) (i : nat) (t : datetime) (c : Candle) :
  with_indicators df !! i = Some (t, c) →
  ((i < 19)%nat →
   PrimFloat.is_nan (volume_avg_20 c) = true
   ∧ PrimFloat.is_nan (volume_ratio c) = true)
  ∧ ((19 <= i)%nat →
     ∃ window : list float,
       window = take 20 (drop (i - 19) (volumes df))
       ∧ length window = 20%nat
       ∧ last window = Some (Volume (bar c))
       ∧ volume_avg_20 c = (Pandas.fsum window / 20)%float
       ∧ volume_ratio c = (Volume (bar c) / volume_avg_20 c)%float).
Proof.
  intros Hrow. rewrite with_indicators_lookup in Hrow.
  destruct (df !! i) as [[t' b] |] eqn:Hdf; [| discriminate Hrow].
  cbn in Hrow. injection Hrow as <- <-.
  cbn [candle_at volume_avg_20 volume_ratio bar]. unfold avg_at.
  split.
  - intros Hfew. apply Nat.ltb_lt in Hfew as Hlt. 
    replace (S i <? 20)%nat with true by (symmetry; apply Nat.ltb_lt; lia).
    split; [reflexivity | apply div_by_nan].
  - intros Hmany.
    replace (S i <? 20)%nat with false by (symmetry; apply Nat.ltb_ge; lia).
    replace (S i - 20)%nat with (i - 19)%nat by lia.
    assert (Hvol : volumes df !! i = Some (Volume b)).
    { unfold volumes. rewrite list_lookup_fmap, Hdf. reflexivity. }
    assert (Hlen : (i < length (volumes df))%nat) by (eapply lookup_lt_Some; eassumption).
    exists (take 20 (drop (i - 19) (volumes df))).
    split; [reflexivity |]. split; [| split; [| split; reflexivity]].
    + rewrite length_take, length_drop. lia.
    + rewrite last_lookup, length_take, length_drop.
      replace (Init.Nat.pred (20 `min` (length (volumes df) - (i - 19))))%nat
        with 19%nat by lia.
      rewrite lookup_take_lt by lia. rewrite lookup_drop.
      replace (i - 19 + 19)%nat with i by lia. assumption.
Qed.

Lemma rolling_window_of_twenty_witness :
  ∃ window : list float,
    window = take 20 (drop (19 - 19) (volumes FlatDay.frame))
    ∧ length window = 20%nat
    ∧ last window = Some 100%float
    ∧ (100 = Pandas.fsum window / 20)%float
    ∧ (1 = 100 / 100)%float.
Proof.
  refine (proj2 (rolling_window_of_twenty FlatDay.frame 19 (Demo.at_time 11 5)
                   (mk_Candle (mk_Bar 10 10 10 10 100) 100 1 0) _) _).
  - vm_compute. reflexivity.
  - lia.
Defined.

(** ** What one evaluation does to the dictionaries *)

Section WindowState.

Variables (ticker : string) (w : World) (s : State).
Variables (pre : DataFrame) (prev_time current_time : datetime).
Variables (prev_candle current_candle : Candle).

Hypothesis Hwindow :
  window_of (yf_download w (downloads s) ticker) 100 =
  Some (pre ++ [(prev_time, prev_candle); (current_time, current_candle)]).

Lemma check_window_alerted_spikes :
  alerted_spikes (check_spike_and_death_candle ticker w s).1 =
  if spike_due ticker prev_time prev_candle s
  then <[spike_key ticker prev_time := current_time]> (alerted_spikes s)
  else alerted_spikes s.
Proof.
  rewrite (check_window_state _ _ _ _ _ _ _ _ Hwindow). unfold spike_due.
  destruct (10 <=? candle_move_pct prev_candle)%float; cbn [andb].
  - rewrite death_part_alerted_spikes, spike_part_alerted_spikes.
    rewrite fetched_alerted_spikes. reflexivity.
  - apply fetched_alerted_spikes.
Qed.

Lemma check_window_alerted_deaths :
  alerted_deaths (check_spike_and_death_candle ticker w s).1 =
  if entry_due ticker current_time prev_candle current_candle s
  then <[death_key ticker current_time := current_time]> (alerted_deaths s)
  else alerted_deaths s.
Proof.
  rewrite (check_window_state _ _ _ _ _ _ _ _ Hwindow). unfold entry_due.
  destruct (10 <=? candle_move_pct prev_candle)%float; cbn [andb].
  - rewrite death_part_alerted_deaths, s1_alerted_deaths. reflexivity.
  - apply fetched_alerted_deaths.
Qed.

Lemma check_window_trace :
  trace (check_spike_and_death_candle ticker w s).1 =
  trace s ++ emitted (check_spike_and_death_candle ticker) w s.
Proof.
  rewrite (check_window_emitted _ _ _ _ _ _ _ _ Hwindow).
  rewrite (check_window_state _ _ _ _ _ _ _ _ Hwindow).
  destruct (10 <=? candle_move_pct prev_candle)%float.
  - rewrite death_part_trace, spike_part_trace.
    rewrite (fetched_trace _ _ _), (fetch_events_window _ _ _ _ _ _ _ _ Hwindow).
    rewrite <- !app_assoc. reflexivity.
  - rewrite (fetched_trace _ _ _), (fetch_events_window _ _ _ _ _ _ _ _ Hwindow).
    reflexivity.
Qed.

Lemma check_window_downloaded :
  downloaded (emitted (check_spike_and_death_candle ticker) w s) = [ticker].
Proof.
  rewrite (check_window_emitted _ _ _ _ _ _ _ _ Hwindow).
  change (downloaded (EvDownload ticker :: ?l)) with (ticker :: downloaded l).
  f_equal.
  destruct (10 <=? candle_move_pct prev_candle)%float; [| reflexivity].
  rewrite downloaded_app. unfold spike_events, death_events.
  destruct (bool_decide _); destruct (_ && _);
    rewrite ?downloaded_send_events; reflexivity.
Qed.

End WindowState.

Section ShortWindow.

Variables (ticker : string) (w : World) (s : State).

Hypothesis Hshort : short_window (window_of (yf_download w (downloads s) ticker) 100).

Lemma check_short_state :
  (check_spike_and_death_candle ticker w s).1 = fetched ticker w 100 s.
Proof.
  rewrite check_spike_and_death_candle_run, detect_short by assumption.
  reflexivity.
Qed.

Lemma check_short_emitted :
  emitted (check_spike_and_death_candle ticker) w s =
  fetch_events ticker (yf_download w (downloads s) ticker).
Proof.
  apply emitted_of_trace. rewrite check_short_state.
  unfold fetched. rewrite get_5min_candles_run. reflexivity.
Qed.

Lemma posted_fetch_events (r : download_result) : posted (fetch_events ticker r) = [].
Proof. destruct r; reflexivity. Qed.

Lemma downloaded_fetch_events (r : download_result) :
  downloaded (fetch_events ticker r) = [ticker].
Proof. destruct r; reflexivity. Qed.

Lemma check_short_trace :
  trace (check_spike_and_death_candle ticker w s).1 =
  trace s ++ emitted (check_spike_and_death_candle ticker) w s.
Proof.
  rewrite check_short_emitted, check_short_state.
  unfold fetched. rewrite get_5min_candles_run. reflexivity.
Qed.

End ShortWindow.

Lemma window_cases (df : option DataFrame) :
  short_window df
  ∨ ∃ pre prev_time prev_candle current_time current_candle,
      df = Some (pre ++ [(prev_time, prev_candle); (current_time, current_candle)]).
Proof.
  destruct df as [rows |]; [| left; exact I].
  destruct (Nat.lt_ge_cases (length rows) 2) as [Hshort | Hlong].
  - left. exact Hshort.
  - right. destruct (last_two_split rows Hlong) as (pre & [pt p] & [ct c] & ->).
    exists pre, pt, p, ct, c. reflexivity.
Qed.

(** One evaluation, as the dedup argument needs it: it downloads once; it
    posts no candle twice; every candle it posts for had a new key before and
    has a recorded key after; and no key is ever forgotten. *)
Record evaluation_step (ticker : string) (s s' : State) (evs : list event) : Prop := {
  step_trace : trace s' = trace s ++ evs;
  step_downloaded : downloaded evs = [ticker];
  step_nodup : NoDup (posted evs);
  step_new : ∀ o, o ∈ posted evs → key_of o ∉ dom (alerted (kind o) s);
  step_recorded : ∀ o, o ∈ posted evs → key_of o ∈ dom (alerted (kind o) s');
  step_ticker : ∀ o, o ∈ posted evs → ticker_of o = ticker;
  step_monotone : ∀ k, dom (alerted k s) ⊆ dom (alerted k s')
}.

Lemma check_step (ticker : string) (w : World) (s : State) :
  evaluation_step ticker s (check_spike_and_death_candle ticker w s).1
    (emitted (check_spike_and_death_candle ticker) w s).
Proof.
  destruct (window_cases (window_of (yf_download w (downloads s) ticker) 100))
    as [Hshort | (pre & pt & p & ct & c & Hwindow)].
  - pose proof (check_short_state ticker w s Hshort) as Hstate.
    pose proof (check_short_emitted ticker w s Hshort) as Hevs.
    split.
    + apply check_short_trace. assumption.
    + rewrite Hevs. apply downloaded_fetch_events.
    + rewrite Hevs, posted_fetch_events. constructor.
    + rewrite Hevs, posted_fetch_events. intros o Hin. apply elem_of_nil in Hin. destruct Hin.
    + rewrite Hevs, posted_fetch_events. intros o Hin. apply elem_of_nil in Hin. destruct Hin.
    + rewrite Hevs, posted_fetch_events. intros o Hin. apply elem_of_nil in Hin. destruct Hin.
    + intros k. rewrite Hstate. destruct k; cbn [alerted].
      * rewrite fetched_alerted_spikes. reflexivity.
      * rewrite fetched_alerted_deaths. reflexivity.
  - pose proof (check_window_posted _ _ _ _ _ _ _ _ Hwindow) as Hposted.
    pose proof (check_window_alerted_spikes _ _ _ _ _ _ _ _ Hwindow) as Hspikes.
    pose proof (check_window_alerted_deaths _ _ _ _ _ _ _ _ Hwindow) as Hdeaths.
    assert (Hsd : spike_due ticker pt p s = true →
                  spike_key ticker pt ∉ dom (alerted_spikes s)).
    { unfold spike_due. intros Hdue. apply andb_true_iff in Hdue as [_ Hdue].
      apply bool_decide_eq_true in Hdue. exact Hdue. }
    assert (Hed : entry_due ticker ct p c s = true →
                  death_key ticker ct ∉ dom (alerted_deaths s)).
    { unfold entry_due. intros Hdue. apply andb_true_iff in Hdue as [_ Hdue].
      apply bool_decide_eq_true in Hdue. exact Hdue. }
    split.
    + apply (check_window_trace _ _ _ _ _ _ _ _ Hwindow).
    + apply (check_window_downloaded _ _ _ _ _ _ _ _ Hwindow).
    + rewrite Hposted. unfold spike_origin, entry_origin.
      destruct (spike_due _ _ _ _); destruct (entry_due _ _ _ _ _); cbn [app];
        repeat (apply NoDup_cons_2 || apply NoDup_nil_2);
        rewrite ?list_elem_of_singleton; try apply not_elem_of_nil; discriminate.
    + intros o. rewrite Hposted. unfold spike_origin, entry_origin.
      destruct (spike_due _ _ _ _); destruct (entry_due _ _ _ _ _); cbn [app];
        rewrite ?elem_of_cons, ?elem_of_nil; intros Hin;
        repeat (destruct Hin as [-> | Hin]); try destruct Hin;
        cbn [key_of kind alerted ticker_of candle_time]; auto.
    + intros o. rewrite Hposted. unfold spike_origin, entry_origin.
      rewrite ?Hspikes, ?Hdeaths.
      destruct (spike_due _ _ _ _); destruct (entry_due _ _ _ _ _); cbn [app];
        rewrite ?elem_of_cons, ?elem_of_nil; intros Hin;
        repeat (destruct Hin as [-> | Hin]); try destruct Hin;
        cbn [key_of kind alerted ticker_of candle_time];
        rewrite ?Hspikes, ?Hdeaths, ?dom_insert_L; set_solver.
    + intros o. rewrite Hposted. unfold spike_origin, entry_origin.
      destruct (spike_due _ _ _ _); destruct (entry_due _ _ _ _ _); cbn [app];
        rewrite ?elem_of_cons, ?elem_of_nil; intros Hin;
        repeat (destruct Hin as [-> | Hin]); try destruct Hin; reflexivity.
    + intros k. destruct k; cbn [alerted]; rewrite ?Hspikes, ?Hdeaths.
      * destruct (spike_due _ _ _ _); rewrite ?dom_insert_L; set_solver.
      * destruct (entry_due _ _ _ _ _); rewrite ?dom_insert_L; set_solver.
Qed.

(** ** A process lifetime *)

(** [dedup_extends s s']: the program can get from [s] to [s'].  The trace
    has grown by some events; no key has been forgotten; among the new
    events no candle is posted for twice, and every candle posted for had a
    new key in [s] and has a recorded key in [s']. *)
Definition dedup_extends (s s' : State) : Prop :=
  ∃ evs,
    trace s' = trace s ++ evs
    ∧ (∀ k, dom (alerted k s) ⊆ dom (alerted k s'))
    ∧ NoDup (posted evs)
    ∧ (∀ o, o ∈ posted evs →
         (key_of o ∉ dom (alerted (kind o) s))
         ∧ key_of o ∈ dom (alerted (kind o) s')).

Lemma dedup_extends_refl (s : State) : dedup_extends s s.
Proof.
  exists []. rewrite app_nil_r.
  split; [reflexivity |]. split; [reflexivity |]. split; [constructor |].
  intros o Hin. apply elem_of_nil in Hin. destruct Hin.
Qed.

Lemma dedup_extends_quiet (s s' : State) (evs : list event) :
  trace s' = trace s ++ evs → posted evs = [] →
  alerted_spikes s' = alerted_spikes s → alerted_deaths s' = alerted_deaths s →
  dedup_extends s s'.
Proof.
  intros Htrace Hquiet Hspikes Hdeaths. exists evs.
  split; [assumption |]. split; [| split].
  - intros k. destruct k; cbn [alerted]; rewrite ?Hspikes, ?Hdeaths; reflexivity.
  - rewrite Hquiet. constructor.
  - rewrite Hquiet. intros o Hin. apply elem_of_nil in Hin. destruct Hin.
Qed.

Lemma dedup_extends_trans (s1 s2 s3 : State) :
  dedup_extends s1 s2 → dedup_extends s2 s3 → dedup_extends s1 s3.
Proof.
  intros (evs1 & Htr1 & Hmono1 & Hnd1 & Hnew1) (evs2 & Htr2 & Hmono2 & Hnd2 & Hnew2).
  exists (evs1 ++ evs2). split; [| split; [| split]].
  - rewrite Htr2, Htr1, app_assoc. reflexivity.
  - intros k. etransitivity; [apply Hmono1 | apply Hmono2].
  - rewrite posted_app. apply NoDup_app. split; [assumption | split; [| assumption]].
    intros o Hin1 Hin2.
    destruct (Hnew1 o Hin1) as [_ Hrec]. destruct (Hnew2 o Hin2) as [Hfresh _].
    contradiction.
  - intros o. rewrite posted_app, elem_of_app. intros [Hin | Hin].
    + destruct (Hnew1 o Hin) as [Hfresh Hrec]. split; [assumption |].
      apply (Hmono2 (kind o)). assumption.
    + destruct (Hnew2 o Hin) as [Hfresh Hrec]. split; [| assumption].
      intros Hold. apply Hfresh. apply (Hmono1 (kind o)). assumption.
Qed.

Lemma dedup_extends_step (ticker : string) (s s' : State) (evs : list event) :
  evaluation_step ticker s s' evs → dedup_extends s s'.
Proof.
  intros [Htr _ Hnd Hnew Hrec _ Hmono].
  exists evs. repeat split; auto.
Qed.

(** A computation that keeps to [dedup_extends], whatever the world does. *)
Definition dedup_sound {A} (m : M A) : Prop :=
  ∀ w s, dedup_extends s (m w s).1.

Lemma dedup_sound_ret {A} (a : A) : dedup_sound (mret a : M A).
Proof. intros w s. apply dedup_extends_refl. Qed.

Lemma dedup_sound_get_world : dedup_sound get_world.
Proof. intros w s. apply dedup_extends_refl. Qed.

Lemma dedup_sound_log (lvl : level) (msg : string) : dedup_sound (emit (EvLog lvl msg)).
Proof.
  intros w s. apply (dedup_extends_quiet _ _ [EvLog lvl msg]); reflexivity.
Qed.

Lemma dedup_sound_sleep (seconds : float) : dedup_sound (time_sleep seconds).
Proof.
  intros w s. apply (dedup_extends_quiet _ _ [EvSleep seconds]); reflexivity.
Qed.

Lemma dedup_sound_bind {A B} (m : M A) (f : A → M B) :
  dedup_sound m → (∀ a, dedup_sound (f a)) → dedup_sound (m ≫= f).
Proof.
  intros Hm Hf w s. unfold mbind, M_bind.
  specialize (Hm w s). destruct (m w s) as [s' [a | e]]; cbn in *.
  - eapply dedup_extends_trans; [exact Hm | apply Hf].
  - exact Hm.
Qed.

Lemma dedup_sound_try_except {A} (body : M A) (handler : exn → M A) :
  dedup_sound body → (∀ e, dedup_sound (handler e)) →
  dedup_sound (try_except body handler).
Proof.
  intros Hbody Hhandler w s. unfold try_except.
  specialize (Hbody w s). destruct (body w s) as [s' [a | e]]; cbn in *.
  - exact Hbody.
  - eapply dedup_extends_trans; [exact Hbody | apply Hhandler].
Qed.

Lemma dedup_sound_for_each {A} (xs : list A) (body : A → M unit) :
  (∀ x, dedup_sound (body x)) → dedup_sound (for_each xs body).
Proof.
  intros Hbody. induction xs as [| x xs IH]; cbn [for_each].
  - apply dedup_sound_ret.
  - apply dedup_sound_bind; [apply Hbody | intros _; exact IH].
Qed.

Lemma dedup_sound_check (ticker : string) :
  dedup_sound (check_spike_and_death_candle ticker).
Proof. intros w s. eapply dedup_extends_step. apply check_step. Qed.

(** Any sequence of evaluations. *)
Definition evaluations (tickers : list string) : M unit :=
  for_each tickers check_spike_and_death_candle.

Lemma dedup_sound_evaluations (tickers : list string) :
  dedup_sound (evaluations tickers).
Proof. apply dedup_sound_for_each. intros x. apply dedup_sound_check. Qed.

Lemma dedup_sound_main_pass (n : nat) : dedup_sound (main_pass n).
Proof.
  unfold main_pass. apply dedup_sound_try_except.
  - apply dedup_sound_bind; [apply dedup_sound_get_world |]. intros w.
    apply dedup_sound_bind; [| intros _; apply dedup_sound_sleep].
    destruct (get_market_status (now_et w n)).
    + apply dedup_sound_bind; [apply dedup_sound_log |]. intros _.
      apply dedup_sound_for_each. intros stock.
      apply dedup_sound_bind; [apply dedup_sound_check |]. intros _.
      apply dedup_sound_sleep.
    + apply dedup_sound_log.
  - intros e.
    apply dedup_sound_bind; [apply dedup_sound_log | intros _; apply dedup_sound_sleep].
Qed.

Lemma dedup_sound_while_true (passes n : nat) : dedup_sound (while_true passes n).
Proof.
  revert n. induction passes as [| k IH]; intros n; cbn [while_true].
  - apply dedup_sound_ret.
  - apply dedup_sound_bind; [apply dedup_sound_main_pass | intros _; apply IH].
Qed.

Lemma dedup_sound_main_loop (passes : nat) : dedup_sound (main_loop passes).
Proof.
  unfold main_loop.
  apply dedup_sound_bind; [apply dedup_sound_get_world |]. intros w.
  apply dedup_sound_bind; [apply dedup_sound_log |]. intros _.
  destruct (webhook_unset w); [apply dedup_sound_log | apply dedup_sound_while_true].
Qed.

Lemma dedup_extends_emitted {A} (m : M A) (w : World) (s : State) :
  dedup_extends s (m w s).1 →
  NoDup (posted (emitted m w s))
  ∧ ∀ o, o ∈ posted (emitted m w s) → key_of o ∉ dom (alerted (kind o) s).
Proof.
  intros (evs & Htrace & _ & Hnodup & Hnew).
  rewrite (emitted_of_trace m w s evs Htrace).
  split; [assumption |]. intros o Hin. apply Hnew. assumption.
Qed.

(** Once a window has been evaluated, nothing is due on it any more. *)
Lemma nothing_due_after (ticker : string) (w : World) (s s'' : State)
    (pre : DataFrame) (prev_time current_time : datetime)
    (prev_candle current_candle : Candle) :
  window_of (yf_download w (downloads s) ticker) 100 =
    Some (pre ++ [(prev_time, prev_candle); (current_time, current_candle)]) →
  dedup_extends (check_spike_and_death_candle ticker w s).1 s'' →
  spike_due ticker prev_time prev_candle s'' = false
  ∧ entry_due ticker current_time prev_candle current_candle s'' = false.
Proof.
  intros Hwindow (evs & _ & Hmono & _).
  pose proof (check_window_alerted_spikes _ _ _ _ _ _ _ _ Hwindow) as Hspikes.
  pose proof (check_window_alerted_deaths _ _ _ _ _ _ _ _ Hwindow) as Hdeaths.
  pose proof (Hmono SPIKE) as Hmono_spikes. pose proof (Hmono ENTRY) as Hmono_deaths.
  cbn [alerted] in Hmono_spikes, Hmono_deaths.
  split.
  - unfold spike_due in *.
    destruct (10 <=? candle_move_pct prev_candle)%float; cbn [andb] in *;
      [| reflexivity].
    apply bool_decide_eq_false. intros Hfresh. apply Hfresh.
    apply Hmono_spikes. rewrite Hspikes.
    destruct (decide (spike_key ticker prev_time ∈ dom (alerted_spikes s)))
      as [Hold | Hnew].
    + rewrite bool_decide_eq_false_2 by (intros Hnot; apply Hnot; exact Hold).
      exact Hold.
    + rewrite bool_decide_eq_true_2 by exact Hnew.
      rewrite dom_insert_L. apply elem_of_union_l, elem_of_singleton. reflexivity.
  - unfold entry_due in *.
    destruct ((10 <=? candle_move_pct prev_candle)%float
              && (Close (bar current_candle) <? Open (bar current_candle))%float);
      cbn [andb] in *; [| reflexivity].
    apply bool_decide_eq_false. intros Hfresh. apply Hfresh.
    apply Hmono_deaths. rewrite Hdeaths.
    destruct (decide (death_key ticker current_time ∈ dom (alerted_deaths s)))
      as [Hold | Hnew].
    + rewrite bool_decide_eq_false_2 by (intros Hnot; apply Hnot; exact Hold).
      exact Hold.
    + rewrite bool_decide_eq_true_2 by exact Hnew.
      rewrite dom_insert_L. apply elem_of_union_l, elem_of_singleton. reflexivity.
Qed.

Lemma reevaluation_posts_nothing (ticker : string) (w w'' : World) (s s'' : State) :
  dedup_extends (check_spike_and_death_candle ticker w s).1 s'' →
  window_of (yf_download w'' (downloads s'') ticker) 100 =
    window_of (yf_download w (downloads s) ticker) 100 →
  posted (emitted (check_spike_and_death_candle ticker) w'' s'') = [].
Proof.
  intros Hlater Hsame.
  destruct (window_cases (window_of (yf_download w (downloads s) ticker) 100))
    as [Hshort | (pre & pt & p & ct & c & Hwindow)].
  - rewrite <- Hsame in Hshort.
    rewrite (check_short_emitted _ _ _ Hshort). apply posted_fetch_events.
  - destruct (nothing_due_after _ _ _ _ _ _ _ _ _ Hwindow Hlater) as [Hs He].
    rewrite Hwindow in Hsame.
    rewrite (check_window_posted _ _ _ _ _ _ _ _ Hsame), Hs, He. reflexivity.
Qed.

(** C1. Over a process lifetime, from the start of [main_loop] through any
    number of passes (and likewise through any sequence of evaluations), no
    (kind, ticker, candle timestamp) is posted for twice: at most one SPIKE
    alert for (ticker, prev timestamp) and at most one ENTRY alert for
    (ticker, current timestamp).  Evaluating a window again, at once or
    later, emits nothing. *)
Theorem at_most_one_alert_per_candle :
  (∀ (w : World) (passes : nat) (k : alert_kind) (ticker : string) (ts : datetime),
     NoDup (posted (trace (main_loop passes w initial_state).1))
     ∧ (count_occ origin_eq_dec (posted (trace (main_loop passes w initial_state).1))
          (mk_origin k ticker ts) <= 1)%nat)
  ∧ (∀ (w : World) (tickers : list string) (k : alert_kind) (ticker : string)
       (ts : datetime),
       NoDup (posted (trace (evaluations tickers w initial_state).1))
       ∧ (count_occ origin_eq_dec (posted (trace (evaluations tickers w initial_state).1))
            (mk_origin k ticker ts) <= 1)%nat)
  ∧ (∀ (ticker : string) (w w'' : World) (s s'' : State),
       dedup_extends (check_spike_and_death_candle ticker w s).1 s'' →
       window_of (yf_download w'' (downloads s'') ticker) 100 =
         window_of (yf_download w (downloads s) ticker) 100 →
       posted (emitted (check_spike_and_death_candle ticker) w'' s'') = []).
Proof.
  assert (Hfrom_start : ∀ (m : M unit) (w : World),
             dedup_sound m → NoDup (posted (trace (m w initial_state).1))).
  { intros m w Hsound. destruct (Hsound w initial_state) as (evs & Htrace & _ & Hnd & _).
    rewrite Htrace. exact Hnd. }
  split; [| split].
  - intros w passes k ticker ts.
    pose proof (Hfrom_start _ w (dedup_sound_main_loop passes)) as Hnd.
    split; [exact Hnd |]. apply NoDup_count_occ. apply NoDup_ListNoDup. exact Hnd.
  - intros w tickers k ticker ts.
    pose proof (Hfrom_start _ w (dedup_sound_evaluations tickers)) as Hnd.
    split; [exact Hnd |]. apply NoDup_count_occ. apply NoDup_ListNoDup. exact Hnd.
  - intros ticker w w'' s s''. apply reevaluation_posts_nothing.
Qed.

Lemma at_most_one_alert_per_candle_witness :
  posted (emitted (check_spike_and_death_candle "FFIE")
            (Demo.world Demo.spike_then_red (PostResponse 204))
            (check_spike_and_death_candle "FFIE"
               (Demo.world Demo.spike_then_red (PostResponse 204)) initial_state).1)
  = []
  ∧ (count_occ origin_eq_dec
       (posted (trace (main_loop 3 (Demo.world Demo.spike_then_red (PostResponse 204))
                         initial_state).1))
       (mk_origin SPIKE "FFIE" (Demo.at_time 9 35)) <= 1)%nat.
Proof.
  destruct at_most_one_alert_per_candle as (Hloop & _ & Hagain).
  split.
  - apply (Hagain "FFIE" (Demo.world Demo.spike_then_red (PostResponse 204))
             (Demo.world Demo.spike_then_red (PostResponse 204)) initial_state).
    + apply dedup_extends_refl.
    + reflexivity.
  - apply Hloop.
Defined.

(** ** Failures *)

(** The per-ticker part of a cycle (lines 159 to 161). *)
Definition ticker_loop (stocks : list string) : M unit :=
  for_each stocks (λ stock, check_spike_and_death_candle stock;; time_sleep 0.5).

Lemma try_except_returns {A} (body : M A) (handler : exn → M A) :
  (∀ e w s, ∃ a, (handler e w s).2 = Returns a) →
  ∀ w s, ∃ a, (try_except body handler w s).2 = Returns a.
Proof.
  intros Hhandler w s. unfold try_except.
  destruct (body w s) as [s' [a | e]]; [exists a; reflexivity | apply Hhandler].
Qed.

Lemma check_returns (ticker : string) (w : World) (s : State) :
  (check_spike_and_death_candle ticker w s).2 = Returns tt.
Proof. rewrite check_spike_and_death_candle_run. reflexivity. Qed.

Lemma check_trace (ticker : string) (w : World) (s : State) :
  trace (check_spike_and_death_candle ticker w s).1 =
  trace s ++ emitted (check_spike_and_death_candle ticker) w s.
Proof. apply (step_trace _ _ _ _ (check_step ticker w s)). Qed.

Lemma check_downloaded (ticker : string) (w : World) (s : State) :
  downloaded (emitted (check_spike_and_death_candle ticker) w s) = [ticker].
Proof. apply (step_downloaded _ _ _ _ (check_step ticker w s)). Qed.

(** The state after one ticker of the loop: evaluated, then slept. *)
Definition after_ticker (stock : string) (w : World) (s : State) : State :=
  (time_sleep 0.5 w (check_spike_and_death_candle stock w s).1).1.

Lemma ticker_loop_cons (stock : string) (stocks : list string) (w : World) (s : State) :
  ticker_loop (stock :: stocks) w s = ticker_loop stocks w (after_ticker stock w s).
Proof.
  unfold ticker_loop at 1. cbn [for_each]. fold (ticker_loop stocks).
  unfold after_ticker. cbv [mbind M_bind].
  pose proof (check_returns stock w s) as Hret.
  destruct (check_spike_and_death_candle stock w s) as [s1 r]. cbn in Hret.
  subst r. reflexivity.
Qed.

Lemma after_ticker_trace (stock : string) (w : World) (s : State) :
  trace (after_ticker stock w s) =
  trace s ++ (emitted (check_spike_and_death_candle stock) w s ++ [EvSleep 0.5]).
Proof.
  unfold after_ticker. cbv [time_sleep emit]. cbn [fst trace].
  rewrite check_trace, <- app_assoc. reflexivity.
Qed.

Lemma ticker_loop_run (stocks : list string) (w : World) (s : State) :
  (ticker_loop stocks w s).2 = Returns tt
  ∧ ∃ evs, trace (ticker_loop stocks w s).1 = trace s ++ evs
           ∧ downloaded evs = stocks.
Proof.
  revert s. induction stocks as [| stock stocks IH]; intros s.
  - split; [reflexivity |]. exists []. rewrite app_nil_r. split; reflexivity.
  - rewrite ticker_loop_cons.
    destruct (IH (after_ticker stock w s)) as (Hret & evs & Htrace & Hdl).
    split; [exact Hret |].
    eexists. split.
    + rewrite Htrace, after_ticker_trace, <- !app_assoc. reflexivity.
    + rewrite !downloaded_app, check_downloaded, Hdl. reflexivity.
Qed.

Lemma run_bind_returns {A B} (m : M A) (f : A → M B) (w : World) (s s' : State) (a : A) :
  m w s = (s', Returns a) → (m ≫= f) w s = f a w s'.
Proof. intros Hm. unfold mbind, M_bind. rewrite Hm. reflexivity. Qed.

(** The log line that opens a cycle. *)
Definition cycle_banner (w : World) (n : nat) : event :=
  EvLog INFO ("Market open - checking " ++
              Render.dec (Z.of_nat (length (STOCKS w))) ++
              " stocks at " ++ Calendar.str (now_local w n))%string.

(** A pass of the loop on an open market. *)
Lemma main_pass_open (n : nat) (w : World) (s : State) :
  get_market_status (now_et w n) = true →
  main_pass n w s =
  time_sleep 300 w (ticker_loop (STOCKS w) w (emit (cycle_banner w n) w s).1).1.
Proof.
  intros Hopen. unfold main_pass, try_except.
  rewrite (run_bind_returns get_world _ w s s w eq_refl). rewrite Hopen.
  destruct (ticker_loop_run (STOCKS w) w (emit (cycle_banner w n) w s).1)
    as (Hret & _).
  destruct (ticker_loop (STOCKS w) w (emit (cycle_banner w n) w s).1)
    as [s2 r] eqn:Hloop.
  cbn in Hret. subst r.
  erewrite run_bind_returns.
  2:{ erewrite run_bind_returns by reflexivity. exact Hloop. }
  reflexivity.
Qed.

Module Flaky.

(** Two tickers; the download of the first one raises, the webhook is down. *)
Definition world : World :=
  {| WEBHOOK_URL := Some "https://discord.example/hook"%string;
     STOCKS := ["BAD"%string; "FFIE"%string];
     now_et := λ _, Demo.at_time 10 0;
     now_local := λ _, Demo.at_time 10 0;
     utcnow := λ _, mk_datetime 2024 1 3 15 0 0 0 None;
     yf_download := λ _ ticker,
       if bool_decide (ticker = "BAD"%string)
       then DownloadRaises "No data found, symbol may be delisted"
       else DownloadFrame Demo.spike_then_red;
     requests_post := λ _ _, PostRaises "connection refused" |}.

End Flaky.

(** C9. [send_discord_alert] never raises: a request that fails and a
    response that is an error are both handled inside it.  So the key of an
    alert is recorded whether or not the alert was delivered, and the alert
    is not posted again: not by any later evaluation, and not by any later
    pass of the main loop. *)
Theorem failed_alert_never_retried :
  (∀ (o : origin) (title message : string) (color : Z) (w : World) (s : State),
     (send_discord_alert o title message color w s).2 = Returns tt)
  ∧ (∀ (ticker : string) (w : World) (s : State) (o : origin),
       o ∈ posted (emitted (check_spike_and_death_candle ticker) w s) →
       key_of o ∈ dom (alerted (kind o) (check_spike_and_death_candle ticker w s).1)
       ∧ ∀ (w' : World) (s' : State),
           dedup_extends (check_spike_and_death_candle ticker w s).1 s' →
           (∀ tickers, o ∉ posted (emitted (evaluations tickers) w' s'))
           ∧ (∀ passes n, o ∉ posted (emitted (while_true passes n) w' s'))).
Proof.
  split; [exact send_discord_alert_returns |].
  intros ticker w s o Hposted.
  pose proof (step_recorded _ _ _ _ (check_step ticker w s) o Hposted) as Hrecorded.
  split; [exact Hrecorded |].
  intros w' s' (evs & _ & Hmono & _).
  assert (Hkept : key_of o ∈ dom (alerted (kind o) s'))
    by (apply (Hmono (kind o)); exact Hrecorded).
  split.
  - intros tickers Hagain.
    destruct (dedup_extends_emitted _ w' s' (dedup_sound_evaluations tickers w' s'))
      as [_ Hnew].
    apply (Hnew o Hagain). exact Hkept.
  - intros passes n Hagain.
    destruct (dedup_extends_emitted _ w' s' (dedup_sound_while_true passes n w' s'))
      as [_ Hnew].
    apply (Hnew o Hagain). exact Hkept.
Qed.

Lemma failed_alert_never_retried_witness :
  spike_origin "FFIE" (Demo.at_time 9 35)
    ∈ posted (emitted (check_spike_and_death_candle "FFIE") Flaky.world initial_state)
  ∧ spike_key "FFIE" (Demo.at_time 9 35)
      ∈ dom (alerted_spikes (check_spike_and_death_candle "FFIE" Flaky.world initial_state).1)
  ∧ spike_origin "FFIE" (Demo.at_time 9 35)
      ∉ posted (emitted (while_true 2 0) Flaky.world
                  (check_spike_and_death_candle "FFIE" Flaky.world initial_state).1).
Proof.
  assert (Hposted : spike_origin "FFIE" (Demo.at_time 9 35)
            ∈ posted (emitted (check_spike_and_death_candle "FFIE") Flaky.world
                        initial_state)).
  { replace (posted (emitted (check_spike_and_death_candle "FFIE") Flaky.world
                       initial_state))
      with [spike_origin "FFIE" (Demo.at_time 9 35);
            entry_origin "FFIE" (Demo.at_time 9 40)]
      by (vm_compute; reflexivity).
    apply elem_of_cons. left. reflexivity. }
  split; [exact Hposted |].
  destruct failed_alert_never_retried as (_ & Hkept).
  destruct (Hkept "FFIE"%string Flaky.world initial_state _ Hposted) as (Hrecorded & Hlater).
  split; [exact Hrecorded |].
  apply (Hlater Flaky.world _ (dedup_extends_refl _)).
Defined.

(** ** Volume plays no part in the decisions *)

Definition same_prices (b1 b2 : Bar) : Prop :=
  Open b1 = Open b2 ∧ High b1 = High b2 ∧ Low b1 = Low b2 ∧ Close b1 = Close b2.

(** Two downloaded frames that differ in their volumes at most. *)
Definition same_but_volume (df1 df2 : RawFrame) : Prop :=
  Forall2 (λ r1 r2, r1.1 = r2.1 ∧ same_prices r1.2 r2.2) df1 df2.

(** Two rows of a window that differ in volume, average and ratio at most. *)
Definition same_decisive (r1 r2 : datetime * Candle) : Prop :=
  r1.1 = r2.1 ∧ same_prices (bar r1.2) (bar r2.2)
  ∧ candle_move_pct r1.2 = candle_move_pct r2.2.

Lemma with_indicators_same (df1 df2 : RawFrame) :
  same_but_volume df1 df2 →
  Forall2 same_decisive (with_indicators df1) (with_indicators df2).
Proof.
  intros Hsame. apply Forall2_same_length_lookup. split.
  - rewrite !with_indicators_length. eapply Forall2_length. exact Hsame.
  - intros i r1 r2. rewrite !with_indicators_lookup.
    destruct (df1 !! i) as [[t1 b1] |] eqn:H1; [| discriminate].
    destruct (df2 !! i) as [[t2 b2] |] eqn:H2; [| discriminate].
    cbn. intros [= <-] [= <-].
    destruct (Forall2_lookup_lr _ _ _ _ _ _ Hsame H1 H2) as (Ht & Hprices).
    cbn in Ht, Hprices. split; [exact Ht |]. split; [exact Hprices |].
    destruct Hprices as (Hopen & _ & _ & Hclose). cbn. rewrite Hopen, Hclose.
    reflexivity.
Qed.

Lemma tail_same {A B} (R : A → B → Prop) (n : nat) (l : list A) (k : list B) :
  Forall2 R l k → Forall2 R (Pandas.tail n l) (Pandas.tail n k).
Proof.
  intros Hlk. unfold Pandas.tail. rewrite (Forall2_length _ _ _ Hlk).
  apply Forall2_drop. exact Hlk.
Qed.

Lemma window_same (df1 df2 : RawFrame) (limit : nat) :
  same_but_volume df1 df2 →
  match window_of (DownloadFrame df1) limit, window_of (DownloadFrame df2) limit with
  | Some rows1, Some rows2 => Forall2 same_decisive rows1 rows2
  | None, None => True
  | _, _ => False
  end.
Proof.
  intros Hsame. unfold window_of.
  destruct Hsame as [| r1 r2 df1 df2 Hr Hrest].
  - exact I.
  - rewrite !bool_decide_eq_false_2 by discriminate.
    apply tail_same, with_indicators_same. constructor; assumption.
Qed.

Lemma last_two_same (pre1 : DataFrame) (a1 b1 : datetime * Candle) (rows2 : DataFrame) :
  Forall2 same_decisive (pre1 ++ [a1; b1]) rows2 →
  ∃ pre2 a2 b2, rows2 = pre2 ++ [a2; b2] ∧ same_decisive a1 a2 ∧ same_decisive b1 b2.
Proof.
  intros Hsame. apply Forall2_app_inv_l in Hsame as (pre2 & tl2 & _ & Htl & ->).
  inversion Htl as [| ? a2 ? tl2' Ha Htl' ]; subst.
  inversion Htl' as [| ? b2 ? tl2'' Hb Hnil]; subst.
  inversion Hnil; subst.
  exists pre2, a2, b2. auto.
Qed.

Lemma short_window_same (rows1 rows2 : DataFrame) :
  Forall2 same_decisive rows1 rows2 →
  short_window (Some rows1) → short_window (Some rows2).
Proof.
  intros Hsame. unfold short_window. rewrite (Forall2_length _ _ _ Hsame). auto.
Qed.

(** C10. Whether an alert fires does not depend on volume.  Two evaluations
    whose downloaded frames agree on timestamps and prices, started with the
    same two dictionaries, post for the same candles in the same order and
    leave the same dictionaries, whatever the volumes (and so the averages
    and ratios) are and whatever the webhook answers. *)
Theorem alerts_independent_of_volume (ticker : string) (w1 w2 : World) (s1 s2 : State)
    (df1 df2 : RawFrame) :
  yf_download w1 (downloads s1) ticker = DownloadFrame df1 →
  yf_download w2 (downloads s2) ticker = DownloadFrame df2 →
  same_but_volume df1 df2 →
  alerted_spikes s1 = alerted_spikes s2 →
  alerted_deaths s1 = alerted_deaths s2 →
  posted (emitted (check_spike_and_death_candle ticker) w1 s1)
  = posted (emitted (check_spike_and_death_candle ticker) w2 s2)
  ∧ alerted_spikes (check_spike_and_death_candle ticker w1 s1).1
    = alerted_spikes (check_spike_and_death_candle ticker w2 s2).1
  ∧ alerted_deaths (check_spike_and_death_candle ticker w1 s1).1
    = alerted_deaths (check_spike_and_death_candle ticker w2 s2).1.
Proof.
  intros Hdownload1 Hdownload2 Hsame Hspikes Hdeaths.
  pose proof (window_same df1 df2 100 Hsame) as Hwindows.
  rewrite <- Hdownload1, <- Hdownload2 in Hwindows.
  destruct (window_cases (window_of (yf_download w1 (downloads s1) ticker) 100))
    as [Hshort1 | (pre1 & pt & p1 & ct & c1 & Hwindow1)].
  - assert (Hshort2 : short_window (window_of (yf_download w2 (downloads s2) ticker) 100)).
    { destruct (window_of (yf_download w1 (downloads s1) ticker) 100) as [rows1 |];
        destruct (window_of (yf_download w2 (downloads s2) ticker) 100) as [rows2 |];
        try contradiction; try exact I.
      eapply short_window_same; eassumption. }
    rewrite !check_short_emitted, !check_short_state by assumption.
    rewrite !posted_fetch_events, !fetched_alerted_spikes, !fetched_alerted_deaths.
    auto.
  - rewrite Hwindow1 in Hwindows.
    destruct (window_of (yf_download w2 (downloads s2) ticker) 100) as [rows2 |] eqn:Hwindow2;
      [| contradiction].
    apply last_two_same in Hwindows
      as (pre2 & [pt2 p2] & [ct2 c2] & -> & Hprev & Hcur).
    destruct Hprev as (Hpt & _ & Hmove). destruct Hcur as (Hct & Hprices & _).
    cbn in Hpt, Hct, Hmove, Hprices. subst pt2 ct2.
    destruct Hprices as (Hopen & _ & _ & Hclose).
    assert (Hsd : spike_due ticker pt p1 s1 = spike_due ticker pt p2 s2)
      by (unfold spike_due; rewrite Hmove, Hspikes; reflexivity).
    assert (Hed : entry_due ticker ct p1 c1 s1 = entry_due ticker ct p2 c2 s2)
      by (unfold entry_due; rewrite Hmove, Hopen, Hclose, Hdeaths; reflexivity).
    rewrite (check_window_posted _ _ _ _ _ _ _ _ Hwindow1).
    rewrite (check_window_posted _ _ _ _ _ _ _ _ Hwindow2).
    rewrite (check_window_alerted_spikes _ _ _ _ _ _ _ _ Hwindow1).
    rewrite (check_window_alerted_spikes _ _ _ _ _ _ _ _ Hwindow2).
    rewrite (check_window_alerted_deaths _ _ _ _ _ _ _ _ Hwindow1).
    rewrite (check_window_alerted_deaths _ _ _ _ _ _ _ _ Hwindow2).
    rewrite Hsd, Hed, Hspikes, Hdeaths. auto.
Qed.

Lemma alerts_independent_of_volume_witness :
  posted (emitted (check_spike_and_death_candle "FFIE")
            (Demo.world Demo.spike_then_red (PostResponse 204)) initial_state)
  = posted (emitted (check_spike_and_death_candle "FFIE")
              (Demo.world Demo.spike_then_red_thin (PostRaises "timeout")) initial_state).
Proof.
  refine (proj1 (alerts_independent_of_volume "FFIE"
            (Demo.world Demo.spike_then_red (PostResponse 204))
            (Demo.world Demo.spike_then_red_thin (PostRaises "timeout"))
            initial_state initial_state
            Demo.spike_then_red Demo.spike_then_red_thin _ _ _ _ _)).
  - reflexivity.
  - reflexivity.
  - repeat constructor.
  - reflexivity.
  - reflexivity.
Defined.

(** * Further properties of the code *)

(** ** Facts on binary64 comparisons and NaN *)

Section FloatFacts.

Local Open Scope float_scope.

Lemma SFltb_irrefl (x : spec_float) : SFltb x x = false.
Proof.
  unfold SFltb.
  destruct x as [s | s | | s m e]; try (destruct s; reflexivity); try reflexivity.
  cbn. rewrite Z.compare_refl, Pos.compare_refl. destruct s; reflexivity.
Qed.

Lemma float_ltb_irrefl (x : float) : (x <? x) = false.
Proof. rewrite FloatAxioms.ltb_spec. apply SFltb_irrefl. Qed.

Lemma SFeqb_self_false (x : spec_float) : SFeqb x x = false → x = S754_nan.
Proof.
  unfold SFeqb.
  destruct x as [s | s | | s m e]; try (destruct s; discriminate); try reflexivity.
  cbn. rewrite Z.compare_refl, Pos.compare_refl. destruct s; discriminate.
Qed.

Lemma is_nan_Prim2SF (x : float) : PrimFloat.is_nan x = true ↔ Prim2SF x = S754_nan.
Proof.
  unfold PrimFloat.is_nan. rewrite FloatAxioms.eqb_spec. split.
  - intros Hself. apply SFeqb_self_false.
    destruct (SFeqb _ _); [discriminate Hself | reflexivity].
  - intros ->. reflexivity.
Qed.

Lemma leb_nan_r (y x : float) : PrimFloat.is_nan x = true → (y <=? x) = false.
Proof.
  intros Hnan%is_nan_Prim2SF. rewrite FloatAxioms.leb_spec, Hnan. unfold SFleb.
  destruct (Prim2SF y) as [[] | [] | | [] ? ?]; reflexivity.
Qed.

Lemma ltb_nan_l (x y : float) : PrimFloat.is_nan x = true → (x <? y) = false.
Proof.
  intros Hnan%is_nan_Prim2SF. rewrite FloatAxioms.ltb_spec, Hnan. reflexivity.
Qed.

Lemma ltb_nan_r (x y : float) : PrimFloat.is_nan y = true → (x <? y) = false.
Proof.
  intros Hnan%is_nan_Prim2SF. rewrite FloatAxioms.ltb_spec, Hnan. unfold SFltb.
  destruct (Prim2SF x) as [[] | [] | | [] ? ?]; reflexivity.
Qed.

Lemma sub_nan (x y : float) :
  PrimFloat.is_nan x = true ∨ PrimFloat.is_nan y = true →
  PrimFloat.is_nan (x - y) = true.
Proof.
  rewrite !is_nan_Prim2SF, FloatAxioms.sub_spec. intros [-> | ->].
  - destruct (Prim2SF y); reflexivity.
  - destruct (Prim2SF x); reflexivity.
Qed.

Lemma div_nan (x y : float) :
  PrimFloat.is_nan x = true ∨ PrimFloat.is_nan y = true →
  PrimFloat.is_nan (x / y) = true.
Proof.
  rewrite !is_nan_Prim2SF, FloatAxioms.div_spec. intros [-> | ->].
  - destruct (Prim2SF y); reflexivity.
  - destruct (Prim2SF x); reflexivity.
Qed.

Lemma mul_nan_l (x y : float) :
  PrimFloat.is_nan x = true → PrimFloat.is_nan (x * y) = true.
Proof.
  rewrite !is_nan_Prim2SF, FloatAxioms.mul_spec. intros ->.
  destruct (Prim2SF y); reflexivity.
Qed.

(** The move of a bar, as [get_5min_candles] computes it. *)
Definition move_of (b : Bar) : float := ((Close b - Open b) / Open b) * 100.

Lemma move_of_nan (b : Bar) :
  PrimFloat.is_nan (Open b) = true ∨ PrimFloat.is_nan (Close b) = true →
  PrimFloat.is_nan (move_of b) = true.
Proof.
  intros Hnan. unfold move_of. apply mul_nan_l, div_nan.
  destruct Hnan as [Hopen | Hclose].
  - right. exact Hopen.
  - left. apply sub_nan. left. exact Hclose.
Qed.

End FloatFacts.

(** ** From the downloaded bars to the decision *)

Lemma tail_keeps_last_two {A} (limit : nat) (pre : list A) (a b : A) :
  (2 <= limit)%nat →
  ∃ pre', Pandas.tail limit (pre ++ [a; b]) = pre' ++ [a; b].
Proof.
  intros Hlimit. unfold Pandas.tail. rewrite length_app. cbn [length].
  exists (drop (length pre + 2 - limit) pre).
  rewrite drop_app_le by lia. reflexivity.
Qed.

Lemma with_indicators_last_two (pre : RawFrame) (prev_time current_time : datetime)
    (prev_bar current_bar : Bar) :
  let df := pre ++ [(prev_time, prev_bar); (current_time, current_bar)] in
  ∃ rows,
    with_indicators df =
    rows ++ [(prev_time, candle_at df (length pre) prev_bar);
             (current_time, candle_at df (S (length pre)) current_bar)].
Proof.
  intros df.
  assert (Hlen : length (with_indicators df) = (length pre + 2)%nat).
  { rewrite with_indicators_length. unfold df. rewrite length_app. reflexivity. }
  destruct (last_two_split (with_indicators df)) as (rows & x & y & Hrows); [lia |].
  assert (Hrows_len : length rows = length pre).
  { rewrite Hrows, length_app in Hlen. cbn in Hlen. lia. }
  exists rows. rewrite Hrows. f_equal.
  pose proof (with_indicators_lookup df (length pre)) as Hx.
  pose proof (with_indicators_lookup df (S (length pre))) as Hy.
  rewrite Hrows in Hx, Hy.
  rewrite <- Hrows_len in Hx at 1. rewrite <- Hrows_len in Hy at 1.
  replace (length rows) with (length rows + 0)%nat in Hx at 1 by lia.
  replace (S (length rows)) with (length rows + 1)%nat in Hy by lia.
  rewrite lookup_first_of_two in Hx. rewrite lookup_last_of_two in Hy.
  unfold df in Hx at 2. unfold df in Hy at 2.
  replace (length pre) with (length pre + 0)%nat in Hx at 1 by lia.
  rewrite lookup_first_of_two in Hx.
  replace (S (length pre)) with (length pre + 1)%nat in Hy at 1 by lia.
  rewrite lookup_last_of_two in Hy.
  cbn in Hx, Hy. injection Hx as ->. injection Hy as ->.
  replace (length pre + 1)%nat with (S (length pre)) by lia.
  reflexivity.
Qed.

(** The window of an evaluation whose download ends with two given bars. *)
Lemma window_of_download (pre : RawFrame) (prev_time current_time : datetime)
    (prev_bar current_bar : Bar) :
  let df := pre ++ [(prev_time, prev_bar); (current_time, current_bar)] in
  ∃ rows,
    window_of (DownloadFrame df) 100 =
    Some (rows ++ [(prev_time, candle_at df (length pre) prev_bar);
                   (current_time, candle_at df (S (length pre)) current_bar)]).
Proof.
  intros df. unfold window_of.
  rewrite bool_decide_eq_false_2
    by (unfold df; intros Hnil; apply (f_equal length) in Hnil;
        rewrite length_app in Hnil; cbn in Hnil; lia).
  destruct (with_indicators_last_two pre prev_time current_time prev_bar current_bar)
    as (rows & Hrows).
  fold df in Hrows. rewrite Hrows.
  destruct (tail_keeps_last_two 100 rows
              (prev_time, candle_at df (length pre) prev_bar)
              (current_time, candle_at df (S (length pre)) current_bar))
    as (rows' & ->); [lia |].
  exists rows'. reflexivity.
Qed.

Section RawDecision.

Variables (ticker : string) (w : World) (s : State).
Variables (pre : RawFrame) (prev_time current_time : datetime).
Variables (prev_bar current_bar : Bar).

Hypothesis Hdownload :
  yf_download w (downloads s) ticker =
  DownloadFrame (pre ++ [(prev_time, prev_bar); (current_time, current_bar)]).

Lemma check_download_posted :
  posted (emitted (check_spike_and_death_candle ticker) w s) =
  (if (10 <=? move_of prev_bar)%float
      && bool_decide (spike_key ticker prev_time ∉ dom (alerted_spikes s))
   then [spike_origin ticker prev_time] else [])
  ++ (if (10 <=? move_of prev_bar)%float
         && (Close current_bar <? Open current_bar)%float
         && bool_decide (death_key ticker current_time ∉ dom (alerted_deaths s))
      then [entry_origin ticker current_time] else []).
Proof.
  destruct (window_of_download pre prev_time current_time prev_bar current_bar)
    as (rows & Hwindow).
  rewrite <- Hdownload in Hwindow at 1.
  rewrite (check_window_posted _ _ _ _ _ _ _ _ Hwindow). reflexivity.
Qed.

Lemma check_download_alerted :
  alerted_spikes (check_spike_and_death_candle ticker w s).1 =
  (if (10 <=? move_of prev_bar)%float
      && bool_decide (spike_key ticker prev_time ∉ dom (alerted_spikes s))
   then <[spike_key ticker prev_time := current_time]> (alerted_spikes s)
   else alerted_spikes s)
  ∧ alerted_deaths (check_spike_and_death_candle ticker w s).1 =
    (if (10 <=? move_of prev_bar)%float
        && (Close current_bar <? Open current_bar)%float
        && bool_decide (death_key ticker current_time ∉ dom (alerted_deaths s))
     then <[death_key ticker current_time := current_time]> (alerted_deaths s)
     else alerted_deaths s).
Proof.
  destruct (window_of_download pre prev_time current_time prev_bar current_bar)
    as (rows & Hwindow).
  rewrite <- Hdownload in Hwindow at 1.
  rewrite (check_window_alerted_spikes _ _ _ _ _ _ _ _ Hwindow).
  rewrite (check_window_alerted_deaths _ _ _ _ _ _ _ _ Hwindow).
  split; reflexivity.
Qed.

End RawDecision.

Module Edge.

(** A 15 % candle followed by a flat one. *)
Definition spike_then_flat : RawFrame :=
  [(Demo.at_time 9 35, mk_Bar 10 12 10 11.5 5000);
   (Demo.at_time 9 40, mk_Bar 11.5 11.5 11.5 11.5 0)]%float.

(** A row without prices, followed by a red candle. *)
Definition gap_then_red : RawFrame :=
  [(Demo.at_time 9 35, mk_Bar nan nan nan nan 0);
   (Demo.at_time 9 40, mk_Bar 10 10 9 9.5 3000)]%float.

End Edge.

(** X1. An evaluation decides on the last two bars of the download alone,
    however many bars came before them: the SPIKE alert is about the bar
    before the last and fires when its own move
    [(Close - Open) / Open * 100] is at least 10.0 and its key is new; the
    ENTRY alert is about the last bar and fires when, besides, the last bar
    closes below its open and its key is new.  The keys recorded are exactly
    those of the alerts posted, each with the last bar's timestamp. *)
Theorem evaluation_reads_last_two_bars (ticker : string) (w : World) (s : State)
    (pre : RawFrame) (prev_time current_time : datetime) (prev_bar current_bar : Bar) :
  yf_download w (downloads s) ticker =
    DownloadFrame (pre ++ [(prev_time, prev_bar); (current_time, current_bar)]) →
  let threshold :=
    (10 <=? ((Close prev_bar - Open prev_bar) / Open prev_bar) * 100)%float in
  let red := (Close current_bar <? Open current_bar)%float in
  let spike := threshold
               && bool_decide (spike_key ticker prev_time ∉ dom (alerted_spikes s)) in
  let entry := threshold && red
               && bool_decide (death_key ticker current_time ∉ dom (alerted_deaths s)) in
  let s' := (check_spike_and_death_candle ticker w s).1 in
  posted (emitted (check_spike_and_death_candle ticker) w s) =
    (if spike then [spike_origin ticker prev_time] else [])
    ++ (if entry then [entry_origin ticker current_time] else [])
  ∧ alerted_spikes s' =
    (if spike then <[spike_key ticker prev_time := current_time]> (alerted_spikes s)
     else alerted_spikes s)
  ∧ alerted_deaths s' =
    (if entry then <[death_key ticker current_time := current_time]> (alerted_deaths s)
     else alerted_deaths s).
Proof.
  intros Hdownload threshold red spike entry s'.
  subst threshold red spike entry s'.
  split.
  - apply (check_download_posted _ _ _ _ _ _ _ _ Hdownload).
  - apply (check_download_alerted _ _ _ _ _ _ _ _ Hdownload).
Qed.

Lemma evaluation_reads_last_two_bars_witness :
  posted (emitted (check_spike_and_death_candle "FFIE")
            (Demo.world (FlatDay.frame ++ Demo.spike_then_red) (PostResponse 204))
            initial_state)
  = [spike_origin "FFIE" (Demo.at_time 9 35); entry_origin "FFIE" (Demo.at_time 9 40)].
Proof.
  refine (proj1 (evaluation_reads_last_two_bars "FFIE"
            (Demo.world (FlatDay.frame ++ Demo.spike_then_red) (PostResponse 204))
            initial_state FlatDay.frame (Demo.at_time 9 35) (Demo.at_time 9 40)
            (mk_Bar 10 12 10 11.5 5000) (mk_Bar 10 10 9 9.5 3000) _)).
  reflexivity.
Defined.

(** X2. Bars without prices raise no alert.  When the open or the close of
    the bar before the last is NaN, the evaluation posts nothing and records
    nothing; when the open or the close of the last bar is NaN, no ENTRY
    alert is posted. *)
Theorem nan_prices_raise_no_alert (ticker : string) (w : World) (s : State)
    (pre : RawFrame) (prev_time current_time : datetime) (prev_bar current_bar : Bar) :
  yf_download w (downloads s) ticker =
    DownloadFrame (pre ++ [(prev_time, prev_bar); (current_time, current_bar)]) →
  let s' := (check_spike_and_death_candle ticker w s).1 in
  (PrimFloat.is_nan (Open prev_bar) = true ∨ PrimFloat.is_nan (Close prev_bar) = true →
   posted (emitted (check_spike_and_death_candle ticker) w s) = []
   ∧ alerted_spikes s' = alerted_spikes s
   ∧ alerted_deaths s' = alerted_deaths s)
  ∧ (PrimFloat.is_nan (Open current_bar) = true
     ∨ PrimFloat.is_nan (Close current_bar) = true →
     (entry_origin ticker current_time
        ∉ posted (emitted (check_spike_and_death_candle ticker) w s))
     ∧ alerted_deaths s' = alerted_deaths s).
Proof.
  intros Hdownload s'. subst s'.
  rewrite (check_download_posted _ _ _ _ _ _ _ _ Hdownload).
  destruct (check_download_alerted _ _ _ _ _ _ _ _ Hdownload) as [-> ->].
  split.
  - intros Hnan. apply move_of_nan in Hnan.
    rewrite (leb_nan_r 10 _ Hnan). cbn [andb app]. auto.
  - intros Hnan.
    assert (Hred : (Close current_bar <? Open current_bar)%float = false).
    { destruct Hnan as [Hopen | Hclose];
        [apply ltb_nan_r | apply ltb_nan_l]; assumption. }
    rewrite Hred, andb_false_r. cbn [andb app]. rewrite app_nil_r.
    split; [| reflexivity].
    destruct (_ && _); [| apply not_elem_of_nil].
    rewrite list_elem_of_singleton. discriminate.
Qed.

Lemma nan_prices_raise_no_alert_witness :
  posted (emitted (check_spike_and_death_candle "FFIE")
            (Demo.world Edge.gap_then_red (PostResponse 204)) initial_state) = [].
Proof.
  refine (proj1 (proj1 (nan_prices_raise_no_alert "FFIE"
            (Demo.world Edge.gap_then_red (PostResponse 204)) initial_state
            [] (Demo.at_time 9 35) (Demo.at_time 9 40)
            (mk_Bar nan nan nan nan 0) (mk_Bar 10 10 9 9.5 3000) _) _)).
  - reflexivity.
  - left. reflexivity.
Defined.

(** X3. The death candle test is strict: a last bar that closes exactly at
    its open raises no ENTRY alert and records no death key, whatever the bar
    before it did. *)
Theorem flat_candle_is_no_death_candle (ticker : string) (w : World) (s : State)
    (pre : RawFrame) (prev_time current_time : datetime) (prev_bar current_bar : Bar) :
  yf_download w (downloads s) ticker =
    DownloadFrame (pre ++ [(prev_time, prev_bar); (current_time, current_bar)]) →
  Close current_bar = Open current_bar →
  (entry_origin ticker current_time
     ∉ posted (emitted (check_spike_and_death_candle ticker) w s))
  ∧ alerted_deaths (check_spike_and_death_candle ticker w s).1 = alerted_deaths s.
Proof.
  intros Hdownload Hflat.
  rewrite (check_download_posted _ _ _ _ _ _ _ _ Hdownload).
  destruct (check_download_alerted _ _ _ _ _ _ _ _ Hdownload) as [_ ->].
  rewrite Hflat, float_ltb_irrefl, andb_false_r. cbn [andb app].
  rewrite app_nil_r. split; [| reflexivity].
  destruct (_ && _); [| apply not_elem_of_nil].
  rewrite list_elem_of_singleton. discriminate.
Qed.

Lemma flat_candle_is_no_death_candle_witness :
  entry_origin "FFIE" (Demo.at_time 9 40)
    ∉ posted (emitted (check_spike_and_death_candle "FFIE")
                (Demo.world Edge.spike_then_flat (PostResponse 204)) initial_state).
Proof.
  refine (proj1 (flat_candle_is_no_death_candle "FFIE"
            (Demo.world Edge.spike_then_flat (PostResponse 204)) initial_state
            [] (Demo.at_time 9 35) (Demo.at_time 9 40)
            (mk_Bar 10 12 10 11.5 5000) (mk_Bar 11.5 11.5 11.5 11.5 0) _ _)).
  - reflexivity.
  - reflexivity.
Defined.

(** ** AlertSink and CandleSource on their own *)

(** Did the webhook take the alert: it answered, and not with a client or
    server error. *)
Definition delivered (r : post_result) : bool :=
  match r with
  | PostRaises _ => false
  | PostResponse code => negb ((400 <=? code) && (code <? 600))
  end.

(** X4. One call of [send_discord_alert] makes exactly one request, whose
    payload carries the title, the message and the color it was given.  It
    logs "Alert sent" when the webhook answered with a status outside 400 to
    599 (a 1xx or 3xx answer included) and an error line when the request
    raised or the status is a 4xx or 5xx.  Either way it leaves both
    dictionaries alone. *)
Theorem send_discord_alert_outcome (o : origin) (title message : string) (color : Z)
    (w : World) (s : State) :
  let payload :=
    mk_embed title message color (Calendar.isoformat "T" (utcnow w (posts s))) in
  let answer := requests_post w (posts s) payload in
  let s' := (send_discord_alert o title message color w s).1 in
  ∃ msg,
    emitted (send_discord_alert o title message color) w s =
      [EvPost o payload answer;
       EvLog (if delivered answer then INFO else ERROR) msg]
    ∧ (delivered answer = true → msg = ("Alert sent: " ++ title)%string)
    ∧ posts s' = S (posts s)
    ∧ downloads s' = downloads s
    ∧ alerted_spikes s' = alerted_spikes s
    ∧ alerted_deaths s' = alerted_deaths s.
Proof.
  intros payload answer s'. subst s'.
  rewrite send_discord_alert_run. cbn [fst posts downloads alerted_spikes alerted_deaths].
  assert (Hemitted : emitted (send_discord_alert o title message color) w s
                     = send_events o title message color w s).
  { apply emitted_of_trace. rewrite send_discord_alert_run. reflexivity. }
  rewrite Hemitted. unfold send_events, answer_of, payload_of.
  fold payload. fold answer.
  destruct answer as [err | code]; cbn [send_log delivered].
  - eexists. repeat split. discriminate.
  - destruct ((400 <=? code) && (code <? 600)); cbn [negb].
    + eexists. repeat split. discriminate.
    + eexists. repeat split.
Qed.

Lemma fst_with_indicators (df : RawFrame) : (with_indicators df).*1 = df.*1.
Proof.
  apply list_eq. intros i.
  rewrite !list_lookup_fmap, with_indicators_lookup.
  destruct (df !! i) as [[t b] |]; reflexivity.
Qed.

Lemma bars_with_indicators (df : RawFrame) :
  (λ r, bar r.2) <$> with_indicators df = df.*2.
Proof.
  apply list_eq. intros i.
  rewrite !list_lookup_fmap, with_indicators_lookup.
  destruct (df !! i) as [[t b] |]; reflexivity.
Qed.

Lemma moves_with_indicators (df : RawFrame) :
  Forall (λ r, candle_move_pct r.2 = move_of (bar r.2)) (with_indicators df).
Proof.
  apply Forall_lookup. intros i [t c]. rewrite with_indicators_lookup.
  destruct (df !! i) as [[t' b] |]; [| discriminate].
  cbn. intros [= <- <-]. reflexivity.
Qed.

Lemma tail_fmap {A B} (f : A → B) (limit : nat) (l : list A) :
  f <$> Pandas.tail limit l = Pandas.tail limit (f <$> l).
Proof. unfold Pandas.tail. rewrite fmap_drop, length_fmap. reflexivity. Qed.

Lemma tail_length {A} (limit : nat) (l : list A) :
  length (Pandas.tail limit l) = (limit `min` length l)%nat.
Proof. unfold Pandas.tail. rewrite length_drop. lia. Qed.

Lemma tail_Forall {A} (P : A → Prop) (limit : nat) (l : list A) :
  Forall P l → Forall P (Pandas.tail limit l).
Proof. unfold Pandas.tail. apply Forall_drop. Qed.

(** X5. [get_5min_candles] never raises and never touches the dictionaries
    or the webhook; it downloads once.  It answers [None] exactly when the
    download raised or came back empty.  Otherwise it answers the last
    [limit] rows of the download (all of them when there are fewer), in the
    order of the download, with timestamps and prices as downloaded and with
    each row's move computed from that row's own open and close. *)
Theorem get_5min_candles_outcome (ticker : string) (limit : nat) (w : World) (s : State) :
  let answer := yf_download w (downloads s) ticker in
  let s' := (get_5min_candles ticker limit w s).1 in
  ∃ window,
    (get_5min_candles ticker limit w s).2 = Returns window
    ∧ (window = None ↔ (∃ msg, answer = DownloadRaises msg) ∨ answer = DownloadFrame [])
    ∧ (∀ df rows, answer = DownloadFrame df → window = Some rows →
         length rows = (limit `min` length df)%nat
         ∧ rows.*1 = Pandas.tail limit (df.*1)
         ∧ (λ r, bar r.2) <$> rows = Pandas.tail limit (df.*2)
         ∧ Forall (λ r, candle_move_pct r.2 =
                        (((Close (bar r.2) - Open (bar r.2)) / Open (bar r.2)) * 100)%float)
                  rows)
    ∧ downloaded (emitted (get_5min_candles ticker limit) w s) = [ticker]
    ∧ posted (emitted (get_5min_candles ticker limit) w s) = []
    ∧ alerted_spikes s' = alerted_spikes s
    ∧ alerted_deaths s' = alerted_deaths s
    ∧ posts s' = posts s.
Proof.
  intros answer s'. subst s'.
  assert (Hemitted : emitted (get_5min_candles ticker limit) w s
                     = fetch_events ticker answer).
  { apply emitted_of_trace. rewrite get_5min_candles_run. reflexivity. }
  rewrite Hemitted, get_5min_candles_run.
  cbn [fst snd alerted_spikes alerted_deaths posts]. fold answer.
  exists (window_of answer limit).
  split; [reflexivity |]. split; [| split; [| split; [| split; [| auto]]]].
  - unfold window_of. destruct answer as [msg | df].
    + split; [intros _; left; exists msg; reflexivity | reflexivity].
    + case_bool_decide as Hempty.
      * subst df. split; [intros _; right; reflexivity | reflexivity].
      * split; [discriminate |]. intros [(msg & Hmsg) | Hnil]; [discriminate Hmsg |].
        injection Hnil as ->. contradiction.
  - intros df rows Hanswer. rewrite Hanswer. unfold window_of.
    case_bool_decide as Hempty; [discriminate |]. intros [= <-].
    split; [| split; [| split]].
    + rewrite tail_length, with_indicators_length. reflexivity.
    + rewrite tail_fmap, fst_with_indicators. reflexivity.
    + rewrite tail_fmap, bars_with_indicators. reflexivity.
    + apply tail_Forall, moves_with_indicators.
  - apply downloaded_fetch_events.
  - apply posted_fetch_events.
Qed.

(** ** The schedule of the main loop *)

(** The downloads and the sleeps of a trace, in order. *)
Definition pacing (evs : list event) : list (string + float) :=
  omap (λ e, match e with
             | EvDownload t => Some (inl t)
             | EvSleep x => Some (inr x)
             | _ => None
             end) evs.

Lemma pacing_app (a b : list event) : pacing (a ++ b) = pacing a ++ pacing b.
Proof. apply omap_app. Qed.

Lemma trace_emitted {A} (m : M A) (w : World) (s : State) (evs : list event) :
  trace (m w s).1 = trace s ++ evs → trace (m w s).1 = trace s ++ emitted m w s.
Proof. intros Htrace. rewrite (emitted_of_trace m w s evs Htrace). exact Htrace. Qed.

Lemma pacing_send_events o title message color w s :
  pacing (send_events o title message color w s) = [].
Proof.
  unfold send_events.
  destruct (send_log_is_log title (answer_of title message color w s))
    as (lvl & msg & ->).
  reflexivity.
Qed.

Lemma pacing_fetch_events (ticker : string) (r : download_result) :
  pacing (fetch_events ticker r) = [inl ticker].
Proof. destruct r; reflexivity. Qed.

Lemma pacing_check (ticker : string) (w : World) (s : State) :
  pacing (emitted (check_spike_and_death_candle ticker) w s) = [inl ticker].
Proof.
  destruct (window_cases (window_of (yf_download w (downloads s) ticker) 100))
    as [Hshort | (pre & pt & p & ct & c & Hwindow)].
  - rewrite (check_short_emitted _ _ _ Hshort). apply pacing_fetch_events.
  - rewrite (check_window_emitted _ _ _ _ _ _ _ _ Hwindow).
    change (pacing (EvDownload ticker :: ?l)) with (inl ticker :: pacing l : list (string + float)).
    f_equal.
    destruct (10 <=? candle_move_pct p)%float; [| reflexivity].
    rewrite pacing_app. unfold spike_events, death_events.
    destruct (bool_decide _); destruct (_ && _);
      rewrite ?pacing_send_events; reflexivity.
Qed.

(** The events of the loop over the tickers, ticker by ticker. *)
Lemma ticker_loop_emitted_cons (stock : string) (stocks : list string)
    (w : World) (s : State) :
  emitted (ticker_loop (stock :: stocks)) w s =
  emitted (check_spike_and_death_candle stock) w s ++ [EvSleep 0.5]
  ++ emitted (ticker_loop stocks) w (after_ticker stock w s).
Proof.
  apply emitted_of_trace. rewrite ticker_loop_cons.
  destruct (ticker_loop_run stocks w (after_ticker stock w s)) as (_ & evs & Htrace & _).
  rewrite (trace_emitted _ _ _ _ Htrace), after_ticker_trace, <- !app_assoc.
  reflexivity.
Qed.

Lemma ticker_loop_emitted_nil (w : World) (s : State) :
  emitted (ticker_loop []) w s = [].
Proof. apply emitted_of_trace. cbn. symmetry. apply app_nil_r. Qed.

Lemma ticker_loop_pacing (stocks : list string) (w : World) (s : State) :
  pacing (emitted (ticker_loop stocks) w s) =
  stocks ≫= (λ stock, [inl stock; inr 0.5%float]).
Proof.
  revert s. induction stocks as [| stock stocks IH]; intros s.
  - rewrite ticker_loop_emitted_nil. reflexivity.
  - rewrite ticker_loop_emitted_cons, !pacing_app, pacing_check, IH. reflexivity.
Qed.

(** A pass of the loop on a closed market. *)
Lemma main_pass_closed (n : nat) (w : World) (s : State) :
  get_market_status (now_et w n) = false →
  main_pass n w s =
  time_sleep 300 w (emit (EvLog INFO "Market closed") w s).1.
Proof.
  intros Hclosed. unfold main_pass, try_except.
  rewrite (run_bind_returns get_world _ w s s w eq_refl). rewrite Hclosed.
  reflexivity.
Qed.

(** What one pass of the loop does, by the state of the market. *)
Definition pass_pacing (w : World) (n : nat) : list (string + float) :=
  (if get_market_status (now_et w n)
   then STOCKS w ≫= (λ stock, [inl stock; inr 0.5%float])
   else [])
  ++ [inr 300%float].

Lemma main_pass_run (n : nat) (w : World) (s : State) :
  (main_pass n w s).2 = Returns tt
  ∧ ∃ evs, trace (main_pass n w s).1 = trace s ++ evs
           ∧ pacing evs = pass_pacing w n.
Proof.
  unfold pass_pacing.
  destruct (get_market_status (now_et w n)) eqn:Hstatus.
  - rewrite main_pass_open by assumption.
    split; [reflexivity |].
    destruct (ticker_loop_run (STOCKS w) w (emit (cycle_banner w n) w s).1)
      as (_ & evs & Htrace & _).
    exists (cycle_banner w n :: emitted (ticker_loop (STOCKS w)) w
                                  (emit (cycle_banner w n) w s).1 ++ [EvSleep 300]).
    split.
    + cbv [time_sleep]. unfold emit at 1. cbn [fst trace].
      rewrite (trace_emitted _ _ _ _ Htrace). cbv [emit]. cbn [fst trace].
      rewrite <- !app_assoc. reflexivity.
    + change (pacing (cycle_banner w n :: ?t)) with (pacing t).
      rewrite pacing_app, ticker_loop_pacing. reflexivity.
  - rewrite main_pass_closed by assumption.
    split; [reflexivity |].
    exists [EvLog INFO "Market closed"; EvSleep 300].
    split; [| reflexivity].
    cbv [time_sleep emit]. cbn [fst trace]. rewrite <- app_assoc. reflexivity.
Qed.

Lemma while_true_run (passes n : nat) (w : World) (s : State) :
  (while_true passes n w s).2 = Returns tt
  ∧ ∃ evs, trace (while_true passes n w s).1 = trace s ++ evs
           ∧ pacing evs = seq n passes ≫= pass_pacing w.
Proof.
  revert n s. induction passes as [| k IH]; intros n s.
  - split; [reflexivity |]. exists []. rewrite app_nil_r. split; reflexivity.
  - cbn [while_true seq].
    destruct (main_pass_run n w s) as (Hret & evs1 & Htrace1 & Hpace1).
    destruct (main_pass n w s) as [s1 r] eqn:Hpass. cbn in Hret, Htrace1. subst r.
    rewrite (run_bind_returns _ _ w s s1 tt Hpass).
    destruct (IH (S n) s1) as (Hret2 & evs2 & Htrace2 & Hpace2).
    split; [exact Hret2 |].
    exists (evs1 ++ evs2). split.
    + rewrite Htrace2, Htrace1, app_assoc. reflexivity.
    + rewrite pacing_app, Hpace1, Hpace2. reflexivity.
Qed.

(** X6. Without a webhook address (the variable unset, or set to the empty
    string) [main_loop] logs its start line and the error and returns at
    once: whatever number of passes is allowed, it makes none of them, so it
    downloads nothing, posts nothing and never sleeps. *)
Theorem unset_webhook_stops_at_once (passes : nat) (w : World) (s : State) :
  WEBHOOK_URL w = None ∨ WEBHOOK_URL w = Some ""%string →
  main_loop passes w s =
  (mk_State (alerted_spikes s) (alerted_deaths s) (downloads s) (posts s)
            (trace s ++ [EvLog INFO ("Starting monitor for stocks: "
                                      ++ repr_list (STOCKS w))%string;
                         EvLog ERROR "DISCORD_WEBHOOK_URL not set!"]),
   Returns tt)
  ∧ pacing (emitted (main_loop passes) w s) = []
  ∧ posted (emitted (main_loop passes) w s) = [].
Proof.
  intros Hunset.
  assert (Hflag : webhook_unset w = true).
  { unfold webhook_unset. destruct Hunset as [-> | ->]; reflexivity. }
  assert (Hrun : main_loop passes w s =
    (mk_State (alerted_spikes s) (alerted_deaths s) (downloads s) (posts s)
              (trace s ++ [EvLog INFO ("Starting monitor for stocks: "
                                        ++ repr_list (STOCKS w))%string;
                           EvLog ERROR "DISCORD_WEBHOOK_URL not set!"]),
     Returns tt)).
  { unfold main_loop.
    rewrite (run_bind_returns get_world _ w s s w eq_refl).
    erewrite run_bind_returns by reflexivity.
    rewrite Hflag. cbv [logger_error emit]. cbn [trace alerted_spikes alerted_deaths
      downloads posts]. rewrite <- app_assoc. reflexivity. }
  split; [exact Hrun |].
  rewrite (emitted_of_trace (main_loop passes) w s
             [EvLog INFO ("Starting monitor for stocks: " ++ repr_list (STOCKS w))%string;
              EvLog ERROR "DISCORD_WEBHOOK_URL not set!"])
    by (rewrite Hrun; reflexivity).
  split; reflexivity.
Qed.

Lemma unset_webhook_stops_at_once_witness :
  pacing (emitted (main_loop 5)
            (mk_World None ["FFIE"%string] (λ _, Demo.at_time 10 0)
               (λ _, Demo.at_time 10 0) (λ _, Demo.at_time 15 0)
               (λ _ _, DownloadFrame Demo.spike_then_red)
               (λ _ _, PostResponse 204))
            initial_state) = [].
Proof.
  refine (proj1 (proj2 (unset_webhook_stops_at_once 5
            (mk_World None ["FFIE"%string] (λ _, Demo.at_time 10 0)
               (λ _, Demo.at_time 10 0) (λ _, Demo.at_time 15 0)
               (λ _ _, DownloadFrame Demo.spike_then_red)
               (λ _ _, PostResponse 204))
            initial_state _))).
  left. reflexivity.
Defined.

(** X7. While the market is closed a pass of the loop only logs "Market
    closed" and sleeps 300 seconds: no ticker is downloaded, nothing is
    posted and both dictionaries stay as they are. *)
Theorem closed_market_pass_idles (n : nat) (w : World) (s : State) :
  get_market_status (now_et w n) = false →
  emitted (main_pass n) w s = [EvLog INFO "Market closed"; EvSleep 300]
  ∧ (main_pass n w s).2 = Returns tt
  ∧ alerted_spikes (main_pass n w s).1 = alerted_spikes s
  ∧ alerted_deaths (main_pass n w s).1 = alerted_deaths s
  ∧ downloads (main_pass n w s).1 = downloads s
  ∧ posts (main_pass n w s).1 = posts s.
Proof.
  intros Hclosed. split.
  - apply emitted_of_trace. rewrite main_pass_closed by assumption.
    cbv [time_sleep emit]. cbn [fst trace]. rewrite <- app_assoc. reflexivity.
  - rewrite main_pass_closed by assumption. repeat split.
Qed.

Lemma closed_market_pass_idles_witness :
  emitted (main_pass 0)
    (mk_World (Some "https://discord.example/hook"%string) ["FFIE"%string]
       (λ _, mk_datetime 2024 1 6 12 0 0 0 (Some (-300)))
       (λ _, Demo.at_time 10 0) (λ _, Demo.at_time 15 0)
       (λ _ _, DownloadFrame Demo.spike_then_red) (λ _ _, PostResponse 204))
    initial_state
  = [EvLog INFO "Market closed"; EvSleep 300].
Proof.
  refine (proj1 (closed_market_pass_idles 0
            (mk_World (Some "https://discord.example/hook"%string) ["FFIE"%string]
               (λ _, mk_datetime 2024 1 6 12 0 0 0 (Some (-300)))
               (λ _, Demo.at_time 10 0) (λ _, Demo.at_time 15 0)
               (λ _ _, DownloadFrame Demo.spike_then_red) (λ _ _, PostResponse 204))
            initial_state _)).
  vm_compute. reflexivity.
Defined.

(** X8. With a webhook address set, the downloads and sleeps of [main_loop]
    follow a fixed schedule, whatever the downloads and the webhook do: every
    pass on an open market downloads each configured ticker once, in the
    order of [STOCKS], sleeping 0.5 seconds after each one, and then sleeps
    300 seconds; every pass on a closed market only sleeps 300 seconds. *)
Theorem main_loop_schedule (passes : nat) (w : World) (s : State) :
  (∃ url, WEBHOOK_URL w = Some url ∧ url ≠ ""%string) →
  (main_loop passes w s).2 = Returns tt
  ∧ pacing (emitted (main_loop passes) w s) =
    seq 0 passes ≫= (λ n,
      (if get_market_status (now_et w n)
       then STOCKS w ≫= (λ stock, [inl stock; inr 0.5%float])
       else [])
      ++ [inr 300%float]).
Proof.
  intros (url & Hurl & Hnonempty).
  assert (Hflag : webhook_unset w = false).
  { unfold webhook_unset. rewrite Hurl. apply bool_decide_eq_false_2. exact Hnonempty. }
  assert (Hrun : main_loop passes w s =
            while_true passes 0 w
              (emit (EvLog INFO ("Starting monitor for stocks: "
                                  ++ repr_list (STOCKS w))%string) w s).1).
  { unfold main_loop.
    rewrite (run_bind_returns get_world _ w s s w eq_refl).
    erewrite run_bind_returns by reflexivity.
    rewrite Hflag. reflexivity. }
  destruct (while_true_run passes 0 w
              (emit (EvLog INFO ("Starting monitor for stocks: "
                                  ++ repr_list (STOCKS w))%string) w s).1)
    as (Hret & evs & Htrace & Hpace).
  split; [rewrite Hrun; exact Hret |].
  rewrite (emitted_of_trace (main_loop passes) w s
             (EvLog INFO ("Starting monitor for stocks: "
                           ++ repr_list (STOCKS w))%string :: evs)).
  - exact Hpace.
  - rewrite Hrun, Htrace. cbv [emit]. cbn [fst trace].
    rewrite <- app_assoc. reflexivity.
Qed.

Lemma main_loop_schedule_witness :
  pacing (emitted (main_loop 2) Flaky.world initial_state)
  = [inl "BAD"%string; inr 0.5%float; inl "FFIE"%string; inr 0.5%float; inr 300%float;
     inl "BAD"%string; inr 0.5%float; inl "FFIE"%string; inr 0.5%float; inr 300%float].
Proof.
  refine (proj2 (main_loop_schedule 2 Flaky.world initial_state _)).
  exists "https://discord.example/hook"%string. split; [reflexivity | discriminate].
Defined.

(** ** Lifting a property of one evaluation to the whole loop *)

Section Lifting.

(** A relation between an earlier and a later state that holds across
    nothing, composes, holds across a log line or a sleep, and holds across
    one evaluation. *)
Variable R : State → State → Prop.
Hypothesis R_refl : ∀ s, R s s.
Hypothesis R_trans : ∀ s1 s2 s3, R s1 s2 → R s2 s3 → R s1 s3.
Hypothesis R_log : ∀ lvl msg w s, R s (emit (EvLog lvl msg) w s).1.
Hypothesis R_sleep : ∀ seconds w s, R s (emit (EvSleep seconds) w s).1.
Hypothesis R_check : ∀ ticker w s, R s (check_spike_and_death_candle ticker w s).1.

Definition respects {A} (m : M A) : Prop := ∀ w s, R s (m w s).1.

Lemma respects_ret {A} (a : A) : respects (mret a : M A).
Proof. intros w s. apply R_refl. Qed.

Lemma respects_get_world : respects get_world.
Proof. intros w s. apply R_refl. Qed.

Lemma respects_bind {A B} (m : M A) (f : A → M B) :
  respects m → (∀ a, respects (f a)) → respects (m ≫= f).
Proof.
  intros Hm Hf w s. unfold mbind, M_bind.
  specialize (Hm w s). destruct (m w s) as [s' [a | e]]; cbn in *.
  - eapply R_trans; [exact Hm | apply Hf].
  - exact Hm.
Qed.

Lemma respects_try_except {A} (body : M A) (handler : exn → M A) :
  respects body → (∀ e, respects (handler e)) → respects (try_except body handler).
Proof.
  intros Hbody Hhandler w s. unfold try_except.
  specialize (Hbody w s). destruct (body w s) as [s' [a | e]]; cbn in *.
  - exact Hbody.
  - eapply R_trans; [exact Hbody | apply Hhandler].
Qed.

Lemma respects_for_each {A} (xs : list A) (body : A → M unit) :
  (∀ x, respects (body x)) → respects (for_each xs body).
Proof.
  intros Hbody. induction xs as [| x xs IH]; cbn [for_each].
  - apply respects_ret.
  - apply respects_bind; [apply Hbody | intros _; exact IH].
Qed.

Lemma respects_evaluations (tickers : list string) : respects (evaluations tickers).
Proof. apply respects_for_each. intros ticker w s. apply R_check. Qed.

Lemma respects_main_pass (n : nat) : respects (main_pass n).
Proof.
  unfold main_pass. apply respects_try_except.
  - apply respects_bind; [apply respects_get_world |]. intros w.
    apply respects_bind; [| intros _ w' s; apply R_sleep].
    destruct (get_market_status (now_et w n)).
    + apply respects_bind; [intros w' s; apply R_log |]. intros _.
      apply respects_for_each. intros stock.
      apply respects_bind; [intros w' s; apply R_check |]. intros _ w' s.
      apply R_sleep.
    + intros w' s. apply R_log.
  - intros e.
    apply respects_bind; [intros w' s; apply R_log | intros _ w' s; apply R_sleep].
Qed.

Lemma respects_while_true (passes n : nat) : respects (while_true passes n).
Proof.
  revert n. induction passes as [| k IH]; intros n; cbn [while_true].
  - apply respects_ret.
  - apply respects_bind; [apply respects_main_pass | intros _; apply IH].
Qed.

Lemma respects_main_loop (passes : nat) : respects (main_loop passes).
Proof.
  unfold main_loop.
  apply respects_bind; [apply respects_get_world |]. intros w.
  apply respects_bind; [intros w' s; apply R_log |]. intros _.
  destruct (webhook_unset w); [intros w' s; apply R_log | apply respects_while_true].
Qed.

End Lifting.

(** ** The dictionaries over a lifetime *)

(** Every entry of the earlier state is an entry of the later one. *)
Definition entries_kept (s s' : State) : Prop :=
  ∀ k, alerted k s ⊆ alerted k s'.

Lemma entries_kept_refl (s : State) : entries_kept s s.
Proof. intros k. reflexivity. Qed.

Lemma entries_kept_trans (s1 s2 s3 : State) :
  entries_kept s1 s2 → entries_kept s2 s3 → entries_kept s1 s3.
Proof. intros H12 H23 k. etransitivity; [apply H12 | apply H23]. Qed.

Lemma entries_kept_emit (e : event) (w : World) (s : State) :
  entries_kept s (emit e w s).1.
Proof. intros k. destruct k; reflexivity. Qed.

Lemma entries_kept_check (ticker : string) (w : World) (s : State) :
  entries_kept s (check_spike_and_death_candle ticker w s).1.
Proof.
  intros k.
  destruct (window_cases (window_of (yf_download w (downloads s) ticker) 100))
    as [Hshort | (pre & pt & p & ct & c & Hwindow)].
  - rewrite (check_short_state _ _ _ Hshort).
    destruct k; cbn [alerted];
      rewrite ?fetched_alerted_spikes, ?fetched_alerted_deaths; reflexivity.
  - destruct k; cbn [alerted].
    + rewrite (check_window_alerted_spikes _ _ _ _ _ _ _ _ Hwindow).
      unfold spike_due. destruct (10 <=? candle_move_pct p)%float; cbn [andb];
        [| reflexivity].
      case_bool_decide as Hnew; [| reflexivity].
      apply insert_subseteq, not_elem_of_dom. exact Hnew.
    + rewrite (check_window_alerted_deaths _ _ _ _ _ _ _ _ Hwindow).
      unfold entry_due.
      destruct ((10 <=? candle_move_pct p)%float && (Close (bar c) <? Open (bar c))%float);
        cbn [andb]; [| reflexivity].
      case_bool_decide as Hnew; [| reflexivity].
      apply insert_subseteq, not_elem_of_dom. exact Hnew.
Qed.

(** X9. The dictionaries have no eviction and no overwrite: an entry, once
    written, is found again with the same timestamp after any further
    evaluations and after any number of passes of the main loop. *)
Theorem entries_are_never_overwritten (k : alert_kind) (key : string) (ts : datetime)
    (w : World) (s : State) :
  alerted k s !! key = Some ts →
  (∀ tickers, alerted k (evaluations tickers w s).1 !! key = Some ts)
  ∧ (∀ passes n, alerted k (while_true passes n w s).1 !! key = Some ts)
  ∧ (∀ passes, alerted k (main_loop passes w s).1 !! key = Some ts).
Proof.
  intros Hentry.
  assert (Hlift : ∀ m : M unit, respects entries_kept m →
                                alerted k (m w s).1 !! key = Some ts).
  { intros m Hm. eapply lookup_weaken; [exact Hentry | apply Hm]. }
  split; [| split].
  - intros tickers. apply Hlift, respects_evaluations.
    + exact entries_kept_refl.
    + exact entries_kept_trans.
    + exact entries_kept_check.
  - intros passes n. apply Hlift, respects_while_true.
    + exact entries_kept_refl.
    + exact entries_kept_trans.
    + intros lvl msg. apply entries_kept_emit.
    + intros seconds. apply entries_kept_emit.
    + exact entries_kept_check.
  - intros passes. apply Hlift, respects_main_loop.
    + exact entries_kept_refl.
    + exact entries_kept_trans.
    + intros lvl msg. apply entries_kept_emit.
    + intros seconds. apply entries_kept_emit.
    + exact entries_kept_check.
Qed.

Lemma entries_are_never_overwritten_witness :
  alerted_spikes
    (main_loop 3 Flaky.world
       (check_spike_and_death_candle "FFIE" Flaky.world initial_state).1).1
    !! spike_key "FFIE" (Demo.at_time 9 35)
  = Some (Demo.at_time 9 40).
Proof.
  refine (proj2 (proj2 (entries_are_never_overwritten SPIKE
            (spike_key "FFIE" (Demo.at_time 9 35)) (Demo.at_time 9 40) Flaky.world
            (check_spike_and_death_candle "FFIE" Flaky.world initial_state).1 _)) 3%nat).
  vm_compute. reflexivity.
Defined.

(** Every key of the later state was in the earlier state or is the key of
    an alert posted in between. *)
Definition keys_accounted (s s' : State) : Prop :=
  ∃ evs,
    trace s' = trace s ++ evs
    ∧ ∀ k key, key ∈ dom (alerted k s') →
        key ∈ dom (alerted k s)
        ∨ ∃ o, o ∈ posted evs ∧ kind o = k ∧ key_of o = key.

Lemma keys_accounted_refl (s : State) : keys_accounted s s.
Proof. exists []. rewrite app_nil_r. split; [reflexivity | auto]. Qed.

Lemma keys_accounted_trans (s1 s2 s3 : State) :
  keys_accounted s1 s2 → keys_accounted s2 s3 → keys_accounted s1 s3.
Proof.
  intros (evs1 & Htr1 & Hacc1) (evs2 & Htr2 & Hacc2).
  exists (evs1 ++ evs2). split.
  - rewrite Htr2, Htr1, app_assoc. reflexivity.
  - intros k key Hin. rewrite posted_app.
    destruct (Hacc2 k key Hin) as [Hmid | (o & Ho & Hk & Hkey)].
    + destruct (Hacc1 k key Hmid) as [Hold | (o & Ho & Hk & Hkey)]; [left; exact Hold |].
      right. exists o. rewrite elem_of_app. auto.
    + right. exists o. rewrite elem_of_app. auto.
Qed.

Lemma keys_accounted_emit (e : event) (w : World) (s : State) :
  keys_accounted s (emit e w s).1.
Proof.
  exists [e]. split; [reflexivity |].
  intros k key Hin. left. destruct k; exact Hin.
Qed.

Lemma keys_accounted_check (ticker : string) (w : World) (s : State) :
  keys_accounted s (check_spike_and_death_candle ticker w s).1.
Proof.
  exists (emitted (check_spike_and_death_candle ticker) w s).
  split; [apply check_trace |].
  intros k key.
  destruct (window_cases (window_of (yf_download w (downloads s) ticker) 100))
    as [Hshort | (pre & pt & p & ct & c & Hwindow)].
  - rewrite (check_short_state _ _ _ Hshort).
    destruct k; cbn [alerted];
      rewrite ?fetched_alerted_spikes, ?fetched_alerted_deaths; auto.
  - rewrite (check_window_posted _ _ _ _ _ _ _ _ Hwindow).
    destruct k; cbn [alerted].
    + rewrite (check_window_alerted_spikes _ _ _ _ _ _ _ _ Hwindow).
      destruct (spike_due ticker pt p s); [| auto].
      rewrite dom_insert_L, elem_of_union, elem_of_singleton.
      intros [-> | Hold]; [| auto].
      right. exists (spike_origin ticker pt).
      split; [apply elem_of_app; left; apply list_elem_of_singleton; reflexivity |].
      split; reflexivity.
    + rewrite (check_window_alerted_deaths _ _ _ _ _ _ _ _ Hwindow).
      destruct (entry_due ticker ct p c s); [| auto].
      rewrite dom_insert_L, elem_of_union, elem_of_singleton.
      intros [-> | Hold]; [| auto].
      right. exists (entry_origin ticker ct).
      split; [apply elem_of_app; right; apply list_elem_of_singleton; reflexivity |].
      split; reflexivity.
Qed.

(** X10. Over a lifetime the dictionaries hold exactly the keys of the
    alerts posted: after any number of passes of [main_loop] from the start,
    a key is in [alerted_spikes] (in [alerted_deaths]) if and only if a SPIKE
    (an ENTRY) alert was posted under that key.  No key is ever recorded
    without its alert having been handed to the webhook. *)
Theorem dictionaries_hold_posted_keys (passes : nat) (w : World)
    (k : alert_kind) (key : string) :
  let final := (main_loop passes w initial_state).1 in
  key ∈ dom (alerted k final)
  ↔ ∃ o, o ∈ posted (trace final) ∧ kind o = k ∧ key_of o = key.
Proof.
  intros final. subst final. split.
  - intros Hin.
    destruct (respects_main_loop keys_accounted keys_accounted_refl keys_accounted_trans
                (λ lvl msg, keys_accounted_emit (EvLog lvl msg))
                (λ seconds, keys_accounted_emit (EvSleep seconds))
                keys_accounted_check passes w initial_state)
      as (evs & Htrace & Hacc).
    destruct (Hacc k key Hin) as [Hold | (o & Ho & Hk & Hkey)].
    + destruct k; cbn in Hold; rewrite dom_empty_L in Hold;
        apply not_elem_of_empty in Hold; destruct Hold.
    + exists o. rewrite Htrace. cbn [initial_state trace app]. auto.
  - intros (o & Ho & <- & <-).
    destruct (dedup_sound_main_loop passes w initial_state)
      as (evs & Htrace & _ & _ & Hnew).
    rewrite Htrace in Ho. cbn [initial_state trace app] in Ho.
    apply (Hnew o Ho).
Qed.

(** ** How much one evaluation and one cycle can post *)

Lemma check_posted_shape (ticker : string) (w : World) (s : State) :
  ∃ spikes entries,
    posted (emitted (check_spike_and_death_candle ticker) w s) = spikes ++ entries
    ∧ (length spikes <= 1)%nat ∧ (length entries <= 1)%nat
    ∧ Forall (λ o, kind o = SPIKE ∧ ticker_of o = ticker) spikes
    ∧ Forall (λ o, kind o = ENTRY ∧ ticker_of o = ticker) entries.
Proof.
  destruct (window_cases (window_of (yf_download w (downloads s) ticker) 100))
    as [Hshort | (pre & pt & p & ct & c & Hwindow)].
  - exists [], []. rewrite (check_short_emitted _ _ _ Hshort), posted_fetch_events.
    repeat split; try constructor; cbn; lia.
  - rewrite (check_window_posted _ _ _ _ _ _ _ _ Hwindow).
    eexists _, _. split; [reflexivity |].
    destruct (spike_due ticker pt p s); destruct (entry_due ticker ct p c s);
      repeat split; cbn; try lia; repeat constructor.
Qed.

Lemma filter_none {A} (P : A → Prop) `{∀ x, Decision (P x)} (l : list A) :
  Forall (λ x, ¬ P x) l → filter P l = [].
Proof.
  induction 1 as [| x l Hx _ IH]; [reflexivity |].
  rewrite filter_cons_False by exact Hx. exact IH.
Qed.

(** X11. One evaluation makes one download and at most two webhook
    requests: at most one SPIKE alert and at most one ENTRY alert, in that
    order (the alerts are SPIKE alerts followed by ENTRY alerts), both about
    the ticker evaluated.  So the loop over [n] tickers makes at most [2 * n]
    requests, each about one of those tickers. *)
Theorem requests_per_evaluation_bounded (w : World) (s : State) :
  (∀ ticker,
     let alerts := posted (emitted (check_spike_and_death_candle ticker) w s) in
     pacing (emitted (check_spike_and_death_candle ticker) w s) = [inl ticker]
     ∧ (length alerts <= 2)%nat
     ∧ (length (filter (λ o, kind o = SPIKE) alerts) <= 1)%nat
     ∧ (length (filter (λ o, kind o = ENTRY) alerts) <= 1)%nat
     ∧ (∃ spikes entries,
          alerts = spikes ++ entries
          ∧ Forall (λ o, kind o = SPIKE) spikes
          ∧ Forall (λ o, kind o = ENTRY) entries)
     ∧ ∀ o, o ∈ alerts → ticker_of o = ticker)
  ∧ (∀ stocks,
       let alerts := posted (emitted (ticker_loop stocks) w s) in
       (length alerts <= 2 * length stocks)%nat
       ∧ ∀ o, o ∈ alerts → ticker_of o ∈ stocks).
Proof.
  split.
  - intros ticker alerts. subst alerts.
    destruct (check_posted_shape ticker w s)
      as (spikes & entries & -> & Hs & He & Hspikes & Hentries).
    split; [apply pacing_check |].
    split; [rewrite length_app; lia |].
    assert (Hfs : filter (λ o, kind o = SPIKE) entries = []).
    { apply filter_none. eapply Forall_impl; [exact Hentries |].
      intros o [Hk _]. cbn. rewrite Hk. discriminate. }
    assert (Hfe : filter (λ o, kind o = ENTRY) spikes = []).
    { apply filter_none. eapply Forall_impl; [exact Hspikes |].
      intros o [Hk _]. cbn. rewrite Hk. discriminate. }
    rewrite !filter_app, Hfs, Hfe, app_nil_r, app_nil_l.
    split; [etransitivity; [apply length_filter | exact Hs] |].
    split; [etransitivity; [apply length_filter | exact He] |].
    split.
    { exists spikes, entries. split; [reflexivity |].
      split; (eapply Forall_impl; [eassumption |]); intros o [Hk _]; exact Hk. }
    intros o [Hin | Hin]%elem_of_app.
    + rewrite Forall_forall in Hspikes. apply (Hspikes o Hin).
    + rewrite Forall_forall in Hentries. apply (Hentries o Hin).
  - intros stocks alerts. subst alerts. revert s.
    induction stocks as [| stock stocks IH]; intros s.
    + rewrite ticker_loop_emitted_nil. cbn. split; [lia |].
      intros o Hin. apply elem_of_nil in Hin. destruct Hin.
    + rewrite ticker_loop_emitted_cons, !posted_app.
      change (posted [EvSleep 0.5]) with (@nil origin). rewrite app_nil_l.
      destruct (check_posted_shape stock w s)
        as (spikes & entries & -> & Hs & He & Hspikes & Hentries).
      destruct (IH (after_ticker stock w s)) as (Hlen & Hticker).
      split.
      * rewrite !length_app. cbn [length]. lia.
      * intros o [[Hin | Hin]%elem_of_app | Hin]%elem_of_app.
        -- rewrite Forall_forall in Hspikes. destruct (Hspikes o Hin) as [_ ->].
           apply elem_of_cons. left. reflexivity.
        -- rewrite Forall_forall in Hentries. destruct (Hentries o Hin) as [_ ->].
           apply elem_of_cons. left. reflexivity.
        -- apply elem_of_cons. right. apply Hticker. exact Hin.
Qed.

(** ** Dedup keys of different tickers *)

Section Keys.

Local Open Scope string_scope.

(** Does the character occur in the string. *)
Fixpoint mentions (c : ascii) (s : string) : bool :=
  match s with
  | EmptyString => false
  | String c' s' => Ascii.eqb c' c || mentions c s'
  end.

Lemma append_cons (c : ascii) (a b : string) : String c a ++ b = String c (a ++ b).
Proof. reflexivity. Qed.

Lemma append_empty (b : string) : "" ++ b = b.
Proof. reflexivity. Qed.

Lemma mentions_app (c : ascii) (a b : string) :
  mentions c (a ++ b) = mentions c a || mentions c b.
Proof.
  induction a as [| c' a IH]; [reflexivity |].
  rewrite append_cons. cbn [mentions]. rewrite IH, orb_assoc. reflexivity.
Qed.

Lemma digits_no_underscore (d : Decimal.uint) :
  mentions "_" (NilEmpty.string_of_uint d) = false.
Proof. induction d; cbn; auto. Qed.

Lemma dec_no_underscore (n : Z) : mentions "_" (Render.dec n) = false.
Proof.
  unfold Render.dec, NilZero.string_of_uint.
  destruct (N.to_uint (Z.to_N n)) eqn:Hd; try reflexivity;
    rewrite <- Hd; apply digits_no_underscore.
Qed.

Lemma zeros_no_underscore (k : nat) : mentions "_" (Render.zeros k) = false.
Proof. induction k; cbn; auto. Qed.

Lemma pad_no_underscore (width : nat) (n : Z) :
  mentions "_" (Render.pad width n) = false.
Proof.
  unfold Render.pad. rewrite mentions_app, zeros_no_underscore, dec_no_underscore.
  reflexivity.
Qed.

Lemma str_no_underscore (d : datetime) : mentions "_" (Calendar.str d) = false.
Proof.
  unfold Calendar.str, Calendar.isoformat, Calendar.strftime_HMS, Calendar.offset_str.
  repeat rewrite mentions_app. rewrite !pad_no_underscore.
  destruct (microsecond d =? 0)%Z; destruct (utcoffset d) as [off |];
    repeat rewrite ?mentions_app, ?pad_no_underscore;
    try destruct (off <? 0)%Z; reflexivity.
Qed.

(** A string cut at its last underscore is cut in one way only. *)
Lemma cut_at_last_underscore (a b x y : string) :
  mentions "_" x = false → mentions "_" y = false →
  a ++ "_" ++ x = b ++ "_" ++ y → a = b ∧ x = y.
Proof.
  intros Hx Hy. revert b.
  induction a as [| c a IH]; intros [| c' b] Heq;
    rewrite ?append_cons, ?append_empty in Heq.
  - injection Heq as ->. split; reflexivity.
  - injection Heq as <- ->. rewrite mentions_app in Hx. cbn in Hx.
    rewrite orb_true_r in Hx. discriminate Hx.
  - injection Heq as -> <-. rewrite mentions_app in Hy. cbn in Hy.
    rewrite orb_true_r in Hy. discriminate Hy.
  - injection Heq as -> Heq. destruct (IH b Heq) as [-> ->]. split; reflexivity.
Qed.

End Keys.

Lemma not_in_dom_insert_other (m : gmap string datetime) (k k' : string) (v : datetime) :
  k ≠ k' → bool_decide (k ∉ dom (<[k' := v]> m)) = bool_decide (k ∉ dom m).
Proof.
  intros Hne. apply bool_decide_ext. rewrite dom_insert_L, not_elem_of_union.
  rewrite elem_of_singleton. tauto.
Qed.

(** X12. A dedup key determines its ticker and its printed timestamp, even
    for a ticker that contains underscores: keys of two different tickers
    never collide.  So what is recorded for one ticker never suppresses an
    alert of another: adding entries of another ticker to both dictionaries
    leaves the alerts of an evaluation as they are. *)
Theorem keys_of_tickers_never_collide (ticker other : string) (ts ts' : datetime) :
  (spike_key ticker ts = spike_key other ts' →
   ticker = other ∧ Calendar.str ts = Calendar.str ts')
  ∧ (death_key ticker ts = death_key other ts' →
     ticker = other ∧ Calendar.str ts = Calendar.str ts')
  ∧ (ticker ≠ other →
     ∀ (v : datetime) (w : World) (s : State),
       posted (emitted (check_spike_and_death_candle ticker) w
                 (mk_State (<[spike_key other ts' := v]> (alerted_spikes s))
                           (<[death_key other ts' := v]> (alerted_deaths s))
                           (downloads s) (posts s) (trace s)))
       = posted (emitted (check_spike_and_death_candle ticker) w s)).
Proof.
  assert (Hcut : ∀ t1 t2 d1 d2,
             (t1 ++ "_" ++ Calendar.str d1)%string = (t2 ++ "_" ++ Calendar.str d2)%string →
             t1 = t2 ∧ Calendar.str d1 = Calendar.str d2).
  { intros t1 t2 d1 d2. apply cut_at_last_underscore; apply str_no_underscore. }
  split; [apply Hcut |]. split; [apply Hcut |].
  intros Hne v w s.
  destruct (window_cases (window_of (yf_download w (downloads s) ticker) 100))
    as [Hshort | (pre & pt & p & ct & c & Hwindow)].
  - rewrite !check_short_emitted by exact Hshort.
    rewrite !posted_fetch_events. reflexivity.
  - rewrite (check_window_posted ticker w
               (mk_State (<[spike_key other ts' := v]> (alerted_spikes s))
                         (<[death_key other ts' := v]> (alerted_deaths s))
                         (downloads s) (posts s) (trace s)) _ _ _ _ _ Hwindow).
    rewrite (check_window_posted _ _ _ _ _ _ _ _ Hwindow).
    unfold spike_due, entry_due. cbn [alerted_spikes alerted_deaths].
    rewrite !not_in_dom_insert_other; [reflexivity | |].
    + intros Hsame. apply Hcut in Hsame as [Hticker _]. contradiction.
    + intros Hsame. apply Hcut in Hsame as [Hticker _]. contradiction.
Qed.

(** ** What the SPIKE alert says *)

Lemma format_2f_nan (x : float) :
  PrimFloat.is_nan x = true → Render.format_2f x = "nan"%string.
Proof.
  intros Hnan%is_nan_Prim2SF. unfold Render.format_2f. rewrite Hnan. reflexivity.
Qed.

Section SpikeContent.

Variables (ticker : string) (w : World) (s : State).
Variables (pre : DataFrame) (prev_time current_time : datetime).
Variables (prev_candle current_candle : Candle).

Hypothesis Hwindow :
  window_of (yf_download w (downloads s) ticker) 100 =
  Some (pre ++ [(prev_time, prev_candle); (current_time, current_candle)]).

(** The payload of the SPIKE alert of this evaluation. *)
Definition spike_payload : embed :=
  payload_of (spike_title ticker)
    (spike_msg ticker (candle_move_pct prev_candle) (volume_ratio prev_candle)
       prev_candle prev_time)
    16711680 w (fetched ticker w 100 s).

Lemma check_window_spike_payloads :
  payloads_for (spike_origin ticker prev_time)
    (emitted (check_spike_and_death_candle ticker) w s) =
  if spike_due ticker prev_time prev_candle s then [spike_payload] else [].
Proof.
  rewrite (check_window_emitted _ _ _ _ _ _ _ _ Hwindow). unfold spike_due.
  destruct (10 <=? candle_move_pct prev_candle)%float; cbn [andb]; [| reflexivity].
  change (payloads_for ?o (EvDownload ticker :: ?l)) with (payloads_for o l).
  rewrite payloads_for_app. unfold spike_events, death_events.
  rewrite fetched_alerted_spikes.
  replace (payloads_for (spike_origin ticker prev_time)
             (if (Close (bar current_candle) <? Open (bar current_candle))%float
                 && bool_decide (death_key ticker current_time ∉ dom _)
              then send_events (entry_origin ticker current_time) _ _ _ w _ else []))
    with (@nil embed)
    by (destruct (_ && _); [rewrite payloads_for_send_events |]; reflexivity).
  rewrite app_nil_r.
  destruct (bool_decide _); [| reflexivity].
  rewrite payloads_for_send_events, bool_decide_eq_true_2 by reflexivity.
  reflexivity.
Qed.

End SpikeContent.

(** X13. Whenever a SPIKE alert is emitted, it is titled with the ticker,
    colored 16711680, and says, each number with two decimals: the move of
    the bar before the last, that bar's volume divided by the mean volume of
    the 20 bars ending with it, that bar's close, and that bar's time of
    day.  When fewer than 19 bars precede that bar in the download there is
    no such mean, and the alert reads "Volume Ratio: nanx". *)
Theorem spike_alert_content (ticker : string) (w : World) (s : State)
    (pre : RawFrame) (prev_time current_time : datetime) (prev_bar current_bar : Bar) :
  let df := pre ++ [(prev_time, prev_bar); (current_time, current_bar)] in
  yf_download w (downloads s) ticker = DownloadFrame df →
  let payloads :=
    payloads_for (spike_origin ticker prev_time)
      (emitted (check_spike_and_death_candle ticker) w s) in
  let text (ratio : string) :=
    ("**" ++ ticker ++ "** 📊" ++ Render.nl ++
     "Spike: +" ++
       Render.format_2f (((Close prev_bar - Open prev_bar) / Open prev_bar) * 100)%float
       ++ "%" ++ Render.nl ++
     "Volume Ratio: " ++ ratio ++ "x" ++ Render.nl ++
     "Price: $" ++ Render.format_2f (Close prev_bar) ++ Render.nl ++
     "Time: " ++ Calendar.strftime_HMS prev_time ++ " ET" ++ Render.nl ++
     "⏳ Waiting for next candle to close...")%string in
  ((19 <= length pre)%nat →
   ∀ payload, payload ∈ payloads →
     title payload = ("🚨 SPIKE ALERT - " ++ ticker)%string
     ∧ color payload = 16711680
     ∧ description payload =
       text (Render.format_2f
               (Volume prev_bar
                / (Pandas.fsum (take 20 (drop (length pre - 19) (volumes df))) / 20))%float))
  ∧ ((length pre < 19)%nat →
     ∀ payload, payload ∈ payloads →
       title payload = ("🚨 SPIKE ALERT - " ++ ticker)%string
       ∧ color payload = 16711680
       ∧ description payload = text "nan"%string).
Proof.
  intros df Hdownload payloads text. subst payloads.
  destruct (window_of_download pre prev_time current_time prev_bar current_bar)
    as (rows & Hwindow).
  fold df in Hwindow. rewrite <- Hdownload in Hwindow.
  rewrite (check_window_spike_payloads _ _ _ _ _ _ _ _ Hwindow).
  split.
  - intros Hmany payload Hin.
    destruct (spike_due _ _ _ _); [| apply elem_of_nil in Hin; destruct Hin].
    apply list_elem_of_singleton in Hin. subst payload.
    split; [reflexivity |]. split; [reflexivity |].
    unfold spike_payload, payload_of, spike_msg, text.
    cbn [description candle_at volume_ratio candle_move_pct bar]. unfold avg_at.
    replace (S (length pre) <? 20)%nat with false by (symmetry; apply Nat.ltb_ge; lia).
    replace (S (length pre) - 20)%nat with (length pre - 19)%nat by lia.
    reflexivity.
  - intros Hfew payload Hin.
    destruct (spike_due _ _ _ _); [| apply elem_of_nil in Hin; destruct Hin].
    apply list_elem_of_singleton in Hin. subst payload.
    split; [reflexivity |]. split; [reflexivity |].
    unfold spike_payload, payload_of, spike_msg, text.
    cbn [description candle_at volume_ratio candle_move_pct bar]. unfold avg_at.
    replace (S (length pre) <? 20)%nat with true by (symmetry; apply Nat.ltb_lt; lia).
    rewrite (format_2f_nan _ (div_by_nan (Volume prev_bar))). reflexivity.
Qed.

Lemma spike_alert_content_witness :
  Forall (λ payload,
            description payload =
            ("**FFIE** 📊" ++ Render.nl ++
             "Spike: +15.00%" ++ Render.nl ++
             "Volume Ratio: nanx" ++ Render.nl ++
             "Price: $11.50" ++ Render.nl ++
             "Time: 09:35:00 ET" ++ Render.nl ++
             "⏳ Waiting for next candle to close...")%string)
    (payloads_for (spike_origin "FFIE" (Demo.at_time 9 35))
       (emitted (check_spike_and_death_candle "FFIE")
          (Demo.world Demo.spike_then_red (PostResponse 204)) initial_state))
  ∧ payloads_for (spike_origin "FFIE" (Demo.at_time 9 35))
      (emitted (check_spike_and_death_candle "FFIE")
         (Demo.world Demo.spike_then_red (PostResponse 204)) initial_state) ≠ [].
Proof.
  split; [| vm_compute; discriminate].
  apply Forall_forall. intros payload Hin.
  refine (proj2 (proj2 (proj2 (spike_alert_content "FFIE"
            (Demo.world Demo.spike_then_red (PostResponse 204)) initial_state
            [] (Demo.at_time 9 35) (Demo.at_time 9 40)
            (mk_Bar 10 12 10 11.5 5000) (mk_Bar 10 10 9 9.5 3000) _) _ payload Hin))).
  - reflexivity.
  - cbn. lia.
Defined.

(** ** Configuration: the list of tickers (lines 16 and 17)

    Strings are strings of bytes here.  On text in ASCII the functions
    below are Python's [str.split], [str.strip] and [str.upper]. *)

Module Config.

Local Open Scope string_scope.

Definition default_stocks : string :=
  "FFIE,RVSN,TGL,KXIN,ASST,CELU,ENSC,ONMD,XCUR,RGC,TSLA,HOOD".

(** [s.split(sep)] for a one-character separator. *)
Fixpoint split (sep : ascii) (s : string) : list string :=
  match s with
  | EmptyString => [EmptyString]
  | String c s' =>
      if Ascii.eqb c sep then EmptyString :: split sep s'
      else match split sep s' with
           | piece :: pieces => String c piece :: pieces
           | [] => [String c EmptyString]
           end
  end.

(** [c.isspace()] on ASCII: tab to carriage return, the four separators
    28 to 31, and the space. *)
Definition is_space (c : ascii) : bool :=
  let n := N_of_ascii c in
  ((9 <=? n) && (n <=? 13) || (28 <=? n) && (n <=? 32))%N.

Fixpoint lstrip (s : string) : string :=
  match s with
  | EmptyString => EmptyString
  | String c s' => if is_space c then lstrip s' else s
  end.

Fixpoint rstrip (s : string) : string :=
  match s with
  | EmptyString => EmptyString
  | String c s' =>
      match rstrip s' with
      | EmptyString => if is_space c then EmptyString else String c EmptyString
      | kept => String c kept
      end
  end.

(** [s.strip()]. *)
Definition strip (s : string) : string := lstrip (rstrip s).

Definition is_lower (c : ascii) : bool :=
  let n := N_of_ascii c in ((97 <=? n) && (n <=? 122))%N.

Definition upper_char (c : ascii) : ascii :=
  if is_lower c then ascii_of_N (N_of_ascii c - 32) else c.

(** [s.upper()]. *)
Fixpoint upper (s : string) : string :=
  match s with
  | EmptyString => EmptyString
  | String c s' => String (upper_char c) (upper s')
  end.

(** [s.strip().upper()]. *)
Definition normalize (s : string) : string := upper (strip s).

(** [os.getenv('STOCKS', default).split(',')], each piece normalized. *)
Definition parse_stocks (env : option string) : list string :=
  map normalize (split "," (default default_stocks env)).

(** How often a character occurs. *)
Fixpoint occurrences (c : ascii) (s : string) : nat :=
  match s with
  | EmptyString => O
  | String c' s' => ((if Ascii.eqb c' c then 1 else 0) + occurrences c s')%nat
  end.

End Config.

Section ConfigFacts.

Import Config.
Local Open Scope string_scope.

Lemma split_nonempty (sep : ascii) (s : string) : split sep s ≠ [].
Proof.
  destruct s as [| c s]; cbn; [discriminate |].
  destruct (Ascii.eqb c sep); [discriminate |].
  destruct (split sep s); discriminate.
Qed.

Lemma split_length (sep : ascii) (s : string) :
  length (split sep s) = S (occurrences sep s).
Proof.
  induction s as [| c s IH]; [reflexivity |].
  cbn [split occurrences]. destruct (Ascii.eqb c sep); cbn [length].
  - rewrite IH. reflexivity.
  - destruct (split sep s) as [| piece pieces] eqn:Hsplit.
    + destruct (split_nonempty sep s Hsplit).
    + cbn [length] in *. exact IH.
Qed.

Lemma split_pieces (sep : ascii) (s : string) :
  Forall (λ piece, mentions sep piece = false) (split sep s).
Proof.
  induction s as [| c s IH]; [repeat constructor |].
  cbn [split]. destruct (Ascii.eqb c sep) eqn:Hc.
  - constructor; [reflexivity | exact IH].
  - destruct (split sep s) as [| piece pieces]; [repeat constructor; cbn; rewrite Hc; reflexivity |].
    inversion IH as [| ? ? Hpiece Hpieces]; subst.
    constructor; [| exact Hpieces]. cbn. rewrite Hc, Hpiece. reflexivity.
Qed.

Lemma split_no_separator (sep : ascii) (s : string) :
  mentions sep s = false → split sep s = [s].
Proof.
  induction s as [| c s IH]; [reflexivity |].
  cbn [mentions split]. intros [Hc Hs]%orb_false_elim.
  rewrite Hc, (IH Hs). reflexivity.
Qed.

Lemma split_append (sep : ascii) (piece rest : string) :
  mentions sep piece = false →
  split sep (piece ++ String sep rest) = piece :: split sep rest.
Proof.
  induction piece as [| c piece IH]; intros Hpiece.
  - rewrite append_empty. cbn [split]. rewrite Ascii.eqb_refl. reflexivity.
  - cbn [mentions] in Hpiece. apply orb_false_elim in Hpiece as [Hc Hpiece].
    rewrite append_cons. cbn [split]. rewrite Hc, (IH Hpiece). reflexivity.
Qed.

Lemma split_concat (sep : ascii) (pieces : list string) :
  pieces ≠ [] →
  Forall (λ piece, mentions sep piece = false) pieces →
  split sep (String.concat (String sep EmptyString) pieces) = pieces.
Proof.
  induction pieces as [| piece pieces IH]; [contradiction |].
  intros _ Hall. inversion Hall as [| ? ? Hpiece Hrest]; subst.
  destruct pieces as [| next pieces].
  - cbn [String.concat]. apply split_no_separator. exact Hpiece.
  - change (String.concat (String sep "") (piece :: next :: pieces))
      with (piece ++ String sep (String.concat (String sep "") (next :: pieces))).
    rewrite split_append by exact Hpiece.
    rewrite IH; [reflexivity | discriminate | exact Hrest].
Qed.

(** A string that does not start, and one that does not end, with white
    space. *)
Definition head_ok (s : string) : bool :=
  match s with
  | EmptyString => true
  | String c _ => negb (is_space c)
  end.

Fixpoint last_ok (s : string) : bool :=
  match s with
  | EmptyString => true
  | String c EmptyString => negb (is_space c)
  | String _ s' => last_ok s'
  end.

Lemma lstrip_head_ok (s : string) : head_ok (lstrip s) = true.
Proof.
  induction s as [| c s IH]; [reflexivity |].
  cbn [lstrip]. destruct (is_space c) eqn:Hc; [exact IH |].
  cbn. rewrite Hc. reflexivity.
Qed.

Lemma rstrip_last_ok (s : string) : last_ok (rstrip s) = true.
Proof.
  induction s as [| c s IH]; [reflexivity |].
  cbn [rstrip]. destruct (rstrip s) as [| c' kept] eqn:Hkept.
  - destruct (is_space c) eqn:Hc; [reflexivity |]. cbn. rewrite Hc. reflexivity.
  - exact IH.
Qed.

Lemma lstrip_last_ok (s : string) : last_ok s = true → last_ok (lstrip s) = true.
Proof.
  induction s as [| c s IH]; [reflexivity |].
  intros Hlast. cbn [lstrip]. destruct (is_space c) eqn:Hc; [| exact Hlast].
  apply IH. destruct s as [| c' s]; [reflexivity | exact Hlast].
Qed.

Lemma lstrip_fixed (s : string) : head_ok s = true → lstrip s = s.
Proof.
  destruct s as [| c s]; [reflexivity |].
  cbn. intros Hc%negb_true_iff. rewrite Hc. reflexivity.
Qed.

Lemma rstrip_fixed (s : string) : last_ok s = true → rstrip s = s.
Proof.
  induction s as [| c s IH]; [reflexivity |].
  intros Hlast. cbn [rstrip]. destruct s as [| c' s].
  - cbn in *. apply negb_true_iff in Hlast. rewrite Hlast. reflexivity.
  - rewrite (IH Hlast). reflexivity.
Qed.

Lemma strip_fixed (s : string) :
  head_ok s = true → last_ok s = true → strip s = s.
Proof.
  intros Hhead Hlast. unfold strip. rewrite (rstrip_fixed s Hlast).
  apply lstrip_fixed. exact Hhead.
Qed.

Lemma strip_ok (s : string) : head_ok (strip s) = true ∧ last_ok (strip s) = true.
Proof.
  unfold strip. split; [apply lstrip_head_ok |].
  apply lstrip_last_ok, rstrip_last_ok.
Qed.

Lemma lstrip_mentions (c : ascii) (s : string) :
  mentions c s = false → mentions c (lstrip s) = false.
Proof.
  induction s as [| c' s IH]; [reflexivity |].
  intros Hs. cbn [lstrip]. destruct (is_space c'); [| exact Hs].
  apply IH. cbn in Hs. apply orb_false_elim in Hs as [_ Hs]. exact Hs.
Qed.

Lemma rstrip_mentions (c : ascii) (s : string) :
  mentions c s = false → mentions c (rstrip s) = false.
Proof.
  induction s as [| c' s IH]; [reflexivity |].
  cbn [mentions]. intros [Hc Hs]%orb_false_elim. cbn [rstrip].
  specialize (IH Hs). destruct (rstrip s) as [| c'' kept].
  - destruct (is_space c'); [reflexivity |]. cbn. rewrite Hc. reflexivity.
  - cbn [mentions] in *. rewrite Hc. exact IH.
Qed.

Lemma upper_char_facts (c : ascii) :
  upper_char (upper_char c) = upper_char c
  ∧ is_space (upper_char c) = is_space c
  ∧ is_lower (upper_char c) = false
  ∧ Ascii.eqb (upper_char c) "," = Ascii.eqb c ",".
Proof.
  destruct c as [[] [] [] [] [] [] [] []]; vm_compute; auto.
Qed.

Lemma upper_idempotent (s : string) : upper (upper s) = upper s.
Proof.
  induction s as [| c s IH]; [reflexivity |].
  cbn [upper]. rewrite IH, (proj1 (upper_char_facts c)). reflexivity.
Qed.

Lemma upper_head_ok (s : string) : head_ok (upper s) = head_ok s.
Proof.
  destruct s as [| c s]; [reflexivity |].
  cbn. rewrite (proj1 (proj2 (upper_char_facts c))). reflexivity.
Qed.

Lemma upper_last_ok (s : string) : last_ok (upper s) = last_ok s.
Proof.
  induction s as [| c s IH]; [reflexivity |].
  destruct s as [| c' s].
  - cbn. rewrite (proj1 (proj2 (upper_char_facts c))). reflexivity.
  - exact IH.
Qed.

Lemma upper_comma (s : string) : mentions "," (upper s) = mentions "," s.
Proof.
  induction s as [| c s IH]; [reflexivity |].
  cbn [upper mentions]. rewrite IH.
  rewrite (proj2 (proj2 (proj2 (upper_char_facts c)))). reflexivity.
Qed.

Lemma upper_no_lower (s : string) :
  Forall (λ c, is_lower c = false) (list_ascii_of_string (upper s)).
Proof.
  induction s as [| c s IH]; [constructor |].
  cbn. constructor; [apply upper_char_facts | exact IH].
Qed.

Lemma normalize_idempotent (s : string) : normalize (normalize s) = normalize s.
Proof.
  unfold normalize at 1. rewrite strip_fixed.
  - apply upper_idempotent.
  - unfold normalize. rewrite upper_head_ok. apply strip_ok.
  - unfold normalize. rewrite upper_last_ok. apply strip_ok.
Qed.

Lemma normalize_no_comma (s : string) :
  mentions "," s = false → mentions "," (normalize s) = false.
Proof.
  intros Hs. unfold normalize, strip. rewrite upper_comma.
  apply lstrip_mentions, rstrip_mentions. exact Hs.
Qed.

End ConfigFacts.

(** X14. The ticker list read from [STOCKS] has one entry more than the
    value has commas, so it is never empty: an empty value gives one empty
    ticker, a trailing comma gives an empty last ticker.  Every entry is free
    of commas, of white space at either end and of lowercase letters. *)
Theorem parse_stocks_shape (env : option string) :
  length (Config.parse_stocks env)
  = S (Config.occurrences "," (default Config.default_stocks env))
  ∧ Forall (λ ticker,
              mentions "," ticker = false
              ∧ head_ok ticker = true
              ∧ last_ok ticker = true
              ∧ Forall (λ c, Config.is_lower c = false) (list_ascii_of_string ticker))
      (Config.parse_stocks env)
  ∧ Config.parse_stocks (Some ""%string) = [""%string]
  ∧ Config.parse_stocks (Some " ffie ,tsla,"%string)
    = ["FFIE"%string; "TSLA"%string; ""%string].
Proof.
  unfold Config.parse_stocks. split; [| split; [| split; reflexivity]].
  - rewrite length_map. apply split_length.
  - apply Forall_fmap.
    eapply Forall_impl; [apply (split_pieces "," (default Config.default_stocks env)) |].
    intros piece Hpiece. cbn.
    split; [apply normalize_no_comma; exact Hpiece |].
    unfold Config.normalize. rewrite upper_head_ok, upper_last_ok.
    split; [apply strip_ok |]. split; [apply strip_ok | apply upper_no_lower].
Qed.

(** X15. Reading the ticker list is idempotent: joining the tickers with
    commas and reading that value again gives the same list. *)
Theorem parse_stocks_idempotent (env : option string) :
  Config.parse_stocks (Some (String.concat "," (Config.parse_stocks env)))
  = Config.parse_stocks env.
Proof.
  unfold Config.parse_stocks at 1.
  change (default Config.default_stocks
            (Some (String.concat "," (Config.parse_stocks env))))
    with (String.concat "," (Config.parse_stocks env)).
  rewrite split_concat.
  - unfold Config.parse_stocks. rewrite <- list_fmap_compose.
    apply list_fmap_ext. intros _ piece _. cbn. apply normalize_idempotent.
  - unfold Config.parse_stocks. intros Hnil. apply fmap_nil_inv in Hnil.
    exact (split_nonempty _ _ Hnil).
  - unfold Config.parse_stocks. apply Forall_fmap.
    eapply Forall_impl; [apply (split_pieces "," (default Config.default_stocks env)) |].
    intros piece Hpiece. cbn. apply normalize_no_comma. exact Hpiece.
Qed.

(** ** Requests against downloads over a lifetime *)

(** Between the two states, at most two alerts were posted per download. *)
Definition two_per_download (s s' : State) : Prop :=
  ∃ evs,
    trace s' = trace s ++ evs
    ∧ (length (posted evs) <= 2 * length (downloaded evs))%nat.

Lemma two_per_download_refl (s : State) : two_per_download s s.
Proof. exists []. rewrite app_nil_r. split; [reflexivity | cbn; lia]. Qed.

Lemma two_per_download_trans (s1 s2 s3 : State) :
  two_per_download s1 s2 → two_per_download s2 s3 → two_per_download s1 s3.
Proof.
  intros (evs1 & Htr1 & Hle1) (evs2 & Htr2 & Hle2).
  exists (evs1 ++ evs2). split.
  - rewrite Htr2, Htr1, app_assoc. reflexivity.
  - rewrite posted_app, downloaded_app, !length_app. lia.
Qed.

Lemma two_per_download_check (ticker : string) (w : World) (s : State) :
  two_per_download s (check_spike_and_death_candle ticker w s).1.
Proof.
  exists (emitted (check_spike_and_death_candle ticker) w s).
  split; [apply check_trace |].
  rewrite check_downloaded.
  destruct (check_posted_shape ticker w s) as (spikes & entries & -> & Hs & He & _).
  rewrite length_app. cbn. lia.
Qed.

(** X16. Over a whole lifetime the webhook is called at most twice per
    download: after any number of passes of [main_loop] from the start, the
    number of alerts posted is at most twice the number of downloads made. *)
Theorem at_most_two_requests_per_download (passes : nat) (w : World) :
  let final := (main_loop passes w initial_state).1 in
  (length (posted (trace final)) <= 2 * length (downloaded (trace final)))%nat.
Proof.
  intros final. subst final.
  destruct (respects_main_loop two_per_download two_per_download_refl
              two_per_download_trans
              (λ lvl msg w' s', ex_intro _ [EvLog lvl msg]
                                  (conj eq_refl (Nat.le_refl 0)))
              (λ seconds w' s', ex_intro _ [EvSleep seconds]
                                  (conj eq_refl (Nat.le_refl 0)))
              two_per_download_check passes w initial_state)
    as (evs & Htrace & Hle).
  rewrite Htrace. cbn [initial_state trace app]. exact Hle.
Qed.


(** * Failures inside an evaluation

    The evaluation over frames with named columns, where a lookup can
    fail. *)

(** ** Lookups and the fetch *)

Lemma getitem_some {V} (m : gmap string V) (name : string) (v : V) (w : World) (s : State) :
  m !! name = Some v → Dyn.getitem m name w s = (s, Returns v).
Proof. intros Hm. unfold Dyn.getitem. rewrite Hm. reflexivity. Qed.

Lemma getitem_none {V} (m : gmap string V) (name : string) (w : World) (s : State) :
  m !! name = None →
  Dyn.getitem m name w s = (s, Raises (Exception ("'" ++ name ++ "'")%string)).
Proof. intros Hm. unfold Dyn.getitem. rewrite Hm. reflexivity. Qed.

(** The three columns [get_5min_candles] adds. *)
Definition enriched (df : Dyn.Frame) (volume close open : nat → float) : Dyn.Frame :=
  Dyn.setitem
    (Dyn.setitem
       (Dyn.setitem df "volume_avg_20" (Dyn.rolling_mean 20 volume))
       "volume_ratio" (λ i, volume i / Dyn.rolling_mean 20 volume i)%float)
    "candle_move_pct" (λ i, ((close i - open i) / open i) * 100)%float.

(** What one call of [get_5min_candles] comes to, given what the download
    did: an exception it logs, nothing, or a frame. *)
Inductive fetch_outcome : Type :=
| FetchError (msg : string)
| FetchNothing
| FetchFrame (df : Dyn.Frame).

Definition fetch_outcome_of (r : Dyn.feed_result) (limit : nat) : fetch_outcome :=
  match r with
  | Dyn.FeedRaises msg => FetchError msg
  | Dyn.FeedFrame df =>
      if Dyn.empty df then FetchNothing
      else
        match Dyn.columns df !! "Volume"%string with
        | None => FetchError "'Volume'"
        | Some volume =>
            match Dyn.columns df !! "Close"%string with
            | None => FetchError "'Close'"
            | Some close =>
                match Dyn.columns df !! "Open"%string with
                | None => FetchError "'Open'"
                | Some open => FetchFrame (Dyn.tail limit (enriched df volume close open))
                end
            end
        end
  end.

Definition fetched_frame (o : fetch_outcome) : option Dyn.Frame :=
  match o with
  | FetchFrame df => Some df
  | _ => None
  end.

Definition fetch_log (ticker : string) (o : fetch_outcome) : list event :=
  match o with
  | FetchError msg =>
      [EvLog ERROR ("Error fetching candles for " ++ ticker ++ ": " ++ msg)%string]
  | _ => []
  end.

Lemma run_bind_raises {A B} (m : M A) (f : A → M B) (w : World) (s s' : State) (e : exn) :
  m w s = (s', Raises e) → (m ≫= f) w s = (s', Raises e).
Proof. intros Hm. unfold mbind, M_bind. rewrite Hm. reflexivity. Qed.

Section DynFetch.

Variables (feed : Dyn.Feed) (ticker : string) (w : World).

Lemma dyn_get_5min_candles_run (limit : nat) (s : State) :
  Dyn.get_5min_candles feed ticker limit w s =
  (mk_State (alerted_spikes s) (alerted_deaths s) (S (downloads s)) (posts s)
            (trace s ++ EvDownload ticker
               :: fetch_log ticker (fetch_outcome_of (feed (downloads s) ticker) limit)),
   Returns (fetched_frame (fetch_outcome_of (feed (downloads s) ticker) limit))).
Proof.
  unfold Dyn.get_5min_candles, try_except, fetch_outcome_of.
  unfold mbind at 1, M_bind at 1. unfold Dyn.download.
  destruct (feed (downloads s) ticker) as [msg | df].
  - cbv [logger_error emit mret M_ret mbind M_bind]. cbn. rewrite <- app_assoc. reflexivity.
  - destruct (Dyn.empty df); [reflexivity |].
    destruct (Dyn.columns df !! "Volume"%string) as [volume |] eqn:Hvolume.
    2:{ erewrite run_bind_raises by (apply getitem_none; exact Hvolume).
        cbv [logger_error emit mret M_ret mbind M_bind]. cbn.
        rewrite <- app_assoc. reflexivity. }
    erewrite run_bind_returns by (apply getitem_some; exact Hvolume).
    erewrite run_bind_returns
      by (apply getitem_some; cbn; rewrite lookup_insert_ne by discriminate;
          exact Hvolume).
    erewrite run_bind_returns
      by (apply getitem_some; cbn; apply lookup_insert_eq).
    destruct (Dyn.columns df !! "Close"%string) as [close |] eqn:Hclose.
    2:{ erewrite run_bind_raises
          by (apply getitem_none; cbn; rewrite !lookup_insert_ne by discriminate;
              exact Hclose).
        cbv [logger_error emit mret M_ret mbind M_bind]. cbn.
        rewrite <- app_assoc. reflexivity. }
    erewrite run_bind_returns
      by (apply getitem_some; cbn; rewrite !lookup_insert_ne by discriminate;
          exact Hclose).
    destruct (Dyn.columns df !! "Open"%string) as [open |] eqn:Hopen.
    2:{ erewrite run_bind_raises
          by (apply getitem_none; cbn; rewrite !lookup_insert_ne by discriminate;
              exact Hopen).
        cbv [logger_error emit mret M_ret mbind M_bind]. cbn.
        rewrite <- app_assoc. reflexivity. }
    do 2 erewrite run_bind_returns
      by (apply getitem_some; cbn; rewrite !lookup_insert_ne by discriminate;
          exact Hopen).
    reflexivity.
Qed.

End DynFetch.

(** A row read as a candle: a missing price reads as NaN, a missing
    [volume_ratio] as 0 (line 91). *)
Definition cell (row : Dyn.Series) (name : string) : float :=
  default nan (row !! name).

Definition candle_of (row : Dyn.Series) : Candle :=
  {| bar := mk_Bar (cell row "Open") (cell row "High") (cell row "Low")
                   (cell row "Close") (cell row "Volume");
     volume_avg_20 := cell row "volume_avg_20";
     volume_ratio := default 0%float (row !! "volume_ratio"%string);
     candle_move_pct := cell row "candle_move_pct" |}.

Lemma row_lookup (df : Dyn.Frame) (j : nat) (name : string) :
  Dyn.row df j !! name = (λ column, column j) <$> Dyn.columns df !! name.
Proof. unfold Dyn.row. apply lookup_fmap. Qed.

Lemma row_is_Some (df : Dyn.Frame) (j : nat) (name : string) :
  is_Some (Dyn.columns df !! name) → is_Some (Dyn.row df j !! name).
Proof. intros [c Hc]. rewrite row_lookup, Hc. eexists. reflexivity. Qed.

Lemma row_None (df : Dyn.Frame) (j : nat) (name : string) :
  Dyn.columns df !! name = None → Dyn.row df j !! name = None.
Proof. intros Hc. rewrite row_lookup, Hc. reflexivity. Qed.

Lemma getitem_cell (row : Dyn.Series) (name : string) (w : World) (s : State) :
  is_Some (row !! name) → Dyn.getitem row name w s = (s, Returns (cell row name)).
Proof. intros [v Hv]. unfold Dyn.getitem, cell. rewrite Hv. reflexivity. Qed.

Lemma dyn_iloc_last (df : Dyn.Frame) (pre : list datetime) (a b : datetime)
    (w : World) (s : State) :
  Dyn.index df = pre ++ [a; b] →
  Dyn.iloc df (-1) w s = (s, Returns (b, Dyn.row df (S (length pre)))).
Proof.
  intros Hindex. unfold Dyn.iloc, Pandas.iloc_position.
  rewrite Hindex, length_app. cbn [length].
  replace (-1 <? 0) with true by reflexivity.
  replace ((0 <=? Z.of_nat (length pre + 2)%nat + -1)
           && (Z.of_nat (length pre + 2)%nat + -1 <? Z.of_nat (length pre + 2)%nat))
    with true by (symmetry; apply andb_true_iff; split; [apply Z.leb_le | apply Z.ltb_lt]; lia).
  cbn [mbind option_bind].
  replace (Z.to_nat (Z.of_nat (length pre + 2)%nat + -1)) with (length pre + 1)%nat by lia.
  rewrite lookup_last_of_two. cbn [fmap option_fmap option_map].
  replace (length pre + 1)%nat with (S (length pre)) by lia. reflexivity.
Qed.

Lemma dyn_iloc_before_last (df : Dyn.Frame) (pre : list datetime) (a b : datetime)
    (w : World) (s : State) :
  Dyn.index df = pre ++ [a; b] →
  Dyn.iloc df (-2) w s = (s, Returns (a, Dyn.row df (length pre))).
Proof.
  intros Hindex. unfold Dyn.iloc, Pandas.iloc_position.
  rewrite Hindex, length_app. cbn [length].
  replace (-2 <? 0) with true by reflexivity.
  replace ((0 <=? Z.of_nat (length pre + 2)%nat + -2)
           && (Z.of_nat (length pre + 2)%nat + -2 <? Z.of_nat (length pre + 2)%nat))
    with true by (symmetry; apply andb_true_iff; split; [apply Z.leb_le | apply Z.ltb_lt]; lia).
  cbn [mbind option_bind].
  replace (Z.to_nat (Z.of_nat (length pre + 2)%nat + -2)) with (length pre + 0)%nat by lia.
  rewrite lookup_first_of_two. cbn [fmap option_fmap option_map].
  replace (length pre + 0)%nat with (length pre) by lia. reflexivity.
Qed.

Lemma volume_ratio_run (row : Dyn.Series) (w : World) (s : State) :
  (if bool_decide ("volume_ratio"%string ∈ dom row)
   then Dyn.getitem row "volume_ratio" else mret 0%float) w s =
  (s, Returns (default 0%float (row !! "volume_ratio"%string))).
Proof.
  destruct (row !! "volume_ratio"%string) as [v |] eqn:Hv.
  - rewrite bool_decide_eq_true_2 by (apply elem_of_dom; eexists; exact Hv).
    apply getitem_some. exact Hv.
  - rewrite bool_decide_eq_false_2 by (apply not_elem_of_dom; exact Hv).
    reflexivity.
Qed.

Section DynDetect.

Variables (ticker : string) (w : World).
Variables (df : Dyn.Frame) (pre : list datetime) (prev_time current_time : datetime).

Hypothesis Hindex : Dyn.index df = pre ++ [prev_time; current_time].
Hypothesis Hmove : is_Some (Dyn.columns df !! "candle_move_pct"%string).
Hypothesis Hclose : is_Some (Dyn.columns df !! "Close"%string).
Hypothesis Hopen : is_Some (Dyn.columns df !! "Open"%string).

Let prev_candle : Candle := candle_of (Dyn.row df (length pre)).
Let current_candle : Candle := candle_of (Dyn.row df (S (length pre))).

(** What lines 81 to 141 do on such a frame. *)
Definition detect_outcome (s : State) : State * result unit :=
  if (10 <=? candle_move_pct prev_candle)%float then
    let s1 := spike_part ticker w prev_time current_time prev_candle s in
    if (Close (bar current_candle) <? Open (bar current_candle))%float
       && bool_decide (death_key ticker current_time ∉ dom (alerted_deaths s1))
    then
      match Dyn.columns df !! "High"%string with
      | Some _ => (death_part ticker w current_time prev_candle current_candle s1,
                   Returns tt)
      | None => (s1, Raises (Exception "'High'"))
      end
    else (s1, Returns tt)
  else (s, Returns tt).

Lemma dyn_detect_run (s : State) :
  Dyn.detect ticker (Some df) w s = detect_outcome s.
Proof.
  unfold Dyn.detect, detect_outcome.
  replace (length (Dyn.index df) <? 2)%nat with false
    by (symmetry; apply Nat.ltb_ge; rewrite Hindex, length_app; cbn; lia).
  erewrite run_bind_returns by (eapply dyn_iloc_last; exact Hindex).
  cbv beta iota.
  erewrite run_bind_returns by (eapply dyn_iloc_before_last; exact Hindex).
  cbv beta iota.
  erewrite run_bind_returns by (apply getitem_cell, row_is_Some, Hmove).
  erewrite run_bind_returns by apply volume_ratio_run.
  erewrite run_bind_returns by (apply getitem_cell, row_is_Some, Hclose).
  erewrite run_bind_returns by (apply getitem_cell, row_is_Some, Hopen).
  change (cell (Dyn.row df (length pre)) "candle_move_pct")
    with (candle_move_pct prev_candle).
  change (cell (Dyn.row df (S (length pre))) "Close")
    with (Close (bar current_candle)).
  change (cell (Dyn.row df (S (length pre))) "Open")
    with (Open (bar current_candle)).
  change (default 0%float (Dyn.row df (length pre) !! "volume_ratio"%string))
    with (volume_ratio prev_candle).
  destruct (10 <=? candle_move_pct prev_candle)%float; [| reflexivity].
  assert (Hspike :
    ((if bool_decide (spike_key ticker prev_time ∉ dom (alerted_spikes s)) then
        prev_close ← Dyn.getitem (Dyn.row df (length pre)) "Close";
        send_discord_alert (mk_origin SPIKE ticker prev_time) (spike_title ticker)
          (Dyn.spike_text ticker (candle_move_pct prev_candle)
             (volume_ratio prev_candle) prev_close prev_time) 16711680;;
        set_alerted_spike (spike_key ticker prev_time) current_time
      else mret tt) w s)
    = (spike_part ticker w prev_time current_time prev_candle s, Returns tt)).
  { unfold spike_part.
    destruct (bool_decide (spike_key ticker prev_time ∉ dom (alerted_spikes s)));
      [| reflexivity].
    erewrite run_bind_returns by (apply getitem_cell, row_is_Some, Hclose).
    erewrite run_bind_returns by apply send_discord_alert_sent.
    reflexivity. }
  erewrite run_bind_returns by reflexivity.
  erewrite run_bind_returns by exact Hspike.
  set (s1 := spike_part ticker w prev_time current_time prev_candle s).
  destruct (Close (bar current_candle) <? Open (bar current_candle))%float eqn:Hred;
    [| reflexivity].
  erewrite run_bind_returns by reflexivity.
  destruct (bool_decide (death_key ticker current_time ∉ dom (alerted_deaths s1)))
    eqn:Hnew; [| reflexivity].
  cbn [andb].
  destruct (Dyn.columns df !! "High"%string) as [high |] eqn:Hhigh.
  - erewrite run_bind_returns
      by (apply getitem_cell, row_is_Some; rewrite Hhigh; eexists; reflexivity).
    do 2 erewrite run_bind_returns by (apply getitem_cell, row_is_Some, Hclose).
    erewrite run_bind_returns by (apply getitem_cell, row_is_Some, Hopen).
    erewrite run_bind_returns by apply send_discord_alert_sent.
    unfold death_part. rewrite Hred, Hnew. reflexivity.
  - erewrite run_bind_raises by (apply getitem_none, row_None, Hhigh).
    reflexivity.
Qed.


End DynDetect.

(** The state in which the handler of lines 143 and 144 leaves the
    program. *)
Definition logged (s : State) (e : event) : State :=
  mk_State (alerted_spikes s) (alerted_deaths s) (downloads s) (posts s)
           (trace s ++ [e]).

Definition check_error (ticker : string) (e : exn) : event :=
  EvLog ERROR ("Error checking " ++ ticker ++ ": " ++ exn_str e)%string.

Lemma dyn_check_unfold (feed : Dyn.Feed) (ticker : string) :
  Dyn.check_spike_and_death_candle feed ticker =
  try_except (Dyn.get_5min_candles feed ticker 100 ≫= Dyn.detect ticker)
    (λ e, emit (check_error ticker e)).
Proof. reflexivity. Qed.

Lemma dyn_check_returns (feed : Dyn.Feed) (ticker : string) (w : World) (s : State) :
  (Dyn.check_spike_and_death_candle feed ticker w s).2 = Returns tt.
Proof.
  rewrite dyn_check_unfold. unfold try_except.
  destruct ((Dyn.get_5min_candles feed ticker 100 ≫= Dyn.detect ticker) w s)
    as [s' [[] | e]]; reflexivity.
Qed.

Lemma dyn_check_caught (feed : Dyn.Feed) (ticker : string) (w : World) (s s' : State)
    (e : exn) :
  (Dyn.get_5min_candles feed ticker 100 ≫= Dyn.detect ticker) w s = (s', Raises e) →
  Dyn.check_spike_and_death_candle feed ticker w s =
  (logged s' (check_error ticker e), Returns tt).
Proof.
  intros Hbody. rewrite dyn_check_unfold. unfold try_except.
  rewrite Hbody. reflexivity.
Qed.

Lemma dyn_check_passed (feed : Dyn.Feed) (ticker : string) (w : World) (s s' : State) :
  (Dyn.get_5min_candles feed ticker 100 ≫= Dyn.detect ticker) w s = (s', Returns tt) →
  Dyn.check_spike_and_death_candle feed ticker w s = (s', Returns tt).
Proof.
  intros Hbody. rewrite dyn_check_unfold. unfold try_except.
  rewrite Hbody. reflexivity.
Qed.

(** The state [Dyn.get_5min_candles] leaves. *)
Definition dyn_fetched (feed : Dyn.Feed) (ticker : string) (s : State) : State :=
  mk_State (alerted_spikes s) (alerted_deaths s) (S (downloads s)) (posts s)
           (trace s ++ EvDownload ticker
              :: fetch_log ticker (fetch_outcome_of (feed (downloads s) ticker) 100)).

Lemma dyn_try_block (feed : Dyn.Feed) (ticker : string) (w : World) (s : State) :
  (Dyn.get_5min_candles feed ticker 100 ≫= Dyn.detect ticker) w s =
  Dyn.detect ticker (fetched_frame (fetch_outcome_of (feed (downloads s) ticker) 100))
    w (dyn_fetched feed ticker s).
Proof. apply run_bind_returns, dyn_get_5min_candles_run. Qed.

(** A fetch that fails, or finds nothing, ends the evaluation there. *)
Lemma dyn_check_no_frame (feed : Dyn.Feed) (ticker : string) (w : World) (s : State) :
  fetched_frame (fetch_outcome_of (feed (downloads s) ticker) 100) = None →
  Dyn.check_spike_and_death_candle feed ticker w s =
  (dyn_fetched feed ticker s, Returns tt).
Proof.
  intros Hnone. apply dyn_check_passed. rewrite dyn_try_block, Hnone. reflexivity.
Qed.

(** ** The rows of the frame [Dyn.get_5min_candles] returns *)

Lemma tail_index (limit : nat) (df : Dyn.Frame) (pre : list datetime) (a b : datetime) :
  (2 <= limit)%nat →
  Dyn.index df = pre ++ [a; b] →
  Dyn.index (Dyn.tail limit df) = drop (length pre + 2 - limit) pre ++ [a; b].
Proof.
  intros Hlimit Hindex. unfold Dyn.tail. cbn [Dyn.index].
  rewrite Hindex, length_app. cbn [length].
  rewrite drop_app_le by lia. reflexivity.
Qed.

Lemma tail_row (limit : nat) (df : Dyn.Frame) (j : nat) :
  Dyn.row (Dyn.tail limit df) j = Dyn.row df (length (Dyn.index df) - limit + j).
Proof.
  unfold Dyn.row, Dyn.tail. cbn [Dyn.columns].
  rewrite <- map_fmap_compose. reflexivity.
Qed.

Lemma tail_columns_is_Some (limit : nat) (df : Dyn.Frame) (name : string) :
  is_Some (Dyn.columns df !! name) → is_Some (Dyn.columns (Dyn.tail limit df) !! name).
Proof.
  intros [c Hc]. unfold Dyn.tail. cbn [Dyn.columns].
  rewrite lookup_fmap, Hc. eexists. reflexivity.
Qed.

Lemma tail_columns_None (limit : nat) (df : Dyn.Frame) (name : string) :
  Dyn.columns df !! name = None → Dyn.columns (Dyn.tail limit df) !! name = None.
Proof.
  intros Hc. unfold Dyn.tail. cbn [Dyn.columns]. rewrite lookup_fmap, Hc. reflexivity.
Qed.

Lemma tail_last_two (limit : nat) (df : Dyn.Frame) (pre : list datetime) (a b : datetime) :
  (2 <= limit)%nat →
  Dyn.index df = pre ++ [a; b] →
  let pre' := drop (length pre + 2 - limit) pre in
  Dyn.row (Dyn.tail limit df) (length pre') = Dyn.row df (length pre)
  ∧ Dyn.row (Dyn.tail limit df) (S (length pre')) = Dyn.row df (S (length pre)).
Proof.
  intros Hlimit Hindex pre'. rewrite !tail_row, Hindex, length_app. cbn [length].
  unfold pre'. rewrite length_drop. split; f_equal; lia.
Qed.

Section Enriched.

Variables (df : Dyn.Frame) (volume close open : nat → float).

Hypothesis Hvolume : Dyn.columns df !! "Volume"%string = Some volume.
Hypothesis Hclose : Dyn.columns df !! "Close"%string = Some close.
Hypothesis Hopen : Dyn.columns df !! "Open"%string = Some open.

Let full : Dyn.Frame := enriched df volume close open.

Lemma enriched_index : Dyn.index full = Dyn.index df.
Proof. reflexivity. Qed.

Lemma enriched_move :
  Dyn.columns full !! "candle_move_pct"%string =
  Some (λ i, ((close i - open i) / open i) * 100)%float.
Proof. unfold full, enriched. cbn. apply lookup_insert_eq. Qed.

Lemma enriched_ratio :
  Dyn.columns full !! "volume_ratio"%string =
  Some (λ i, volume i / Dyn.rolling_mean 20 volume i)%float.
Proof.
  unfold full, enriched. cbn. rewrite lookup_insert_ne by discriminate.
  apply lookup_insert_eq.
Qed.

Lemma enriched_avg :
  Dyn.columns full !! "volume_avg_20"%string = Some (Dyn.rolling_mean 20 volume).
Proof.
  unfold full, enriched. cbn. rewrite !lookup_insert_ne by discriminate.
  apply lookup_insert_eq.
Qed.

(** The columns of the download are kept as they are. *)
Lemma enriched_kept (name : string) :
  name ≠ "volume_avg_20"%string → name ≠ "volume_ratio"%string →
  name ≠ "candle_move_pct"%string →
  Dyn.columns full !! name = Dyn.columns df !! name.
Proof.
  intros Havg Hratio Hmove. unfold full, enriched. cbn.
  rewrite !lookup_insert_ne by congruence. reflexivity.
Qed.

Lemma enriched_close : Dyn.columns full !! "Close"%string = Some close.
Proof. rewrite enriched_kept by discriminate. exact Hclose. Qed.

Lemma enriched_open : Dyn.columns full !! "Open"%string = Some open.
Proof. rewrite enriched_kept by discriminate. exact Hopen. Qed.

Lemma enriched_high : Dyn.columns full !! "High"%string = Dyn.columns df !! "High"%string.
Proof. apply enriched_kept; discriminate. Qed.

Lemma enriched_candle_move (j : nat) :
  candle_move_pct (candle_of (Dyn.row full j)) =
  (((close j - open j) / open j) * 100)%float.
Proof.
  unfold candle_of. cbn [candle_move_pct]. unfold cell.
  rewrite row_lookup, enriched_move. reflexivity.
Qed.

Lemma enriched_candle_close (j : nat) :
  Close (bar (candle_of (Dyn.row full j))) = close j.
Proof.
  unfold candle_of. cbn [bar Close]. unfold cell.
  rewrite row_lookup, enriched_close. reflexivity.
Qed.

Lemma enriched_candle_open (j : nat) :
  Open (bar (candle_of (Dyn.row full j))) = open j.
Proof.
  unfold candle_of. cbn [bar Open]. unfold cell.
  rewrite row_lookup, enriched_open. reflexivity.
Qed.

End Enriched.

Lemma detect_outcome_tail (ticker : string) (w : World) (df : Dyn.Frame)
    (pre : list datetime) (a b : datetime) (s : State) :
  Dyn.index df = pre ++ [a; b] →
  detect_outcome ticker w (Dyn.tail 100 df) (drop (length pre + 2 - 100) pre) a b s =
  detect_outcome ticker w df pre a b s.
Proof.
  intros Hindex. unfold detect_outcome.
  destruct (tail_last_two 100 df pre a b ltac:(lia) Hindex) as [-> ->].
  destruct (10 <=? _)%float; [| reflexivity].
  destruct (_ && _); [| reflexivity].
  unfold Dyn.tail at 1. cbn [Dyn.columns]. rewrite lookup_fmap.
  destruct (Dyn.columns df !! "High"%string); reflexivity.
Qed.

Section DynWindow.

Variables (feed : Dyn.Feed) (ticker : string) (w : World) (s : State).
Variables (df : Dyn.Frame) (pre : list datetime) (prev_time current_time : datetime).
Variables (volume close open : nat → float).

Hypothesis Hfeed : feed (downloads s) ticker = Dyn.FeedFrame df.
Hypothesis Hindex : Dyn.index df = pre ++ [prev_time; current_time].
Hypothesis Hvolume : Dyn.columns df !! "Volume"%string = Some volume.
Hypothesis Hclose : Dyn.columns df !! "Close"%string = Some close.
Hypothesis Hopen : Dyn.columns df !! "Open"%string = Some open.

Lemma fed_not_empty : Dyn.empty df = false.
Proof.
  unfold Dyn.empty. apply orb_false_iff. split; apply bool_decide_eq_false_2.
  - rewrite Hindex. intros Hnil. apply (f_equal length) in Hnil.
    rewrite length_app in Hnil. cbn in Hnil. lia.
  - intros Hdom.
    assert (Hin : "Volume"%string ∈ dom (Dyn.columns df))
      by (apply elem_of_dom; eexists; exact Hvolume).
    rewrite Hdom in Hin. apply not_elem_of_empty in Hin. exact Hin.
Qed.

Lemma fed_outcome :
  fetch_outcome_of (feed (downloads s) ticker) 100 =
  FetchFrame (Dyn.tail 100 (enriched df volume close open)).
Proof.
  unfold fetch_outcome_of. rewrite Hfeed, fed_not_empty, Hvolume, Hclose, Hopen.
  reflexivity.
Qed.

(** The state when the download has returned. *)
Definition downloaded_state : State :=
  mk_State (alerted_spikes s) (alerted_deaths s) (S (downloads s)) (posts s)
           (trace s ++ [EvDownload ticker]).

Lemma dyn_fetched_window : dyn_fetched feed ticker s = downloaded_state.
Proof. unfold dyn_fetched. rewrite fed_outcome. reflexivity. Qed.

(** The try block of an evaluation whose download ends with two rows. *)
Lemma dyn_try_block_window :
  (Dyn.get_5min_candles feed ticker 100 ≫= Dyn.detect ticker) w s =
  detect_outcome ticker w (enriched df volume close open) pre prev_time current_time
    downloaded_state.
Proof.
  rewrite dyn_try_block, fed_outcome, dyn_fetched_window. cbn [fetched_frame].
  rewrite (dyn_detect_run ticker w _ (drop (length pre + 2 - 100) pre)
             prev_time current_time).
  - apply detect_outcome_tail. exact Hindex.
  - apply tail_index; [lia | exact Hindex].
  - apply tail_columns_is_Some. rewrite enriched_move. eexists. reflexivity.
  - apply tail_columns_is_Some. rewrite (enriched_close df volume close open Hclose).
    eexists. reflexivity.
  - apply tail_columns_is_Some. rewrite (enriched_open df volume close open Hopen).
    eexists. reflexivity.
Qed.

End DynWindow.

(** ** An evaluation that raises: a frame without the [High] column *)

Section MissingHigh.

Variables (feed : Dyn.Feed) (ticker : string) (w : World) (s : State).
Variables (df : Dyn.Frame) (pre : list datetime) (prev_time current_time : datetime).
Variables (volume close open : nat → float).

Hypothesis Hfeed : feed (downloads s) ticker = Dyn.FeedFrame df.
Hypothesis Hindex : Dyn.index df = pre ++ [prev_time; current_time].
Hypothesis Hvolume : Dyn.columns df !! "Volume"%string = Some volume.
Hypothesis Hclose : Dyn.columns df !! "Close"%string = Some close.
Hypothesis Hopen : Dyn.columns df !! "Open"%string = Some open.
Hypothesis Hhigh : Dyn.columns df !! "High"%string = None.
Hypothesis Hspike :
  (10 <=? ((close (length pre) - open (length pre)) / open (length pre)) * 100)%float
  = true.
Hypothesis Hred : (close (S (length pre)) <? open (S (length pre)))%float = true.
Hypothesis Hnew : death_key ticker current_time ∉ dom (alerted_deaths s).

(** The state when line 120 raises: the SPIKE part is done. *)
Definition at_missing_high : State :=
  spike_part ticker w prev_time current_time
    (candle_of (Dyn.row (enriched df volume close open) (length pre)))
    (downloaded_state ticker s).

Lemma try_block_missing_high :
  (Dyn.get_5min_candles feed ticker 100 ≫= Dyn.detect ticker) w s =
  (at_missing_high, Raises (Exception "'High'")).
Proof.
  rewrite (dyn_try_block_window feed ticker w s df pre prev_time current_time
             volume close open Hfeed Hindex Hvolume Hclose Hopen).
  unfold detect_outcome.
  rewrite (enriched_candle_move df volume close open), Hspike.
  rewrite (enriched_candle_close df volume close open Hclose).
  rewrite (enriched_candle_open df volume close open Hopen).
  rewrite Hred, spike_part_alerted_deaths. cbn [downloaded_state alerted_deaths].
  rewrite bool_decide_eq_true_2 by exact Hnew. cbn [andb].
  rewrite enriched_high, Hhigh. reflexivity.
Qed.

Lemma at_missing_high_trace :
  ∃ evs,
    trace at_missing_high = trace s ++ EvDownload ticker :: evs
    ∧ posted evs =
      if bool_decide (spike_key ticker prev_time ∉ dom (alerted_spikes s))
      then [spike_origin ticker prev_time] else [].
Proof.
  unfold at_missing_high. eexists. split.
  - rewrite spike_part_trace. cbn [downloaded_state trace].
    rewrite <- app_assoc. reflexivity.
  - unfold spike_events. cbn [downloaded_state alerted_spikes].
    destruct (bool_decide _); [apply posted_send_events | reflexivity].
Qed.

Lemma at_missing_high_alerted_deaths :
  alerted_deaths at_missing_high = alerted_deaths s.
Proof. unfold at_missing_high. rewrite spike_part_alerted_deaths. reflexivity. Qed.

Lemma at_missing_high_alerted_spikes :
  alerted_spikes at_missing_high =
  if bool_decide (spike_key ticker prev_time ∉ dom (alerted_spikes s))
  then <[spike_key ticker prev_time := current_time]> (alerted_spikes s)
  else alerted_spikes s.
Proof. unfold at_missing_high. rewrite spike_part_alerted_spikes. reflexivity. Qed.

End MissingHigh.

(** ** Frames that have the five columns *)

(** A column of a frame of bars. *)
Definition column_of (raw : RawFrame) (field : Bar → float) : nat → float :=
  λ i, default nan ((λ r, field r.2) <$> raw !! i).

(** A frame of bars as a frame with named columns. *)
Definition of_raw (raw : RawFrame) : Dyn.Frame :=
  Dyn.mk_Frame raw.*1
    (<["Open"%string := column_of raw Open]>
       (<["High"%string := column_of raw High]>
          (<["Low"%string := column_of raw Low]>
             (<["Close"%string := column_of raw Close]>
                (<["Volume"%string := column_of raw Volume]> ∅))))).

Definition of_download (r : download_result) : Dyn.feed_result :=
  match r with
  | DownloadRaises msg => Dyn.FeedRaises msg
  | DownloadFrame raw => Dyn.FeedFrame (of_raw raw)
  end.

Lemma take_drop_seq {A} (d : A) (n k : nat) (xs : list A) :
  (k + n <= length xs)%nat →
  take n (drop k xs) = map (λ i, default d (xs !! i)) (seq k n).
Proof.
  revert k. induction n as [| n IH]; intros k Hlen; [apply take_0 |].
  destruct (lookup_lt_is_Some_2 xs k ltac:(lia)) as [x Hx].
  rewrite (drop_S _ _ _ Hx). cbn [take seq map]. rewrite Hx. cbn [default].
  f_equal. apply IH. lia.
Qed.

Section OfRaw.

Variable raw : RawFrame.

Lemma of_raw_open : Dyn.columns (of_raw raw) !! "Open"%string = Some (column_of raw Open).
Proof. apply lookup_insert_eq. Qed.

Lemma of_raw_high : Dyn.columns (of_raw raw) !! "High"%string = Some (column_of raw High).
Proof. unfold of_raw. cbn. rewrite lookup_insert_ne by discriminate. apply lookup_insert_eq. Qed.

Lemma of_raw_low : Dyn.columns (of_raw raw) !! "Low"%string = Some (column_of raw Low).
Proof. unfold of_raw. cbn. rewrite !lookup_insert_ne by discriminate. apply lookup_insert_eq. Qed.

Lemma of_raw_close : Dyn.columns (of_raw raw) !! "Close"%string = Some (column_of raw Close).
Proof. unfold of_raw. cbn. rewrite !lookup_insert_ne by discriminate. apply lookup_insert_eq. Qed.

Lemma of_raw_volume :
  Dyn.columns (of_raw raw) !! "Volume"%string = Some (column_of raw Volume).
Proof. unfold of_raw. cbn. rewrite !lookup_insert_ne by discriminate. apply lookup_insert_eq. Qed.

Lemma column_of_lookup (field : Bar → float) (i : nat) (t : datetime) (b : Bar) :
  raw !! i = Some (t, b) → column_of raw field i = field b.
Proof. intros Hi. unfold column_of. rewrite Hi. reflexivity. Qed.

Lemma rolling_mean_of_raw (i : nat) :
  (i < length raw)%nat →
  Dyn.rolling_mean 20 (column_of raw Volume) i = avg_at raw i.
Proof.
  intros Hi. unfold Dyn.rolling_mean, avg_at.
  destruct (S i <? 20)%nat eqn:Hearly; [reflexivity |].
  apply Nat.ltb_ge in Hearly.
  rewrite (take_drop_seq nan) by (unfold volumes; rewrite length_map; lia).
  do 2 f_equal. apply map_ext. intros j. unfold column_of, volumes.
  rewrite list_lookup_fmap. reflexivity.
Qed.

(** Row [i] of the frame with the derived columns is the candle the
    record model has there. *)
Lemma candle_of_raw (i : nat) (t : datetime) (b : Bar) :
  raw !! i = Some (t, b) →
  candle_of (Dyn.row (enriched (of_raw raw) (column_of raw Volume)
                        (column_of raw Close) (column_of raw Open)) i)
  = candle_at raw i b.
Proof.
  intros Hi.
  assert (Hlt : (i < length raw)%nat) by (apply lookup_lt_is_Some; eexists; exact Hi).
  unfold candle_of, candle_at, cell.
  rewrite !row_lookup.
  rewrite (enriched_move (of_raw raw) (column_of raw Volume) (column_of raw Close)
             (column_of raw Open)).
  rewrite (enriched_ratio (of_raw raw) (column_of raw Volume) (column_of raw Close)
             (column_of raw Open)).
  rewrite (enriched_avg (of_raw raw) (column_of raw Volume) (column_of raw Close)
             (column_of raw Open)).
  rewrite !enriched_kept by discriminate.
  rewrite of_raw_open, of_raw_high, of_raw_low, of_raw_close, of_raw_volume.
  cbn [fmap option_fmap option_map default].
  rewrite rolling_mean_of_raw by exact Hlt.
  rewrite !(column_of_lookup _ i t b Hi). destruct b. reflexivity.
Qed.

End OfRaw.

Lemma death_part_not_due (ticker : string) (w : World) (ct : datetime) (p c : Candle)
    (s : State) :
  (Close (bar c) <? Open (bar c))%float
    && bool_decide (death_key ticker ct ∉ dom (alerted_deaths s)) = false →
  death_part ticker w ct p c s = s.
Proof.
  unfold death_part.
  destruct (Close (bar c) <? Open (bar c))%float; [| reflexivity].
  destruct (bool_decide _); [discriminate | reflexivity].
Qed.

(** With the [High] column there, nothing is raised. *)
Lemma detect_outcome_complete (ticker : string) (w : World) (df : Dyn.Frame)
    (pre : list datetime) (a b : datetime) (s : State) :
  is_Some (Dyn.columns df !! "High"%string) →
  detect_outcome ticker w df pre a b s =
  (if (10 <=? candle_move_pct (candle_of (Dyn.row df (length pre))))%float
   then death_part ticker w b (candle_of (Dyn.row df (length pre)))
          (candle_of (Dyn.row df (S (length pre))))
          (spike_part ticker w a b (candle_of (Dyn.row df (length pre))) s)
   else s,
   Returns tt).
Proof.
  intros [high Hhigh]. unfold detect_outcome. rewrite Hhigh.
  destruct (10 <=? _)%float; [| reflexivity].
  destruct (_ && _) eqn:Hdue; [reflexivity |].
  rewrite death_part_not_due by exact Hdue. reflexivity.
Qed.

Lemma dyn_detect_short (ticker : string) (w : World) (s : State) (df : Dyn.Frame) :
  (length (Dyn.index df) < 2)%nat → Dyn.detect ticker (Some df) w s = (s, Returns tt).
Proof.
  intros Hshort. unfold Dyn.detect. apply Nat.ltb_lt in Hshort. rewrite Hshort.
  reflexivity.
Qed.

Lemma of_raw_outcome (raw : RawFrame) (limit : nat) :
  raw ≠ [] →
  fetch_outcome_of (Dyn.FeedFrame (of_raw raw)) limit =
  FetchFrame (Dyn.tail limit (enriched (of_raw raw) (column_of raw Volume)
                                (column_of raw Close) (column_of raw Open))).
Proof.
  intros Hrows. unfold fetch_outcome_of.
  replace (Dyn.empty (of_raw raw)) with false.
  - rewrite of_raw_volume, of_raw_close, of_raw_open. reflexivity.
  - symmetry. unfold Dyn.empty. apply orb_false_iff.
    split; apply bool_decide_eq_false_2.
    + cbn. intros Hnil. apply fmap_nil_inv in Hnil. contradiction.
    + intros Hdom.
      assert (Hin : "Open"%string ∈ dom (Dyn.columns (of_raw raw)))
        by (apply elem_of_dom; eexists; apply of_raw_open).
      rewrite Hdom in Hin. apply not_elem_of_empty in Hin. exact Hin.
Qed.

(** On a download that has the five columns, the evaluation over named
    columns is the evaluation over records. *)
Lemma dyn_check_agrees (feed : Dyn.Feed) (ticker : string) (w : World) (s : State) :
  feed (downloads s) ticker = of_download (yf_download w (downloads s) ticker) →
  Dyn.check_spike_and_death_candle feed ticker w s =
  check_spike_and_death_candle ticker w s.
Proof.
  intros Hfeed. rewrite check_spike_and_death_candle_run.
  unfold fetched. rewrite get_5min_candles_run.
  destruct (yf_download w (downloads s) ticker) as [msg | raw] eqn:Hdl;
    cbn [of_download] in Hfeed.
  - rewrite dyn_check_no_frame by (rewrite Hfeed; reflexivity).
    unfold dyn_fetched. rewrite Hfeed. reflexivity.
  - destruct (decide (raw = [])) as [-> | Hrows].
    { rewrite dyn_check_no_frame by (rewrite Hfeed; reflexivity).
      unfold dyn_fetched. rewrite Hfeed. reflexivity. }
    destruct (Nat.lt_ge_cases (length raw) 2) as [Hshort | Hlong].
    + apply dyn_check_passed. rewrite dyn_try_block. unfold dyn_fetched.
      rewrite Hfeed, of_raw_outcome by exact Hrows.
      cbn [fetched_frame fetch_log fst].
      rewrite dyn_detect_short
        by (unfold Dyn.tail; cbn [Dyn.index]; rewrite length_drop, enriched_index;
            cbn [of_raw Dyn.index]; rewrite length_fmap; lia).
      rewrite detect_short.
      * reflexivity.
      * unfold window_of. rewrite bool_decide_eq_false_2 by exact Hrows.
        unfold short_window, Pandas.tail.
        rewrite length_drop, with_indicators_length. lia.
    + destruct (last_two_split raw Hlong) as (rpre & [pt pb] & [ct cb] & Hraw).
      assert (Hindex : Dyn.index (of_raw raw) = rpre.*1 ++ [pt; ct])
        by (rewrite Hraw; cbn; rewrite fmap_app; reflexivity).
      apply dyn_check_passed.
      rewrite (dyn_try_block_window feed ticker w s (of_raw raw) rpre.*1 pt ct
                 (column_of raw Volume) (column_of raw Close) (column_of raw Open)
                 Hfeed Hindex (of_raw_volume raw) (of_raw_close raw) (of_raw_open raw)).
      rewrite detect_outcome_complete
        by (rewrite enriched_high, of_raw_high; eexists; reflexivity).
      rewrite length_fmap.
      rewrite (candle_of_raw raw (length rpre) pt pb)
        by (rewrite Hraw; replace (length rpre) with (length rpre + 0)%nat at 1 by lia;
            apply lookup_first_of_two).
      rewrite (candle_of_raw raw (S (length rpre)) ct cb)
        by (rewrite Hraw; replace (S (length rpre)) with (length rpre + 1)%nat at 1 by lia;
            apply lookup_last_of_two).
      destruct (window_of_download rpre pt ct pb cb) as (rows & Hwindow).
      rewrite <- Hraw in Hwindow. rewrite Hwindow, detect_window.
      cbn [candle_move_pct candle_at fst fetch_events].
      reflexivity.
Qed.

(** ** The trace of an evaluation, whatever it runs into *)

Lemma fetch_frame_inv (r : Dyn.feed_result) (limit : nat) (win : Dyn.Frame) :
  fetch_outcome_of r limit = FetchFrame win →
  ∃ df volume close open,
    r = Dyn.FeedFrame df
    ∧ Dyn.columns df !! "Volume"%string = Some volume
    ∧ Dyn.columns df !! "Close"%string = Some close
    ∧ Dyn.columns df !! "Open"%string = Some open
    ∧ win = Dyn.tail limit (enriched df volume close open).
Proof.
  unfold fetch_outcome_of. destruct r as [msg | df]; [discriminate |].
  destruct (Dyn.empty df); [discriminate |].
  destruct (Dyn.columns df !! "Volume"%string) as [volume |] eqn:Hvolume;
    [| discriminate].
  destruct (Dyn.columns df !! "Close"%string) as [close |] eqn:Hclose;
    [| discriminate].
  destruct (Dyn.columns df !! "Open"%string) as [open |] eqn:Hopen;
    [| discriminate].
  intros [= <-]. exists df, volume, close, open. repeat split; assumption.
Qed.

Lemma downloaded_spike_events ticker w pt p s :
  downloaded (spike_events ticker w pt p s) = [].
Proof.
  unfold spike_events. destruct (bool_decide _); [apply downloaded_send_events | reflexivity].
Qed.

Lemma downloaded_death_events ticker w ct p c s :
  downloaded (death_events ticker w ct p c s) = [].
Proof.
  unfold death_events. destruct (_ && _); [apply downloaded_send_events | reflexivity].
Qed.

Lemma detect_outcome_trace (ticker : string) (w : World) (df : Dyn.Frame)
    (pre : list datetime) (a b : datetime) (s : State) :
  ∃ evs, trace (detect_outcome ticker w df pre a b s).1 = trace s ++ evs
         ∧ downloaded evs = [].
Proof.
  unfold detect_outcome.
  destruct (10 <=? _)%float.
  2:{ exists []. rewrite app_nil_r. split; reflexivity. }
  destruct (_ && _).
  2:{ eexists. split; [apply spike_part_trace | apply downloaded_spike_events]. }
  destruct (Dyn.columns df !! "High"%string).
  - eexists. split.
    + cbn [fst]. rewrite death_part_trace, spike_part_trace, <- app_assoc. reflexivity.
    + rewrite downloaded_app, downloaded_spike_events, downloaded_death_events.
      reflexivity.
  - eexists. split; [apply spike_part_trace | apply downloaded_spike_events].
Qed.

Lemma dyn_detect_trace (ticker : string) (w : World) (win : Dyn.Frame) (s : State) :
  is_Some (Dyn.columns win !! "candle_move_pct"%string) →
  is_Some (Dyn.columns win !! "Close"%string) →
  is_Some (Dyn.columns win !! "Open"%string) →
  ∃ evs, trace (Dyn.detect ticker (Some win) w s).1 = trace s ++ evs
         ∧ downloaded evs = [].
Proof.
  intros Hmove Hclose Hopen.
  destruct (Nat.lt_ge_cases (length (Dyn.index win)) 2) as [Hshort | Hlong].
  - rewrite dyn_detect_short by exact Hshort.
    exists []. rewrite app_nil_r. split; reflexivity.
  - destruct (last_two_split (Dyn.index win) Hlong) as (pre & a & b & Hindex).
    rewrite (dyn_detect_run ticker w win pre a b Hindex Hmove Hclose Hopen).
    apply detect_outcome_trace.
Qed.

Lemma downloaded_fetch_log (ticker : string) (o : fetch_outcome) :
  downloaded (fetch_log ticker o) = [].
Proof. destruct o; reflexivity. Qed.

Lemma dyn_try_block_trace (feed : Dyn.Feed) (ticker : string) (w : World) (s : State) :
  ∃ evs,
    trace ((Dyn.get_5min_candles feed ticker 100 ≫= Dyn.detect ticker) w s).1 =
    trace s ++ EvDownload ticker :: evs
    ∧ downloaded evs = [].
Proof.
  rewrite dyn_try_block.
  destruct (fetch_outcome_of (feed (downloads s) ticker) 100) as [msg | | win] eqn:Hout.
  - eexists. split; [unfold dyn_fetched; rewrite Hout; reflexivity | reflexivity].
  - eexists. split; [unfold dyn_fetched; rewrite Hout; reflexivity | reflexivity].
  - destruct (fetch_frame_inv _ _ _ Hout)
      as (df & volume & close & open & _ & Hvolume & Hclose & Hopen & ->).
    destruct (dyn_detect_trace ticker w
                (Dyn.tail 100 (enriched df volume close open))
                (dyn_fetched feed ticker s)) as (evs & Htrace & Hdl).
    + apply tail_columns_is_Some. rewrite enriched_move. eexists. reflexivity.
    + apply tail_columns_is_Some.
      rewrite (enriched_close df volume close open Hclose). eexists. reflexivity.
    + apply tail_columns_is_Some.
      rewrite (enriched_open df volume close open Hopen). eexists. reflexivity.
    + exists evs. split; [| exact Hdl].
      cbn [fetched_frame]. rewrite Htrace. unfold dyn_fetched. rewrite Hout.
      cbn [trace fetch_log]. rewrite <- app_assoc. reflexivity.
Qed.

(** One evaluation downloads once, whatever happens next. *)
Lemma dyn_check_trace (feed : Dyn.Feed) (ticker : string) (w : World) (s : State) :
  ∃ evs,
    trace (Dyn.check_spike_and_death_candle feed ticker w s).1 =
    trace s ++ EvDownload ticker :: evs
    ∧ downloaded evs = [].
Proof.
  destruct (dyn_try_block_trace feed ticker w s) as (evs & Htrace & Hdl).
  destruct ((Dyn.get_5min_candles feed ticker 100 ≫= Dyn.detect ticker) w s)
    as [s' [[] | e]] eqn:Hbody.
  - rewrite (dyn_check_passed _ _ _ _ _ Hbody). exists evs. split; assumption.
  - rewrite (dyn_check_caught _ _ _ _ _ _ Hbody).
    exists (evs ++ [check_error ticker e]). split.
    + cbn [fst logged trace]. cbn [fst] in Htrace. rewrite Htrace, <- app_assoc.
      reflexivity.
    + rewrite downloaded_app, Hdl. reflexivity.
Qed.

(** ** The loop over the tickers *)

(** The state after one ticker of the loop: evaluated, then slept. *)
Definition dyn_after_ticker (feed : Dyn.Feed) (stock : string) (w : World) (s : State)
  : State :=
  (time_sleep 0.5 w (Dyn.check_spike_and_death_candle feed stock w s).1).1.

Section DynLoop.

Variables (feed : Dyn.Feed) (w : World).

Lemma dyn_ticker_loop_cons (stock : string) (stocks : list string) (s : State) :
  Dyn.ticker_loop feed (stock :: stocks) w s =
  Dyn.ticker_loop feed stocks w (dyn_after_ticker feed stock w s).
Proof.
  unfold Dyn.ticker_loop at 1. cbn [for_each]. fold (Dyn.ticker_loop feed stocks).
  unfold dyn_after_ticker. cbv [mbind M_bind].
  pose proof (dyn_check_returns feed stock w s) as Hret.
  destruct (Dyn.check_spike_and_death_candle feed stock w s) as [s1 r]. cbn in Hret.
  subst r. reflexivity.
Qed.

Lemma dyn_ticker_loop_returns (stocks : list string) (s : State) :
  (Dyn.ticker_loop feed stocks w s).2 = Returns tt.
Proof.
  revert s. induction stocks as [| stock stocks IH]; intros s; [reflexivity |].
  rewrite dyn_ticker_loop_cons. apply IH.
Qed.

Lemma dyn_ticker_loop_app (stocks1 stocks2 : list string) (s : State) :
  Dyn.ticker_loop feed (stocks1 ++ stocks2) w s =
  Dyn.ticker_loop feed stocks2 w (Dyn.ticker_loop feed stocks1 w s).1.
Proof.
  revert s. induction stocks1 as [| stock stocks1 IH]; intros s; [reflexivity |].
  cbn [app]. rewrite !dyn_ticker_loop_cons. apply IH.
Qed.

Lemma dyn_after_ticker_trace (stock : string) (s : State) :
  ∃ evs, trace (dyn_after_ticker feed stock w s) = trace s ++ evs
         ∧ downloaded evs = [stock].
Proof.
  destruct (dyn_check_trace feed stock w s) as (evs & Htrace & Hdl).
  exists (EvDownload stock :: evs ++ [EvSleep 0.5]). split.
  - unfold dyn_after_ticker. cbv [time_sleep emit]. cbn [fst trace].
    rewrite Htrace, <- app_assoc. reflexivity.
  - change (downloaded (EvDownload stock :: ?l)) with (stock :: downloaded l).
    rewrite downloaded_app, Hdl. reflexivity.
Qed.

Lemma dyn_ticker_loop_trace (stocks : list string) (s : State) :
  ∃ evs, trace (Dyn.ticker_loop feed stocks w s).1 = trace s ++ evs
         ∧ downloaded evs = stocks.
Proof.
  revert s. induction stocks as [| stock stocks IH]; intros s.
  - exists []. rewrite app_nil_r. split; reflexivity.
  - rewrite dyn_ticker_loop_cons.
    destruct (dyn_after_ticker_trace stock s) as (evs1 & Htrace1 & Hdl1).
    destruct (IH (dyn_after_ticker feed stock w s)) as (evs & Htrace & Hdl).
    exists (evs1 ++ evs). split.
    + rewrite Htrace, Htrace1, <- app_assoc. reflexivity.
    + rewrite downloaded_app, Hdl1, Hdl. reflexivity.
Qed.

(** A pass of the loop on an open market: the handler of line 167 is not
    reached. *)
Lemma dyn_main_pass_open (n : nat) (s : State) :
  get_market_status (now_et w n) = true →
  Dyn.main_pass feed n w s =
  time_sleep 300 w (Dyn.ticker_loop feed (STOCKS w) w (emit (cycle_banner w n) w s).1).1.
Proof.
  intros Hopen. unfold Dyn.main_pass, try_except.
  rewrite (run_bind_returns get_world _ w s s w eq_refl). rewrite Hopen.
  pose proof (dyn_ticker_loop_returns (STOCKS w) (emit (cycle_banner w n) w s).1)
    as Hret.
  destruct (Dyn.ticker_loop feed (STOCKS w) w (emit (cycle_banner w n) w s).1)
    as [s2 r] eqn:Hloop.
  cbn in Hret. subst r.
  erewrite run_bind_returns.
  2:{ erewrite run_bind_returns by reflexivity. exact Hloop. }
  reflexivity.
Qed.

End DynLoop.

Lemma dyn_ticker_loop_emitted (feed : Dyn.Feed) (w : World) (stocks : list string)
    (s : State) :
  trace (Dyn.ticker_loop feed stocks w s).1 =
  trace s ++ emitted (Dyn.ticker_loop feed stocks) w s.
Proof.
  destruct (dyn_ticker_loop_trace feed w stocks s) as (evs & Htrace & _).
  apply (trace_emitted _ _ _ _ Htrace).
Qed.

Lemma dyn_check_emitted (feed : Dyn.Feed) (ticker : string) (w : World) (s : State) :
  trace (Dyn.check_spike_and_death_candle feed ticker w s).1 =
  trace s ++ emitted (Dyn.check_spike_and_death_candle feed ticker) w s.
Proof.
  destruct (dyn_check_trace feed ticker w s) as (evs & Htrace & _).
  apply (trace_emitted _ _ _ _ Htrace).
Qed.

(** The events of the loop, cut at one of its tickers. *)
Lemma dyn_ticker_loop_split (feed : Dyn.Feed) (w : World) (stocks1 stocks2 : list string)
    (ticker : string) (s : State) :
  let s1 := (Dyn.ticker_loop feed stocks1 w s).1 in
  emitted (Dyn.ticker_loop feed (stocks1 ++ ticker :: stocks2)) w s =
  emitted (Dyn.ticker_loop feed stocks1) w s
  ++ emitted (Dyn.check_spike_and_death_candle feed ticker) w s1
  ++ EvSleep 0.5
  :: emitted (Dyn.ticker_loop feed stocks2) w (dyn_after_ticker feed ticker w s1).
Proof.
  intros s1. apply emitted_of_trace.
  rewrite dyn_ticker_loop_app, dyn_ticker_loop_cons. fold s1.
  rewrite dyn_ticker_loop_emitted.
  unfold dyn_after_ticker at 1. cbv [time_sleep emit]. cbn [fst trace].
  rewrite dyn_check_emitted. unfold s1 at 1. rewrite dyn_ticker_loop_emitted.
  rewrite <- !app_assoc. reflexivity.
Qed.

(** In the record model only the download can raise: an evaluation returns,
    the loop goes through the whole list, and a cycle on an open market
    downloads every configured ticker. *)
Lemma record_model_isolation :
  (∀ (ticker : string) (w : World) (s : State),
     (check_spike_and_death_candle ticker w s).2 = Returns tt)
  ∧ (∀ (ticker : string) (w : World) (s : State) (msg : string),
       yf_download w (downloads s) ticker = DownloadRaises msg →
       emitted (check_spike_and_death_candle ticker) w s =
       [EvDownload ticker;
        EvLog ERROR ("Error fetching candles for " ++ ticker ++ ": " ++ msg)%string])
  ∧ (∀ (stocks : list string) (w : World) (s : State),
       (ticker_loop stocks w s).2 = Returns tt
       ∧ downloaded (emitted (ticker_loop stocks) w s) = stocks)
  ∧ (∀ (n : nat) (w : World) (s : State),
       get_market_status (now_et w n) = true →
       (main_pass n w s).2 = Returns tt
       ∧ downloaded (emitted (main_pass n) w s) = STOCKS w).
Proof.
  split; [exact check_returns |]. split; [| split].
  - intros ticker w s msg Hraises.
    assert (Hshort : short_window (window_of (yf_download w (downloads s) ticker) 100))
      by (rewrite Hraises; exact I).
    rewrite (check_short_emitted _ _ _ Hshort), Hraises. reflexivity.
  - intros stocks w s.
    destruct (ticker_loop_run stocks w s) as (Hret & evs & Htrace & Hdl).
    split; [exact Hret |].
    rewrite (emitted_of_trace _ _ _ _ Htrace). exact Hdl.
  - intros n w s Hopen.
    destruct (ticker_loop_run (STOCKS w) w (emit (cycle_banner w n) w s).1)
      as (_ & evs & Htrace & Hdl).
    split; [rewrite main_pass_open by assumption; reflexivity |].
    rewrite (emitted_of_trace (main_pass n) w s
               (cycle_banner w n :: evs ++ [EvSleep 300])).
    + change (downloaded (cycle_banner w n :: ?t)) with (downloaded t).
      rewrite downloaded_app, Hdl. apply app_nil_r.
    + rewrite main_pass_open by assumption.
      cbv [time_sleep]. unfold emit at 1. cbn [fst trace].
      rewrite Htrace. cbv [emit]. cbn [fst trace].
      rewrite <- !app_assoc. reflexivity.
Qed.

(** C8. Whatever is raised while one ticker is fetched or evaluated stays
    inside the evaluation of that ticker, and the loop goes on to the next
    ticker.  Frames are read by column name here, so that a lookup can fail.
    - An evaluation returns, whatever its [try] block does; an exception of
      the block is caught by the handler of lines 143 and 144, which logs
      ["Error checking <ticker>: <exception>"].
    - An exception of the download, or a missing [Volume], [Close] or [Open]
      column, is caught earlier, by [get_5min_candles], which logs it and
      hands over no frame: the evaluation then emits the download and that
      log line and nothing else.
    - The block does raise: when the frame has no [High] column and an ENTRY
      alert is due, line 120 raises [KeyError].  The SPIKE alert, if due, has
      been posted and recorded by then; the ENTRY alert is neither posted nor
      recorded.
    - On a download that has the five columns, the evaluation is the one of
      the record model, alerts and dictionaries included.
    - In the loop over the tickers, each ticker is evaluated from the state
      the tickers before it left, whatever they raised, followed by the pause
      of 0.5 s and by the tickers after it; the loop returns and every
      ticker is downloaded, in order.  On an open market a pass of the main
      loop is the banner, the loop over [STOCKS] and the sleep of 300 s.
    - In the record model, where only the download can raise, the same
      holds: an evaluation returns, a raising download is logged, the loop
      and a pass on an open market return and download every ticker. *)
Theorem per_ticker_failure_isolation (feed : Dyn.Feed) :
  (∀ ticker w s, (Dyn.check_spike_and_death_candle feed ticker w s).2 = Returns tt)
  ∧ (∀ ticker w s s' e,
       (Dyn.get_5min_candles feed ticker 100 ≫= Dyn.detect ticker) w s = (s', Raises e) →
       Dyn.check_spike_and_death_candle feed ticker w s =
       (logged s' (EvLog ERROR ("Error checking " ++ ticker ++ ": " ++ exn_str e)%string),
        Returns tt))
  ∧ (∀ ticker w s msg,
       fetch_outcome_of (feed (downloads s) ticker) 100 = FetchError msg →
       emitted (Dyn.check_spike_and_death_candle feed ticker) w s =
       [EvDownload ticker;
        EvLog ERROR ("Error fetching candles for " ++ ticker ++ ": " ++ msg)%string])
  ∧ (∀ ticker w s df pre prev_time current_time volume close open,
       feed (downloads s) ticker = Dyn.FeedFrame df →
       Dyn.index df = pre ++ [prev_time; current_time] →
       Dyn.columns df !! "Volume"%string = Some volume →
       Dyn.columns df !! "Close"%string = Some close →
       Dyn.columns df !! "Open"%string = Some open →
       Dyn.columns df !! "High"%string = None →
       (10 <=? ((close (length pre) - open (length pre)) / open (length pre)) * 100)%float
         = true →
       (close (S (length pre)) <? open (S (length pre)))%float = true →
       death_key ticker current_time ∉ dom (alerted_deaths s) →
       (∃ s', (Dyn.get_5min_candles feed ticker 100 ≫= Dyn.detect ticker) w s =
              (s', Raises (Exception "'High'")))
       ∧ (∃ evs,
            emitted (Dyn.check_spike_and_death_candle feed ticker) w s =
            EvDownload ticker
            :: evs ++ [EvLog ERROR ("Error checking " ++ ticker ++ ": 'High'")%string]
            ∧ posted evs =
              if bool_decide (spike_key ticker prev_time ∉ dom (alerted_spikes s))
              then [spike_origin ticker prev_time] else [])
       ∧ alerted_spikes (Dyn.check_spike_and_death_candle feed ticker w s).1 =
         (if bool_decide (spike_key ticker prev_time ∉ dom (alerted_spikes s))
          then <[spike_key ticker prev_time := current_time]> (alerted_spikes s)
          else alerted_spikes s)
       ∧ alerted_deaths (Dyn.check_spike_and_death_candle feed ticker w s).1 =
         alerted_deaths s)
  ∧ (∀ ticker w s,
       feed (downloads s) ticker = of_download (yf_download w (downloads s) ticker) →
       Dyn.check_spike_and_death_candle feed ticker w s =
       check_spike_and_death_candle ticker w s)
  ∧ (∀ stocks1 ticker stocks2 w s,
       Dyn.ticker_loop feed (stocks1 ++ ticker :: stocks2) w s =
       Dyn.ticker_loop feed stocks2 w
         (dyn_after_ticker feed ticker w (Dyn.ticker_loop feed stocks1 w s).1)
       ∧ emitted (Dyn.ticker_loop feed (stocks1 ++ ticker :: stocks2)) w s =
         emitted (Dyn.ticker_loop feed stocks1) w s
         ++ emitted (Dyn.check_spike_and_death_candle feed ticker) w
              (Dyn.ticker_loop feed stocks1 w s).1
         ++ EvSleep 0.5
         :: emitted (Dyn.ticker_loop feed stocks2) w
              (dyn_after_ticker feed ticker w (Dyn.ticker_loop feed stocks1 w s).1))
  ∧ (∀ stocks w s,
       (Dyn.ticker_loop feed stocks w s).2 = Returns tt
       ∧ downloaded (emitted (Dyn.ticker_loop feed stocks) w s) = stocks)
  ∧ (∀ n w s,
       get_market_status (now_et w n) = true →
       (Dyn.main_pass feed n w s).2 = Returns tt
       ∧ emitted (Dyn.main_pass feed n) w s =
         cycle_banner w n
         :: emitted (Dyn.ticker_loop feed (STOCKS w)) w (emit (cycle_banner w n) w s).1
         ++ [EvSleep 300])
  ∧ (∀ (ticker : string) (w : World) (s : State),
       (check_spike_and_death_candle ticker w s).2 = Returns tt)
  ∧ (∀ (ticker : string) (w : World) (s : State) (msg : string),
       yf_download w (downloads s) ticker = DownloadRaises msg →
       emitted (check_spike_and_death_candle ticker) w s =
       [EvDownload ticker;
        EvLog ERROR ("Error fetching candles for " ++ ticker ++ ": " ++ msg)%string])
  ∧ (∀ (stocks : list string) (w : World) (s : State),
       (ticker_loop stocks w s).2 = Returns tt
       ∧ downloaded (emitted (ticker_loop stocks) w s) = stocks)
  ∧ (∀ (n : nat) (w : World) (s : State),
       get_market_status (now_et w n) = true →
       (main_pass n w s).2 = Returns tt
       ∧ downloaded (emitted (main_pass n) w s) = STOCKS w).
Proof.
  split; [exact (dyn_check_returns feed) |].
  split; [exact (dyn_check_caught feed) |].
  split.
  { intros ticker w s msg Hout. apply emitted_of_trace.
    rewrite dyn_check_no_frame by (rewrite Hout; reflexivity).
    unfold dyn_fetched. rewrite Hout. reflexivity. }
  split.
  { intros ticker w s df pre prev_time current_time volume close open
      Hfeed Hindex Hvolume Hclose Hopen Hhigh Hspike Hred Hnew.
    pose proof (try_block_missing_high feed ticker w s df pre prev_time current_time
                  volume close open Hfeed Hindex Hvolume Hclose Hopen Hhigh Hspike
                  Hred Hnew) as Hraise.
    rewrite (dyn_check_caught _ _ _ _ _ _ Hraise). cbn [fst logged].
    split; [eexists; exact Hraise |].
    split; [| split].
    - destruct (at_missing_high_trace ticker w s df pre prev_time current_time
                  volume close open) as (evs & Htrace & Hposted).
      exists evs. split; [| exact Hposted].
      unfold emitted.
      rewrite (dyn_check_caught _ _ _ _ _ _ Hraise). cbn [fst logged trace].
      rewrite Htrace, <- app_assoc. rewrite drop_app_length. reflexivity.
    - apply at_missing_high_alerted_spikes.
    - apply at_missing_high_alerted_deaths. }
  split; [exact (dyn_check_agrees feed) |].
  split.
  { intros stocks1 ticker stocks2 w s. split.
    - rewrite dyn_ticker_loop_app, dyn_ticker_loop_cons. reflexivity.
    - apply dyn_ticker_loop_split. }
  split.
  { intros stocks w s. split; [apply dyn_ticker_loop_returns |].
    destruct (dyn_ticker_loop_trace feed w stocks s) as (evs & Htrace & Hdl).
    rewrite (emitted_of_trace _ _ _ _ Htrace). exact Hdl. }
  split; [| exact record_model_isolation].
  intros n w s Hopen. split.
  - rewrite (dyn_main_pass_open feed w n s Hopen). reflexivity.
  - apply emitted_of_trace. rewrite (dyn_main_pass_open feed w n s Hopen).
    cbv [time_sleep]. unfold emit at 1. cbn [fst trace].
    rewrite dyn_ticker_loop_emitted. cbv [emit]. cbn [fst trace].
    rewrite <- !app_assoc. reflexivity.
Qed.

Module Patchy.

(** The bars of [Demo.spike_then_red], delivered without the [High]
    column. *)
Definition no_high : Dyn.Frame :=
  Dyn.mk_Frame Demo.spike_then_red.*1
    (delete "High"%string (Dyn.columns (of_raw Demo.spike_then_red))).

(** The download of GONE raises, BAD comes without [High], every other
    ticker comes with the five columns. *)
Definition feed : Dyn.Feed := λ _ ticker,
  if bool_decide (ticker = "GONE"%string)
  then Dyn.FeedRaises "No data found, symbol may be delisted"
  else if bool_decide (ticker = "BAD"%string)
       then Dyn.FeedFrame no_high
       else Dyn.FeedFrame (of_raw Demo.spike_then_red).

Definition stocks : list string := ["GONE"%string; "BAD"%string; "FFIE"%string].

End Patchy.

Lemma per_ticker_failure_isolation_witness :
  (Dyn.ticker_loop Patchy.feed Patchy.stocks Flaky.world initial_state).2 = Returns tt
  ∧ emitted (Dyn.check_spike_and_death_candle Patchy.feed "GONE") Flaky.world
      initial_state =
    [EvDownload "GONE";
     EvLog ERROR
       "Error fetching candles for GONE: No data found, symbol may be delisted"]
  ∧ (∃ evs,
       emitted (Dyn.check_spike_and_death_candle Patchy.feed "BAD") Flaky.world
         initial_state =
       EvDownload "BAD" :: evs ++ [EvLog ERROR "Error checking BAD: 'High'"]
       ∧ posted evs = [spike_origin "BAD" (Demo.at_time 9 35)])
  ∧ (∃ s',
       Dyn.check_spike_and_death_candle Patchy.feed "BAD" Flaky.world initial_state =
       (logged s' (EvLog ERROR "Error checking BAD: 'High'"), Returns tt))
  ∧ alerted_deaths
      (Dyn.check_spike_and_death_candle Patchy.feed "BAD" Flaky.world initial_state).1
    = ∅
  ∧ Dyn.check_spike_and_death_candle Patchy.feed "FFIE" Flaky.world initial_state =
    check_spike_and_death_candle "FFIE" Flaky.world initial_state
  ∧ posted (emitted (Dyn.ticker_loop Patchy.feed Patchy.stocks) Flaky.world
              initial_state) =
    [spike_origin "BAD" (Demo.at_time 9 35);
     spike_origin "FFIE" (Demo.at_time 9 35);
     entry_origin "FFIE" (Demo.at_time 9 40)]
  ∧ (Dyn.main_pass Patchy.feed 0 Flaky.world initial_state).2 = Returns tt
  ∧ emitted (check_spike_and_death_candle "BAD") Flaky.world initial_state =
    [EvDownload "BAD";
     EvLog ERROR
       "Error fetching candles for BAD: No data found, symbol may be delisted"]
  ∧ downloaded (emitted (main_pass 0) Flaky.world initial_state) = ["BAD"; "FFIE"]%string.
Proof.
  destruct (per_ticker_failure_isolation Patchy.feed)
    as (Hreturns & Hcaught & Hfetch & Hhigh & Hagree & Hsplit & Hloop & Hpass
        & _ & Hrecord_fetch & _ & Hrecord_pass).
  destruct (Hhigh "BAD"%string Flaky.world initial_state Patchy.no_high []
              (Demo.at_time 9 35) (Demo.at_time 9 40)
              (column_of Demo.spike_then_red Volume)
              (column_of Demo.spike_then_red Close)
              (column_of Demo.spike_then_red Open))
    as ((s' & Hraise) & (evs & Hemitted & Hposted) & Hspikes & Hdeaths);
    try reflexivity.
  { apply not_elem_of_dom. reflexivity. }
  split; [apply (Hloop Patchy.stocks Flaky.world initial_state) |].
  split; [apply (Hfetch "GONE"%string Flaky.world initial_state); reflexivity |].
  split; [exists evs; split; [exact Hemitted | exact Hposted] |].
  split; [exists s'; apply (Hcaught "BAD"%string Flaky.world initial_state s' _ Hraise) |].
  split; [exact Hdeaths |].
  split; [apply (Hagree "FFIE"%string Flaky.world initial_state); reflexivity |].
  split.
  - destruct (Hsplit ["GONE"%string; "BAD"%string] "FFIE"%string []
                Flaky.world initial_state) as [_ Hevents].
    change (["GONE"%string; "BAD"%string] ++ ["FFIE"%string]) with Patchy.stocks
      in Hevents.
    rewrite Hevents. vm_compute. reflexivity.
  - assert (Hopen : get_market_status (now_et Flaky.world 0) = true)
      by (vm_compute; reflexivity).
    split; [apply (Hpass 0%nat Flaky.world initial_state Hopen) |].
    split; [apply (Hrecord_fetch "BAD"%string Flaky.world initial_state); reflexivity |].
    apply (Hrecord_pass 0%nat Flaky.world initial_state Hopen).
Defined.
